(* ===== verification/_CoqProject ===== *)
-Q . S2P
Prelude.v
Xlib.v
Registry.v
Layout.v
Framing.v
Shutdown.v
Runs.v
Potential.v
OwenC.v
CReach.v
Scenario.v
CppState.v
Drag.v
OwenCpp.v
CppReach.v
CppScenario.v
