(* ===== verification/Prelude.v ===== *)
(** * Owen: a verification development of a reparenting X11 window manager

    The repository holds two implementations of one small window manager:

    - [src/owen.c]: the C implementation.  A single global [Owen owen]
      holds the display, the root window and an [OwenScreen] with the
      screen size and a fixed array [clients[256]] of [{win, frame}]
      records.  [owen_init] opens the display and runs the rival-WM
      handshake, [owen_reframe] frames the pre-existing top-level
      windows under a server grab, [owen_run] is the event loop
      dispatching [MapRequest], [ConfigureRequest] and [UnmapNotify].
      New frames are placed by the layout functions
      [owen_frame_get_width], [owen_frame_get_height] and
      [owen_frame_get_start_point].
    - [src/owen.hpp] / [src/owen.cpp]: the C++ class [WindowManager],
      with an [unordered_map<Window, Window> clients_], frames at
      (50,50) with the client's size, and the interactive drag
      controller ([OnButtonPress], [OnMotionNotify]).

    Both talk to the X server only through Xlib.

    ** Layout of the development

    - [Prelude] (this file): the window-handle type, the small state and
      error monad [M] in which all handlers are written (the C [exit],
      a failed glog [CHECK] and undefined behaviour are the [halt]
      outcomes), the C integer helpers (truncating [c_div], the
      32-bit [int] range), the C [for]-with-[break] search loop
      [c_for_find] and its lemmas, the hint database [owen], and the
      invariants of computations: [steps R m] (every successful run of
      [m] relates its start and end states by [R]) with its
      compositional lemmas and the tactic [keeps_split].
    - [Xlib]: the X server as the core sees it (the Display Gateway of
      the spec, an external collaborator, modelled from the spec's
      contract and the X protocol): windows with parent, geometry, map
      state and the event mask the window manager selected; the save
      set; the stacking order; the event queue and the pending protocol
      errors; a log of the requests issued.  Each Xlib call the sources
      make is one definition that updates this state and appends to the
      log, generating the [UnmapNotify]/[MapNotify]/... events the
      protocol prescribes for the window manager's own requests.
    - [Registry]: the C client registry [owen_clients_add],
      [owen_clients_get_index], [owen_clients_delete] over the fixed
      array, the abstract registry (a finite map client -> frame) and
      the refinement theorems, with the array invariant.
    - [Layout]: the C layout functions with C integer division.
    - [Framing]: the part of the X server state the framing invariant
      reads ([XStruct]: root, parent and selected mask of every window,
      save set, next window id) and the invariant [frames_ok m R t],
      shared by both implementations: every client [c] of the registry
      [R] lives in its own frame [f], a top-level window with the mask
      [m] whose only child is [c], and [c] is in the save set.  Its
      preservation lemmas for each X request the framing code makes.
    - [Shutdown]: [XCloseDisplay] as the protocol specifies it for a
      closing connection: every window of the connection's save set
      that is inside a window the connection created is reparented to
      the closest ancestor not created by it, keeping its absolute
      position, and mapped; then the windows the connection created are
      destroyed with their subtrees.  The ownership invariant [owns]
      (the connection created exactly the frames) and its preservation
      by framing, unframing and other clients' windows ([frames_step],
      [allocs]).
    - [Runs]: what other X clients do between two iterations of a
      window manager's loop (create a window outside the frames, unmap
      a window, or the server queues an event), the step relation
      [run_step] interleaving them with the loop, for either program,
      and the invariant argument by induction on the run; [queue_grows]
      (the handlers only append to the event queue) and [run_in_order],
      the argument that a loop dispatches the queued events in order,
      against the reference [dispatch_all].
    - [Potential]: the termination measure of the event loops: the
      weight of the queue (16 for a redirected request or a pointer
      event, 1 for a notification) plus a per-program part, the bound
      [costs k m] (a run of [m] raises the potential by at most [k])
      with its compositional lemmas and the tactic [costs_split], and
      the generic theorem [run_terminates].
    - [OwenC]: the C window manager: [owen_frame], [owen_unframe], the
      three event handlers, one step of [owen_run], [owen_reframe],
      [owen_init], [owen_destroy] and [main], in the monad over
      [CWorld] (the global [owen] and the X server); the invariant
      [owen_ok] and its preservation; the handlers keep the installed
      error handler and only append to the queue, and the loop handles
      the events in order.
    - [CReach]: [run_step] for the C loop, the termination of the
      loop, the invariant along every run, and what [owen_destroy]
      leaves.
    - [Scenario]: concrete runs of the C code (the spec's three-client
      scenario, a run among other clients) and the witnesses of the
      theorems of [Registry], [OwenC] and [CReach].
    - [CppState]: the [WindowManager] object ([root_], [clients_], the
      six drag members as [option Z], [None] being an indeterminate
      value), the static [wm_detected_], [unordered_map::count] and
      [operator[]] (which inserts a value-initialised [Window]),
      [WindowManager::Create] and the constructor.
    - [Drag]: [OnButtonPress] and [OnMotionNotify] on 32-bit [int]
      (signed overflow undefined, [unsigned] converted by [to_int32]),
      and the motion loop of [Run] ([coalesce_motion]) with its
      reference definition ([last_motion], [other_events]).
    - [OwenCpp]: [Frame], [Unframe], [OnMapRequest],
      [OnConfigureRequest], [OnUnmapNotify], the error handlers
      [OnWMDetected] and [OnXError], and [Run] split into the handshake
      [Run_init], the re-scan [Run_reframe] and the loop [Run_step] /
      [Run_loop]; the destructor [WindowManager_dtor]; the invariant
      [cpp_ok] and its preservation; the handlers keep the installed
      error handler, and the loop handles the events in order when no
      motion event is among them.
    - [CppReach]: [run_step] for the C++ loop ([cpp_step]), the
      termination of the loop, the invariant along every run, and what
      the destructor leaves.
    - [CppScenario]: concrete runs of the C++ code (the scenario with a
      drag, a run among other clients) and the witnesses of the
      theorems of [OwenCpp], [Drag] and [CppReach].

    The X server is a parameter of every handler only through [HasX]
    (a class giving the server inside a world state): both programs'
    worlds are instances, and the Xlib lifting ([xcall], [xdo],
    [XSync], [XNextEvent]) is written once against it.  The registry
    interface is the class [ClientRegistry] with its laws
    [ClientRegistryLaws]; the C array discharges them by refinement to
    a finite map.

    ** What the theorems show

    - Refinement: the C array registry implements a finite map client
      -> frame (add, delete, lookup), with the array's invariant;
      [owen_clients_add] writes past [clients[256]] on the 257th client.
    - Invariants: one iteration of either event loop in steady state
      returns and keeps the framing invariant, for every event that
      satisfies the program's guard ([event_ok] in C, which only
      restricts map requests: not for a client or a frame, room in the
      array; [cpp_event_ok] in C++, which also asks a button press or
      motion to be on a client).  The server can send events outside
      the guards, and the code then fails: the error-path theorems
      below say how.  For both programs, the invariant and the
      steady-state error handler hold in every state reachable when
      other clients act between the iterations, and the next iteration
      on a guarded event does not halt ([keeps] gives the handler part
      compositionally).  The window manager's connection creates no
      window but frames, and no frame outlives its client
      ([owen_no_leaked_frames], [cpp_no_leaked_frames]).
    - Round trips: a map request for a new top-level window followed by
      the unmap notification of that window on its frame gives the
      registry back and restores the server's structure, up to the
      frame id consumed ([x_on_map_unmap_roundtrip],
      [map_unmap_roundtrip]).
    - Ordering: in steady state, [n] iterations of either loop dispatch
      the [n] events at the head of the queue in the order the server
      queued them, whatever the handlers queue meanwhile
      ([owen_run_in_order]; [Run_loop_in_order] when none of them is a
      motion event, whose handler coalesces later motion events: a
      motion queued after a map request is applied before it,
      [Run_step_reorders]).
    - Termination: in steady state, either loop run with more fuel
      than 16 per queued event plus 8 per registered client returns
      with its queue drained unless a handler halts
      ([owen_run_terminates], [Run_loop_terminates]), although the
      handlers queue notifications: every iteration lowers the
      potential of [Potential] by at least one.
    - Shutdown: along every run from a steady state in which the
      window manager created no window but its frames, closing the
      display ([owen_destroy]; the C++ destructor) returns normally and
      leaves every managed client a mapped child of the root at the
      position its frame put it on the screen, with the frame destroyed
      ([owen_close_restores], [WindowManager_dtor_restores]): the save
      set that framing fills gives the clients back.
    - Functional behaviour: the exact sequence of X requests of framing,
      unframing and configuring; the layout formulas and the bounds of
      the rectangles; the start-up handshake (rival detected, CHECK
      failure, normal start); a drag moves the frame by the pointer's
      displacement; the motion loop equals its reference.
    - Error paths: each [exit], failed [CHECK] and undefined behaviour
      the code can reach ([clients[-1]], uninitialised reads, a
      vanished window, a press on a non-client), as [Halted] results.
    - Scenarios: [main] of the C code (through [owen_destroy]) and
      [Create] then [Run] of the C++ code, evaluated on the spec's
      scenario ([Example]s that check the model end to end; the
      theorems above are the general statements).

    ** Bounds and fuel

    The event loops run forever in the code; [owen_run] and [Run_loop]
    take a number of iterations as fuel and also stop when
    [XNextEvent] would block (the queue is empty); the fuel of the
    scenarios (10 for the three events of the C run, 100 for the six
    of the C++ run) exceeds the number of iterations, so they end with
    the queue drained, which the end-to-end theorems state.  The per-iteration theorems
    hold for every fuel by induction.  [coalesce_motion] is run with
    fuel [1 + length queue]: every iteration but the last removes an
    event, so this bound is never reached ([drain_motion_spec]).
    [subtree] and [viewable] in [Xlib] take the number of windows as
    fuel, which bounds the depth of the tree.  Drag coordinates are
    16-bit (X protocol [INT16]), which keeps the 32-bit [int]
    arithmetic of [OnMotionNotify] free of overflow.  The termination
    theorems give the fuel that suffices from any steady state: more
    than [16 * length queue + 8 * clients] iterations (the potential
    bounds the number of iterations; a framed client can cost one more
    [UnmapNotify] when it is unframed).  [ancestors] and [origin] in
    [Shutdown] take the number of windows as fuel, as [subtree] does.

    ** Not modelled

    Logging (glog, printf), cursor theming ([XCreateFontCursor],
    [XDefineCursor]: the pointer image, which nothing reads),
    [XOpenDisplay] beyond success or failure, [XFree] (client-side
    memory), and the X server's behaviour on requests the sources
    never make.  [XCloseDisplay] is modelled for the windows only
    (fonts, cursors and grabs of the connection are not state of the
    model); the C++ destructor runs when [main]'s [unique_ptr] goes out
    of scope, and [main] is not in the sources, so [cpp_main] stops
    after [Run] and the destructor is a theorem of its own.  Other X clients are modelled
    only by the actions that keep a window structure the window
    manager can handle (creating windows outside frames, unmapping,
    queued events); a client reparenting, configuring or destroying
    its windows directly (for instance destroying a framed client,
    which leaves its frame empty until the [UnmapNotify] is handled)
    is not modelled yet.
*)

From Stdlib Require Export String ZArith Lia.
From stdpp Require Export base gmap list sets.

Open Scope Z_scope.

(** X resource identifiers ([Window] is an [unsigned long] XID); [0]
    is Xlib's [None]. *)
Abbreviation Window := N (only parsing).
Definition XNone : Window := 0%N.

(** ** Outcomes of C code: normal return or halt *)

Inductive halt :=
  | Exit (status : Z)              (** [exit(status)] *)
  | CheckFailed (what : string)    (** a failed glog [CHECK] *)
  | Undefined (what : string).     (** undefined behaviour in C/C++ *)

Inductive res (A : Type) :=
  | Ok (a : A)
  | Halted (h : halt).
Arguments Ok {A} a.
Arguments Halted {A} h.

(** A computation over a global state [S]. *)
Definition M (S A : Type) : Type := S -> res (A * S).

Definition ret {S A} (a : A) : M S A := fun s => Ok (a, s).
Definition bind {S A B} (m : M S A) (k : A -> M S B) : M S B :=
  fun s => match m s with
           | Ok (a, s') => k a s'
           | Halted h => Halted h
           end.
Definition get {S} : M S S := fun s => Ok (s, s).
Definition put {S} (s : S) : M S unit := fun _ => Ok (tt, s).
Definition modify {S} (f : S -> S) : M S unit := fun s => Ok (tt, f s).
Definition gets {S A} (f : S -> A) : M S A := fun s => Ok (f s, s).
Definition stop {S A} (h : halt) : M S A := fun _ => Halted h.

Declare Scope owen_scope.
Delimit Scope owen_scope with owen.
Notation "x <- m ;; k" := (bind m (fun x => k))
  (at level 100, m at next level, right associativity) : owen_scope.
Notation "m ;;; k" := (bind m (fun _ => k))
  (at level 100, right associativity) : owen_scope.
Open Scope owen_scope.

(** A value the C code reads, where [None] means the read is undefined
    behaviour (out of bounds, uninitialised, division by zero). *)
Definition defined {S A} (o : option A) (what : string) : M S A :=
  match o with Some a => ret a | None => stop (Undefined what) end.

(** glog's [CHECK(cond)] on a call that yields a value: [None] is a
    failed check, which aborts the process. *)
Definition check {S A} (o : option A) (what : string) : M S A :=
  match o with Some a => ret a | None => stop (CheckFailed what) end.

(** Running a computation to its final state, when it does not halt. *)
Definition final {S A} (m : M S A) (s : S) : option S :=
  match m s with Ok (_, s') => Some s' | Halted _ => None end.

(** Iterate a state-changing body over a list, as a C [for] loop over
    an array does. *)
Fixpoint mfor {S A} (l : list A) (body : A -> M S unit) : M S unit :=
  match l with
  | [] => ret tt
  | x :: l' => body x ;;; mfor l' body
  end.

(** [steps R m]: every run of [m] that returns relates its initial and
    final states by [R]. *)
Definition steps {S A} (R : S -> S -> Prop) (m : M S A) : Prop :=
  forall s a s', m s = Ok (a, s') -> R s s'.

(** [keeps P m]: every run of [m] that returns, from a state satisfying
    [P], ends in a state satisfying [P] (an invariant of [m]). *)
Definition preserves {S} (P : S -> Prop) (s s' : S) : Prop := P s -> P s'.
Abbreviation keeps P m := (steps (preserves P) m).

(** ** C integers *)

Definition INT_MIN : Z := - 2 ^ 31.
Definition INT_MAX : Z := 2 ^ 31 - 1.
Definition int_range (z : Z) : bool := (INT_MIN <=? z) && (z <=? INT_MAX).

(** C's [/] on [int]: truncating division; division by zero and
    [INT_MIN / -1] are undefined ([None]). *)
Definition c_div (a b : Z) : option Z :=
  if b =? 0 then None
  else if (a =? INT_MIN) && (b =? -1) then None
  else Some (Z.quot a b).

(** C's [+] and [-] on [int]: signed overflow is undefined. *)
Definition c_add (a b : Z) : option Z :=
  if int_range (a + b) then Some (a + b) else None.
Definition c_sub (a b : Z) : option Z :=
  if int_range (a - b) then Some (a - b) else None.

(** Conversion of an unsigned value to a 32-bit [int]: modulo [2^32]
    into the range of [int] (implementation-defined in C++ before 20;
    GCC and Clang wrap). *)
Definition to_int32 (z : Z) : Z := (z + 2 ^ 31) mod 2 ^ 32 - 2 ^ 31.

(** ** The C search loop

    [for (int i = start; i < start + n; i++) if (P(i)) { ...; break; }]:
    the first index satisfying [P], if any. *)
Fixpoint c_for_find (P : Z -> bool) (i : Z) (n : nat) : option Z :=
  match n with
  | O => None
  | S n' => if P i then Some i else c_for_find P (Z.succ i) n'
  end.

Create HintDb owen discriminated.

(** ** Generic lemmas *)

Section ForFind.
Context (P : Z -> bool).

Lemma c_for_find_some i n j :
  c_for_find P i n = Some j ->
  i <= j < i + Z.of_nat n /\ P j = true /\
  (forall k, i <= k < j -> P k = false).
Proof.
  revert i. induction n as [|n IH]; intros i H; simpl in H; [discriminate|].
  destruct (P i) eqn:Hi.
  - injection H as <-. split; [lia|]. split; [done|]. intros; lia.
  - destruct (IH _ H) as (Hr & Hj & Hk). split; [lia|]. split; [done|].
    intros k Hk'. destruct (Z.eq_dec k i) as [->|]; [done|]. apply Hk. lia.
Qed.

Lemma c_for_find_none i n :
  c_for_find P i n = None ->
  forall k, i <= k < i + Z.of_nat n -> P k = false.
Proof.
  revert i. induction n as [|n IH]; intros i H k Hk; simpl in H; [lia|].
  destruct (P i) eqn:Hi; [discriminate|].
  destruct (Z.eq_dec k i) as [->|]; [done|]. apply (IH _ H). lia.
Qed.

(** The loop finds the least index satisfying [P]. *)
Lemma c_for_find_least i n j :
  i <= j < i + Z.of_nat n -> P j = true ->
  (forall k, i <= k < j -> P k = false) ->
  c_for_find P i n = Some j.
Proof.
  revert i. induction n as [|n IH]; intros i Hj HP Hk; simpl; [lia|].
  destruct (P i) eqn:Hi.
  - destruct (Z.eq_dec i j) as [->|]; [done|].
    rewrite (Hk i) in Hi; [discriminate|lia].
  - apply IH; [|done|intros; apply Hk; lia].
    destruct (Z.eq_dec i j) as [->|]; [congruence|lia].
Qed.
End ForFind.

Lemma c_div_pos a b :
  0 <= a -> 0 < b -> c_div a b = Some (a / b).
Proof.
  intros Ha Hb. unfold c_div.
  destruct (Z.eqb_spec b 0); [lia|].
  destruct (Z.eqb_spec a INT_MIN); [unfold INT_MIN in *; lia|].
  simpl. by rewrite Z.quot_div_nonneg by lia.
Qed.

Lemma bind_ok {S A B} (m : M S A) (k : A -> M S B) s a s' :
  m s = Ok (a, s') -> bind m k s = k a s'.
Proof. unfold bind. by intros ->. Qed.

(** The final state of a run that returns (without the reduction
    [injection] would attempt on large states). *)
Lemma Ok_state_inj {S A} (a a' : A) (s s' : S) : Ok (a, s) = Ok (a', s') -> s' = s.
Proof. by intros [= _ ->]. Qed.

Lemma bind_halt {S A B} (m : M S A) (k : A -> M S B) s h :
  m s = Halted h -> bind m k s = Halted h.
Proof. unfold bind. by intros ->. Qed.

Lemma mfor_cons {S A} (x : A) l (body : A -> M S unit) :
  mfor (x :: l) body = (body x ;;; mfor l body).
Proof. reflexivity. Qed.

#[export] Hint Resolve c_div_pos : owen.

(** ** Running computations: the monad's equations, oriented *)

Section Run.
Context {S A B : Type} (k : A -> M S B) (s : S).

Lemma bind_ret_l a : bind (ret a) k s = k a s.
Proof. reflexivity. Qed.
Lemma bind_gets (f : S -> A) : bind (gets f) k s = k (f s) s.
Proof. reflexivity. Qed.
Lemma bind_defined_Some a msg : bind (defined (Some a) msg) k s = k a s.
Proof. reflexivity. Qed.
Lemma bind_defined_None msg : bind (defined None msg) k s = Halted (Undefined msg).
Proof. reflexivity. Qed.
Lemma bind_stop h : bind (stop h) k s = Halted h.
Proof. reflexivity. Qed.
End Run.

Lemma bind_modify {S B} (f : S -> S) (k : unit -> M S B) s : bind (modify f) k s = k tt (f s).
Proof. reflexivity. Qed.
Lemma bind_assoc {S A B C} (m : M S A) (k1 : A -> M S B) (k2 : B -> M S C) s :
  bind (bind m k1) k2 s = bind m (fun a => bind (k1 a) k2) s.
Proof. unfold bind. by destruct (m s) as [[]|]. Qed.
Lemma ret_run {S A} (a : A) (s : S) : ret a s = Ok (a, s).
Proof. reflexivity. Qed.
Lemma modify_run {S} (f : S -> S) s : modify f s = Ok (tt, f s).
Proof. reflexivity. Qed.

Lemma bind_check_Some {S A B} (a : A) msg (k : A -> M S B) s : bind (check (Some a) msg) k s = k a s.
Proof. reflexivity. Qed.
Lemma bind_check_None {S A B} msg (k : A -> M S B) s :
  bind (check (A := A) None msg) k s = Halted (CheckFailed msg).
Proof. reflexivity. Qed.

Create Rewrite HintDb mrun.
#[export] Hint Rewrite @bind_ret_l @bind_gets @bind_defined_Some @bind_defined_None
  @bind_check_Some @bind_check_None @bind_stop @bind_modify @bind_assoc @ret_run @modify_run : mrun.

(** Step through a computation whose effects are known. *)
Ltac mrun := repeat progress (autorewrite with mrun; cbv beta iota).

(** Prove a decidable proposition about a closed term by evaluation. *)
Ltac decide_by_eval :=
  match goal with |- ?P => apply (bool_decide_eq_true_1 P); vm_compute; reflexivity end.

(** Unfold the monad plumbing and simplify. *)
Ltac mstep := unfold bind, ret, get, put, modify, gets, stop in *; simpl in *.

(** Mapping over a map commutes with an update that the map follows. *)
Lemma fmap_alter_commute {K A B} `{Countable K} (f : A -> B) (g : A -> A) (h : B -> B)
    (k : K) (m : gmap K A) :
  (forall x, f (g x) = h (f x)) -> f <$> alter g k m = alter h k (f <$> m).
Proof.
  intros Hf. apply map_eq. intros i. rewrite lookup_fmap.
  destruct (decide (k = i)) as [<-|Hne].
  - rewrite !lookup_alter_eq, lookup_fmap. destruct (m !! k); simpl; [by rewrite Hf|done].
  - by rewrite !lookup_alter_ne, lookup_fmap.
Qed.

(** No key maps to [v]: the decidable form of "[v] is not in the image". *)
Lemma map_Forall_not_img {K V} `{Countable K} (m : gmap K V) v :
  map_Forall (fun _ x => x <> v) m -> forall k, m !! k <> Some v.
Proof. intros Hm k Hk. exact (Hm k v Hk eq_refl). Qed.

(** ** 32-bit arithmetic *)

Lemma int_range_iff z : int_range z = true <-> INT_MIN <= z <= INT_MAX.
Proof. unfold int_range. rewrite andb_true_iff, !Z.leb_le. done. Qed.

Lemma c_add_ok a b : INT_MIN <= a + b <= INT_MAX -> c_add a b = Some (a + b).
Proof. intros H. unfold c_add. apply int_range_iff in H. by rewrite H. Qed.

Lemma c_sub_ok a b : INT_MIN <= a - b <= INT_MAX -> c_sub a b = Some (a - b).
Proof. intros H. unfold c_sub. apply int_range_iff in H. by rewrite H. Qed.

Lemma c_add_overflow a b : INT_MAX < a + b -> c_add a b = None.
Proof.
  intros H. unfold c_add, int_range.
  destruct (Z.leb_spec (a + b) INT_MAX); [lia|]. by rewrite andb_false_r.
Qed.

Lemma to_int32_id z : INT_MIN <= z <= INT_MAX -> to_int32 z = z.
Proof.
  unfold to_int32, INT_MIN, INT_MAX. intros H.
  rewrite Z.mod_small by lia. lia.
Qed.

Lemma to_int32_range z : INT_MIN <= to_int32 z <= INT_MAX.
Proof.
  unfold to_int32, INT_MIN, INT_MAX. pose proof (Z.mod_pos_bound (z + 2 ^ 31) (2 ^ 32)). lia.
Qed.

(** ** Invariants of computations

    [steps R] for a preorder [R] is closed under the monad's
    combinators; [keeps P] is the case [R := preserves P]. *)

#[export] Instance preserves_preorder {S} (P : S -> Prop) : PreOrder (preserves P).
Proof. split; [intros s Hs; exact Hs|intros s1 s2 s3 H12 H23 Hs; exact (H23 (H12 Hs))]. Qed.

Section Steps.
Context {S : Type} (R : S -> S -> Prop) `{!PreOrder R}.

Lemma steps_ret {A} (a : A) : steps R (ret a).
Proof. intros s b s' [= _ <-]. reflexivity. Qed.

Lemma steps_stop {A} h : steps R (@stop S A h).
Proof. by intros s a s' ?. Qed.

Lemma steps_bind {A B} (m : M S A) (k : A -> M S B) :
  steps R m -> (forall a, steps R (k a)) -> steps R (bind m k).
Proof.
  intros Hm Hk s b s''. unfold bind. destruct (m s) as [[a s']|] eqn:E; [|done].
  intros Hk'. transitivity s'; [by apply (Hm s a s')|by apply (Hk a s' b s'')].
Qed.

Lemma steps_modify (f : S -> S) : (forall s, R s (f s)) -> steps R (modify f).
Proof. intros Hf s a s' [= _ <-]. apply Hf. Qed.

Lemma steps_gets {A} (f : S -> A) : steps R (gets f).
Proof. intros s a s' [= _ <-]. reflexivity. Qed.

Lemma steps_defined {A} (o : option A) w : steps R (defined o w).
Proof. destruct o; [apply steps_ret|apply steps_stop]. Qed.

Lemma steps_check {A} (o : option A) w : steps R (check o w).
Proof. destruct o; [apply steps_ret|apply steps_stop]. Qed.

Lemma steps_mfor {A} (l : list A) (body : A -> M S unit) :
  (forall x, steps R (body x)) -> steps R (mfor l body).
Proof.
  intros Hb. induction l as [|x l IH]; simpl; [apply steps_ret|]. by apply steps_bind.
Qed.
End Steps.

Create HintDb keeps discriminated.
#[export] Hint Resolve steps_ret steps_stop steps_gets steps_defined steps_check : keeps.

(** Split a computation into its steps and its branches. *)
Ltac keeps_split :=
  repeat match goal with
  | |- steps _ (bind _ _) => apply steps_bind; try exact _; [|intros ?]
  | |- steps _ (mfor _ _) => apply steps_mfor; try exact _; intros ?
  | |- steps _ (if ?b then _ else _) => destruct b
  | |- steps _ (match ?x with _ => _ end) => destruct x
  | |- steps _ _ => solve [eauto with keeps typeclass_instances]
  end.
