(* ===== verification/Xlib.v ===== *)
(** * The X server seen through Xlib (the Display Gateway)

    The sources are clients of an X server and call Xlib.  This file
    models the part of the server state that the window manager reads or
    changes, and one definition per Xlib call the sources make.  It is
    modelled from the spec's Display Gateway contract (section 6) and
    the X11 protocol's description of each request; the constants are
    those of <X11/X.h>.

    - windows: parent, geometry, map flag, override-redirect flag, the
      event mask this window manager selected on it, and its passive
      button grab;
    - the stacking order (bottom to top), the save set, the next
      resource id, the event queue, the protocol errors not yet
      delivered to the error handler, the installed error handler, the
      server grab, and whether another client already holds
      SubstructureRedirect on the root;
    - a log of the requests issued, in order.

    Requests on a missing window record [BadWindow] and change nothing
    else.  The window manager's own requests are never redirected (the
    protocol redirects only other clients' requests); they generate the
    notify events the protocol prescribes on parents where the window
    manager selected [SubstructureNotifyMask].  Not modelled: stacking
    modes [TopIf], [BottomIf] and [Opposite] (they depend on occlusion),
    the 16-bit truncation of sizes on the wire, and inferiors other than
    the window itself in the [BadMatch] check of [XReparentWindow]. *)

From S2P Require Import Prelude.

(** ** Constants of <X11/X.h> *)

Definition ButtonPressMask : Z := Z.shiftl 1 2.
Definition ButtonReleaseMask : Z := Z.shiftl 1 3.
Definition ButtonMotionMask : Z := Z.shiftl 1 13.
Definition SubstructureNotifyMask : Z := Z.shiftl 1 19.
Definition SubstructureRedirectMask : Z := Z.shiftl 1 20.
Definition Button1Mask : Z := Z.shiftl 1 8.

Definition IsUnmapped : Z := 0.
Definition IsUnviewable : Z := 1.
Definition IsViewable : Z := 2.

Definition BadValue : Z := 2.
Definition BadWindow : Z := 3.
Definition BadMatch : Z := 8.
Definition BadDrawable : Z := 9.
Definition BadAccess : Z := 10.

Definition CWX : Z := Z.shiftl 1 0.
Definition CWY : Z := Z.shiftl 1 1.
Definition CWWidth : Z := Z.shiftl 1 2.
Definition CWHeight : Z := Z.shiftl 1 3.
Definition CWBorderWidth : Z := Z.shiftl 1 4.
Definition CWSibling : Z := Z.shiftl 1 5.
Definition CWStackMode : Z := Z.shiftl 1 6.

Definition Above : Z := 0.
Definition Below : Z := 1.

(** Event type codes. *)
Definition ButtonPress : Z := 4.
Definition MotionNotify : Z := 6.
Definition CreateNotify : Z := 16.
Definition DestroyNotify : Z := 17.
Definition UnmapNotify : Z := 18.
Definition MapNotify : Z := 19.
Definition MapRequest : Z := 20.
Definition ReparentNotify : Z := 21.
Definition ConfigureNotify : Z := 22.
Definition ConfigureRequest : Z := 23.

Definition has_mask (m bit : Z) : bool := negb (Z.land m bit =? 0).

(** ** Server state *)

Record XWin := mkXWin {
  xw_parent : Window;
  xw_x : Z; xw_y : Z; xw_width : Z; xw_height : Z; xw_border_width : Z;
  xw_mapped : bool;
  xw_override_redirect : bool;
  xw_event_mask : Z;
  xw_button_grab : bool
}.

Record XMapRequestEvent := { mr_parent : Window; mr_window : Window }.

Record XConfigureRequestEvent := {
  cr_parent : Window; cr_window : Window;
  cr_x : Z; cr_y : Z; cr_width : Z; cr_height : Z; cr_border_width : Z;
  cr_above : Window; cr_detail : Z; cr_value_mask : Z
}.

(** [event] is the window the notification was reported on (the parent
    for a SubstructureNotify selection), [window] the unmapped one. *)
Record XUnmapEvent := { um_event : Window; um_window : Window }.

Record XButtonEvent := {
  be_window : Window; be_x_root : Z; be_y_root : Z; be_state : Z; be_button : Z
}.

Record XMotionEvent := {
  me_window : Window; me_x_root : Z; me_y_root : Z; me_state : Z
}.

(** The [XEvent] union, one constructor per member the sources read. *)
Inductive XEvent :=
  | EvMapRequest (e : XMapRequestEvent)
  | EvConfigureRequest (e : XConfigureRequestEvent)
  | EvUnmapNotify (e : XUnmapEvent)
  | EvButtonPress (e : XButtonEvent)
  | EvMotionNotify (e : XMotionEvent)
  | EvCreateNotify (parent window : Window)
  | EvDestroyNotify (event window : Window)
  | EvReparentNotify (event window parent : Window)
  | EvMapNotify (event window : Window)
  | EvConfigureNotify (event window : Window)
  | EvOther (type : Z).

(** [e.type] *)
Definition event_type (e : XEvent) : Z :=
  match e with
  | EvMapRequest _ => MapRequest
  | EvConfigureRequest _ => ConfigureRequest
  | EvUnmapNotify _ => UnmapNotify
  | EvButtonPress _ => ButtonPress
  | EvMotionNotify _ => MotionNotify
  | EvCreateNotify _ _ => CreateNotify
  | EvDestroyNotify _ _ => DestroyNotify
  | EvReparentNotify _ _ _ => ReparentNotify
  | EvMapNotify _ _ => MapNotify
  | EvConfigureNotify _ _ => ConfigureNotify
  | EvOther t => t
  end.

(** [e.xany.window]: the first window field of each event structure. *)
Definition xany_window (e : XEvent) : Window :=
  match e with
  | EvMapRequest r => mr_parent r
  | EvConfigureRequest r => cr_parent r
  | EvUnmapNotify u => um_event u
  | EvButtonPress b => be_window b
  | EvMotionNotify m => me_window m
  | EvCreateNotify p _ => p
  | EvDestroyNotify ev _ => ev
  | EvReparentNotify ev _ _ => ev
  | EvMapNotify ev _ => ev
  | EvConfigureNotify ev _ => ev
  | EvOther _ => XNone
  end.

Record XWindowChanges := {
  wc_x : Z; wc_y : Z; wc_width : Z; wc_height : Z; wc_border_width : Z;
  wc_sibling : Window; wc_stack_mode : Z
}.

Record XWindowAttributes := {
  wa_x : Z; wa_y : Z; wa_width : Z; wa_height : Z; wa_border_width : Z;
  wa_map_state : Z; wa_override_redirect : bool
}.

Record XGeometry := {
  g_root : Window; g_x : Z; g_y : Z; g_width : Z; g_height : Z;
  g_border_width : Z; g_depth : Z
}.

Inductive XRequest :=
  | RqCreateWindow (w parent : Window) (x y width height border_width : Z)
  | RqSelectInput (w : Window) (mask : Z)
  | RqGrabButton (w : Window)
  | RqChangeSaveSet (w : Window) (insert : bool)
  | RqReparentWindow (w parent : Window) (x y : Z)
  | RqMapWindow (w : Window)
  | RqUnmapWindow (w : Window)
  | RqDestroyWindow (w : Window)
  | RqConfigureWindow (w : Window) (mask : Z) (changes : XWindowChanges)
  | RqGrabServer
  | RqUngrabServer.

(** The error handler installed with [XSetErrorHandler]: Xlib's default
    one, or one of the program's own, numbered by the program. *)
Inductive XErrorHandler := DefaultHandler | AppHandler (n : nat).

Record XServer := mkXServer {
  xs_root : Window;
  xs_windows : gmap Window XWin;
  xs_stack : list Window;
  xs_save_set : gset Window;
  xs_next_id : Window;
  xs_queue : list XEvent;
  xs_errors : list Z;
  xs_handler : XErrorHandler;
  xs_rival_redirect : bool;
  xs_grabbed : bool;
  xs_log : list XRequest
}.

(** Field updates. *)
Definition set_windows (ws : gmap Window XWin) (s : XServer) : XServer :=
  mkXServer (xs_root s) ws (xs_stack s) (xs_save_set s) (xs_next_id s)
    (xs_queue s) (xs_errors s) (xs_handler s) (xs_rival_redirect s)
    (xs_grabbed s) (xs_log s).
Definition set_stack (st : list Window) (s : XServer) : XServer :=
  mkXServer (xs_root s) (xs_windows s) st (xs_save_set s) (xs_next_id s)
    (xs_queue s) (xs_errors s) (xs_handler s) (xs_rival_redirect s)
    (xs_grabbed s) (xs_log s).
Definition set_save_set (ss : gset Window) (s : XServer) : XServer :=
  mkXServer (xs_root s) (xs_windows s) (xs_stack s) ss (xs_next_id s)
    (xs_queue s) (xs_errors s) (xs_handler s) (xs_rival_redirect s)
    (xs_grabbed s) (xs_log s).
Definition set_next_id (n : Window) (s : XServer) : XServer :=
  mkXServer (xs_root s) (xs_windows s) (xs_stack s) (xs_save_set s) n
    (xs_queue s) (xs_errors s) (xs_handler s) (xs_rival_redirect s)
    (xs_grabbed s) (xs_log s).
Definition set_queue (q : list XEvent) (s : XServer) : XServer :=
  mkXServer (xs_root s) (xs_windows s) (xs_stack s) (xs_save_set s)
    (xs_next_id s) q (xs_errors s) (xs_handler s) (xs_rival_redirect s)
    (xs_grabbed s) (xs_log s).
Definition set_errors (es : list Z) (s : XServer) : XServer :=
  mkXServer (xs_root s) (xs_windows s) (xs_stack s) (xs_save_set s)
    (xs_next_id s) (xs_queue s) es (xs_handler s) (xs_rival_redirect s)
    (xs_grabbed s) (xs_log s).
Definition set_handler (h : XErrorHandler) (s : XServer) : XServer :=
  mkXServer (xs_root s) (xs_windows s) (xs_stack s) (xs_save_set s)
    (xs_next_id s) (xs_queue s) (xs_errors s) h (xs_rival_redirect s)
    (xs_grabbed s) (xs_log s).
Definition set_grabbed (g : bool) (s : XServer) : XServer :=
  mkXServer (xs_root s) (xs_windows s) (xs_stack s) (xs_save_set s)
    (xs_next_id s) (xs_queue s) (xs_errors s) (xs_handler s)
    (xs_rival_redirect s) g (xs_log s).
Definition set_log (l : list XRequest) (s : XServer) : XServer :=
  mkXServer (xs_root s) (xs_windows s) (xs_stack s) (xs_save_set s)
    (xs_next_id s) (xs_queue s) (xs_errors s) (xs_handler s)
    (xs_rival_redirect s) (xs_grabbed s) l.

Definition log (rq : XRequest) (s : XServer) : XServer := set_log (xs_log s ++ [rq]) s.
Definition x_error (code : Z) (s : XServer) : XServer := set_errors (xs_errors s ++ [code]) s.
Definition update_win (w : Window) (f : XWin -> XWin) (s : XServer) : XServer :=
  set_windows (alter f w (xs_windows s)) s.

(** Queue [ev] if the window manager selected SubstructureNotify on [p]. *)
Definition notify (p : Window) (ev : XEvent) (s : XServer) : XServer :=
  match xs_windows s !! p with
  | Some pw => if has_mask (xw_event_mask pw) SubstructureNotifyMask
               then set_queue (xs_queue s ++ [ev]) s else s
  | None => s
  end.

Definition with_mapped (b : bool) (x : XWin) : XWin :=
  mkXWin (xw_parent x) (xw_x x) (xw_y x) (xw_width x) (xw_height x)
    (xw_border_width x) b (xw_override_redirect x) (xw_event_mask x) (xw_button_grab x).
Definition with_parent (p : Window) (px py : Z) (x : XWin) : XWin :=
  mkXWin p px py (xw_width x) (xw_height x)
    (xw_border_width x) (xw_mapped x) (xw_override_redirect x) (xw_event_mask x) (xw_button_grab x).
Definition with_mask (m : Z) (x : XWin) : XWin :=
  mkXWin (xw_parent x) (xw_x x) (xw_y x) (xw_width x) (xw_height x)
    (xw_border_width x) (xw_mapped x) (xw_override_redirect x) m (xw_button_grab x).
Definition with_grab (x : XWin) : XWin :=
  mkXWin (xw_parent x) (xw_x x) (xw_y x) (xw_width x) (xw_height x)
    (xw_border_width x) (xw_mapped x) (xw_override_redirect x) (xw_event_mask x) true.

(** Stacking order helpers. *)
Definition stack_remove (w : Window) (l : list Window) : list Window :=
  filter (fun v => v <> w) l.
Fixpoint insert_after (w sib : Window) (l : list Window) : list Window :=
  match l with
  | [] => []
  | v :: l' => if decide (v = sib) then v :: w :: l' else v :: insert_after w sib l'
  end.
Fixpoint insert_before (w sib : Window) (l : list Window) : list Window :=
  match l with
  | [] => []
  | v :: l' => if decide (v = sib) then w :: v :: l' else v :: insert_before w sib l'
  end.

(** ** Requests *)

Definition win_exists (w : Window) (s : XServer) : bool :=
  bool_decide (is_Some (xs_windows s !! w)).

(** [XCreateSimpleWindow(dpy, parent, x, y, width, height, border_width,
    border, background)]: the new id is allocated by Xlib whether or not
    the request succeeds. *)
Definition XCreateSimpleWindow (parent : Window) (x y width height bw : Z)
    (border background : Z) (s : XServer) : Window * XServer :=
  let id := xs_next_id s in
  let s := set_next_id (id + 1)%N (log (RqCreateWindow id parent x y width height bw) s) in
  if negb (win_exists parent s) then (id, x_error BadWindow s)
  else if (width <=? 0) || (height <=? 0) then (id, x_error BadValue s)
  else
    let s := set_windows (<[id := mkXWin parent x y width height bw false false 0 false]> (xs_windows s)) s in
    let s := set_stack (xs_stack s ++ [id]) s in
    (id, notify parent (EvCreateNotify parent id) s).

(** [XSelectInput(dpy, w, mask)].  Only one client may select
    SubstructureRedirect on a window: [BadAccess] on the root when
    another window manager holds it. *)
Definition XSelectInput (w : Window) (mask : Z) (s : XServer) : XServer :=
  let s := log (RqSelectInput w mask) s in
  if negb (win_exists w s) then x_error BadWindow s
  else if has_mask mask SubstructureRedirectMask && bool_decide (w = xs_root s)
          && xs_rival_redirect s
  then x_error BadAccess s
  else update_win w (with_mask mask) s.

(** [XGrabButton(dpy, Button1, AnyModifier, w, True, ...)]. *)
Definition XGrabButton (w : Window) (s : XServer) : XServer :=
  let s := log (RqGrabButton w) s in
  if negb (win_exists w s) then x_error BadWindow s else update_win w with_grab s.

Definition XAddToSaveSet (w : Window) (s : XServer) : XServer :=
  let s := log (RqChangeSaveSet w true) s in
  if negb (win_exists w s) then x_error BadWindow s
  else set_save_set ({[w]} ∪ xs_save_set s) s.

Definition XRemoveFromSaveSet (w : Window) (s : XServer) : XServer :=
  let s := log (RqChangeSaveSet w false) s in
  if negb (win_exists w s) then x_error BadWindow s
  else set_save_set (xs_save_set s ∖ {[w]}) s.

(** [XReparentWindow(dpy, w, parent, x, y)]: a mapped window is unmapped
    first ([UnmapNotify] on the old parent), moved on top of its new
    siblings, and mapped again ([MapNotify] on the new parent). *)
Definition XReparentWindow (w p : Window) (x y : Z) (s : XServer) : XServer :=
  let s := log (RqReparentWindow w p x y) s in
  match xs_windows s !! w with
  | None => x_error BadWindow s
  | Some ww =>
    if negb (win_exists p s) then x_error BadWindow s
    else if bool_decide (p = w) then x_error BadMatch s
    else
      let old := xw_parent ww in
      let s := if xw_mapped ww
               then notify old (EvUnmapNotify {| um_event := old; um_window := w |}) s
               else s in
      let s := update_win w (with_parent p x y) s in
      let s := set_stack (stack_remove w (xs_stack s) ++ [w]) s in
      let s := notify old (EvReparentNotify old w p) s in
      let s := if bool_decide (p = old) then s else notify p (EvReparentNotify p w p) s in
      if xw_mapped ww then notify p (EvMapNotify p w) s else s
  end.

(** [XMapWindow(dpy, w)] issued by the window manager itself. *)
Definition XMapWindow (w : Window) (s : XServer) : XServer :=
  let s := log (RqMapWindow w) s in
  match xs_windows s !! w with
  | None => x_error BadWindow s
  | Some ww =>
    if xw_mapped ww then s
    else notify (xw_parent ww) (EvMapNotify (xw_parent ww) w) (update_win w (with_mapped true) s)
  end.

Definition XUnmapWindow (w : Window) (s : XServer) : XServer :=
  let s := log (RqUnmapWindow w) s in
  match xs_windows s !! w with
  | None => x_error BadWindow s
  | Some ww =>
    if xw_mapped ww
    then notify (xw_parent ww) (EvUnmapNotify {| um_event := xw_parent ww; um_window := w |})
           (update_win w (with_mapped false) s)
    else s
  end.

(** The children of [w], and the subtree rooted at [w] (bounded by the
    number of windows, which bounds the depth of the window tree). *)
Definition children (ws : gmap Window XWin) (w : Window) : list Window :=
  (filter (fun kv => xw_parent kv.2 = w) (map_to_list ws)).*1.

Fixpoint subtree (fuel : nat) (ws : gmap Window XWin) (w : Window) : list Window :=
  match fuel with
  | O => [w]
  | S f => w :: List.concat (map (subtree f ws) (children ws w))
  end.

(** [XDestroyWindow(dpy, w)]: unmaps [w] if mapped, then destroys [w] and
    all its inferiors; the root cannot be destroyed. *)
Definition XDestroyWindow (w : Window) (s : XServer) : XServer :=
  let s := log (RqDestroyWindow w) s in
  if bool_decide (w = xs_root s) then s else
  match xs_windows s !! w with
  | None => x_error BadWindow s
  | Some ww =>
    let s := if xw_mapped ww
             then notify (xw_parent ww) (EvUnmapNotify {| um_event := xw_parent ww; um_window := w |})
                    (update_win w (with_mapped false) s)
             else s in
    let gone := subtree (size (xs_windows s)) (xs_windows s) w in
    let s := notify (xw_parent ww) (EvDestroyNotify (xw_parent ww) w) s in
    let s := set_windows (filter (fun kv => kv.1 ∉ gone) (xs_windows s)) s in
    let s := set_stack (filter (fun v => v ∉ gone) (xs_stack s)) s in
    set_save_set (filter (fun v => v ∉ gone) (xs_save_set s)) s
  end.

(** Apply the fields of [ch] selected by [mask]. *)
Definition apply_changes (mask : Z) (ch : XWindowChanges) (x : XWin) : XWin :=
  mkXWin (xw_parent x)
    (if has_mask mask CWX then wc_x ch else xw_x x)
    (if has_mask mask CWY then wc_y ch else xw_y x)
    (if has_mask mask CWWidth then wc_width ch else xw_width x)
    (if has_mask mask CWHeight then wc_height ch else xw_height x)
    (if has_mask mask CWBorderWidth then wc_border_width ch else xw_border_width x)
    (xw_mapped x) (xw_override_redirect x) (xw_event_mask x) (xw_button_grab x).

Definition restack (w : Window) (mask : Z) (ch : XWindowChanges) (st : list Window) : list Window :=
  if negb (has_mask mask CWStackMode) then st
  else if has_mask mask CWSibling then
    if wc_stack_mode ch =? Above then insert_after w (wc_sibling ch) (stack_remove w st)
    else if wc_stack_mode ch =? Below then insert_before w (wc_sibling ch) (stack_remove w st)
    else st
  else if wc_stack_mode ch =? Above then stack_remove w st ++ [w]
  else if wc_stack_mode ch =? Below then w :: stack_remove w st
  else st.

(** The argument checks of ConfigureWindow: zero sizes are [BadValue];
    a sibling without a stack mode, or one that is not a sibling, is
    [BadMatch]. *)
Definition configure_error (w : Window) (mask : Z) (ch : XWindowChanges) (ww : XWin)
    (s : XServer) : option Z :=
  if (has_mask mask CWWidth && (wc_width ch <=? 0))
     || (has_mask mask CWHeight && (wc_height ch <=? 0)) then Some BadValue
  else if has_mask mask CWSibling then
    if negb (has_mask mask CWStackMode) then Some BadMatch
    else match xs_windows s !! wc_sibling ch with
         | Some sw => if bool_decide (xw_parent sw = xw_parent ww /\ wc_sibling ch <> w)
                      then None else Some BadMatch
         | None => Some BadWindow
         end
  else None.

(** [XConfigureWindow(dpy, w, value_mask, &changes)]. *)
Definition XConfigureWindow (w : Window) (mask : Z) (ch : XWindowChanges) (s : XServer) : XServer :=
  let s := log (RqConfigureWindow w mask ch) s in
  match xs_windows s !! w with
  | None => x_error BadWindow s
  | Some ww =>
    match configure_error w mask ch ww s with
    | Some code => x_error code s
    | None =>
      let s := update_win w (apply_changes mask ch) s in
      let s := set_stack (restack w mask ch (xs_stack s)) s in
      notify (xw_parent ww) (EvConfigureNotify (xw_parent ww) w) s
    end
  end.

(** [XMoveWindow] and [XRaiseWindow] are ConfigureWindow requests. *)
Definition XMoveWindow (w : Window) (x y : Z) (s : XServer) : XServer :=
  XConfigureWindow w (Z.lor CWX CWY)
    {| wc_x := x; wc_y := y; wc_width := 0; wc_height := 0; wc_border_width := 0;
       wc_sibling := XNone; wc_stack_mode := 0 |} s.

Definition XRaiseWindow (w : Window) (s : XServer) : XServer :=
  XConfigureWindow w CWStackMode
    {| wc_x := 0; wc_y := 0; wc_width := 0; wc_height := 0; wc_border_width := 0;
       wc_sibling := XNone; wc_stack_mode := Above |} s.

(** Viewable: mapped, and every ancestor up to the root mapped. *)
Fixpoint viewable (fuel : nat) (root : Window) (ws : gmap Window XWin) (w : Window) : bool :=
  if bool_decide (w = root) then true else
  match ws !! w, fuel with
  | Some x, S f => xw_mapped x && viewable f root ws (xw_parent x)
  | _, _ => false
  end.

Definition map_state (s : XServer) (w : Window) (x : XWin) : Z :=
  if negb (xw_mapped x) then IsUnmapped
  else if viewable (size (xs_windows s)) (xs_root s) (xs_windows s) (xw_parent x)
  then IsViewable else IsUnviewable.

(** [XGetWindowAttributes]: [None] is a zero status (the attribute
    structure is then left uninitialised); the [BadWindow] error is
    recorded for the error handler. *)
Definition XGetWindowAttributes (w : Window) (s : XServer) : option XWindowAttributes * XServer :=
  match xs_windows s !! w with
  | None => (None, x_error BadWindow s)
  | Some x => (Some {| wa_x := xw_x x; wa_y := xw_y x; wa_width := xw_width x;
                      wa_height := xw_height x; wa_border_width := xw_border_width x;
                      wa_map_state := map_state s w x;
                      wa_override_redirect := xw_override_redirect x |}, s)
  end.

Definition XGetGeometry (w : Window) (s : XServer) : option XGeometry * XServer :=
  match xs_windows s !! w with
  | None => (None, x_error BadDrawable s)
  | Some x => (Some {| g_root := xs_root s; g_x := xw_x x; g_y := xw_y x;
                      g_width := xw_width x; g_height := xw_height x;
                      g_border_width := xw_border_width x; g_depth := 24 |}, s)
  end.

(** [XQueryTree]: root, parent and the children in stacking order,
    bottom-most first. *)
Definition XQueryTree (w : Window) (s : XServer) : option (Window * Window * list Window) * XServer :=
  match xs_windows s !! w with
  | None => (None, x_error BadWindow s)
  | Some x => (Some (xs_root s, xw_parent x,
                     filter (fun v => (xw_parent <$> xs_windows s !! v) = Some w) (xs_stack s)), s)
  end.

Definition XGrabServer (s : XServer) : XServer := set_grabbed true (log RqGrabServer s).
Definition XUngrabServer (s : XServer) : XServer := set_grabbed false (log RqUngrabServer s).

Definition XSetErrorHandler (h : XErrorHandler) (s : XServer) : XErrorHandler * XServer :=
  (xs_handler s, set_handler h s).

(** [XCheckTypedWindowEvent(dpy, w, type, &ev)]: remove and return the
    first queued event of that type reported on [w]. *)
Fixpoint take_typed_window_event (w : Window) (t : Z) (q : list XEvent)
    : option (XEvent * list XEvent) :=
  match q with
  | [] => None
  | e :: q' =>
    if bool_decide (xany_window e = w) && (event_type e =? t) then Some (e, q')
    else match take_typed_window_event w t q' with
         | Some (e', q'') => Some (e', e :: q'')
         | None => None
         end
  end.

Definition XCheckTypedWindowEvent (w : Window) (t : Z) (s : XServer) : option XEvent * XServer :=
  match take_typed_window_event w t (xs_queue s) with
  | Some (e, q) => (Some e, set_queue q s)
  | None => (None, s)
  end.

(** ** Xlib calls inside a program

    A program's global state contains the display connection; [HasX]
    says where. *)
Class HasX (S : Type) := {
  x_of : S -> XServer;
  with_x : XServer -> S -> S
}.

Section Lift.
Context {S : Type} `{HasX S}.

Definition xcall {A} (f : XServer -> A * XServer) : M S A :=
  fun s => let (a, x') := f (x_of s) in Ok (a, with_x x' s).

Definition xdo (f : XServer -> XServer) : M S unit :=
  fun s => Ok (tt, with_x (f (x_of s)) s).

(** The program's error handlers: what calling the installed handler
    on an error code does. *)
Context (call_handler : XErrorHandler -> Z -> M S Z).

(** Deliver the pending protocol errors to the installed handler. *)
Definition deliver_errors : M S unit :=
  errs <- xcall (fun x => (xs_errors x, set_errors [] x)) ;;
  mfor errs (fun code =>
    h <- gets (fun s => xs_handler (x_of s)) ;;
    _ <- call_handler h code ;;
    ret tt).

(** [XSync(dpy, False)]: a round trip, after which every error of the
    requests issued so far has been delivered. *)
Definition XSync : M S unit := deliver_errors.

(** [XNextEvent(dpy, &e)]: [None] when the queue is empty (the call
    blocks until another client acts). *)
Definition XNextEvent : M S (option XEvent) :=
  deliver_errors ;;;
  xcall (fun x => match xs_queue x with
                  | [] => (None, x)
                  | e :: q => (Some e, set_queue q x)
                  end).
End Lift.

(** Xlib's default error handler prints the error and exits. *)
Definition default_error_handler {S} (code : Z) : M S Z := stop (Exit 1).

(** ** The window structure

    What the window manager's invariants depend on: the root, the
    parent and selected event mask of every window, the save set and
    the next resource id.  Each request changes it in a simple way. *)

Record XStruct := mkXStruct {
  st_root : Window;
  st_wins : gmap Window (Window * Z);
  st_save : gset Window;
  st_next : Window
}.

Definition wstruct (x : XWin) : Window * Z := (xw_parent x, xw_event_mask x).

Definition xstruct (s : XServer) : XStruct :=
  mkXStruct (xs_root s) (wstruct <$> xs_windows s) (xs_save_set s) (xs_next_id s).

Definition parent_of (s : XServer) (w : Window) : option Window := xw_parent <$> xs_windows s !! w.
Definition mask_of (s : XServer) (w : Window) : option Z := xw_event_mask <$> xs_windows s !! w.

Lemma parent_of_xstruct s w : parent_of s w = fst <$> st_wins (xstruct s) !! w.
Proof. unfold parent_of; simpl. rewrite lookup_fmap. by destruct (xs_windows s !! w). Qed.

Lemma mask_of_xstruct s w : mask_of s w = snd <$> st_wins (xstruct s) !! w.
Proof. unfold mask_of; simpl. rewrite lookup_fmap. by destruct (xs_windows s !! w). Qed.

Lemma win_exists_xstruct s w : win_exists w s = bool_decide (is_Some (st_wins (xstruct s) !! w)).
Proof.
  unfold win_exists; simpl. rewrite lookup_fmap.
  by destruct (xs_windows s !! w).
Qed.

Lemma fmap_alter_wstruct (f : XWin -> XWin) w (m : gmap Window XWin) :
  (forall x, wstruct (f x) = wstruct x) -> wstruct <$> alter f w m = wstruct <$> m.
Proof.
  intros Hf. apply map_eq. intros i. rewrite !lookup_fmap, lookup_alter.
  case_decide as Heq; [subst i|done]. destruct (m !! w); simpl; [by rewrite Hf|done].
Qed.

Lemma xstruct_update_win w f s :
  (forall x, wstruct (f x) = wstruct x) -> xstruct (update_win w f s) = xstruct s.
Proof. intros Hf. unfold xstruct; simpl. by rewrite fmap_alter_wstruct. Qed.

Lemma xstruct_notify p ev s : xstruct (notify p ev s) = xstruct s.
Proof. unfold notify. by repeat case_match. Qed.

Lemma xstruct_log rq s : xstruct (log rq s) = xstruct s.
Proof. reflexivity. Qed.
Lemma xstruct_x_error c s : xstruct (x_error c s) = xstruct s.
Proof. reflexivity. Qed.
Lemma xstruct_set_stack l s : xstruct (set_stack l s) = xstruct s.
Proof. reflexivity. Qed.
Lemma xstruct_set_queue q s : xstruct (set_queue q s) = xstruct s.
Proof. reflexivity. Qed.
Lemma xstruct_set_grabbed g s : xstruct (set_grabbed g s) = xstruct s.
Proof. reflexivity. Qed.
Lemma xstruct_set_handler h s : xstruct (set_handler h s) = xstruct s.
Proof. reflexivity. Qed.
Lemma xstruct_set_errors e s : xstruct (set_errors e s) = xstruct s.
Proof. reflexivity. Qed.

Create Rewrite HintDb xstruct.
#[export] Hint Rewrite xstruct_notify xstruct_log xstruct_x_error xstruct_set_stack
  xstruct_set_queue xstruct_set_grabbed xstruct_set_handler xstruct_set_errors : xstruct.
#[export] Hint Rewrite xstruct_update_win using (intros; reflexivity) : xstruct.

(** Unfold a request and rewrite away the parts that keep the structure. *)
Ltac xstruct_solve :=
  repeat (case_match || case_decide); simplify_eq/=;
  autorewrite with xstruct; try reflexivity.

(** Requests that keep the structure. *)
Lemma XMapWindow_xstruct w s : xstruct (XMapWindow w s) = xstruct s.
Proof. unfold XMapWindow. xstruct_solve. Qed.
Lemma XUnmapWindow_xstruct w s : xstruct (XUnmapWindow w s) = xstruct s.
Proof. unfold XUnmapWindow. xstruct_solve. Qed.
Lemma XConfigureWindow_xstruct w m ch s : xstruct (XConfigureWindow w m ch s) = xstruct s.
Proof. unfold XConfigureWindow. xstruct_solve. Qed.
Lemma XMoveWindow_xstruct w x y s : xstruct (XMoveWindow w x y s) = xstruct s.
Proof. apply XConfigureWindow_xstruct. Qed.
Lemma XRaiseWindow_xstruct w s : xstruct (XRaiseWindow w s) = xstruct s.
Proof. apply XConfigureWindow_xstruct. Qed.
Lemma XGrabButton_xstruct w s : xstruct (XGrabButton w s) = xstruct s.
Proof. unfold XGrabButton. xstruct_solve. Qed.
Lemma XGrabServer_xstruct s : xstruct (XGrabServer s) = xstruct s.
Proof. reflexivity. Qed.
Lemma XUngrabServer_xstruct s : xstruct (XUngrabServer s) = xstruct s.
Proof. reflexivity. Qed.
Lemma XGetWindowAttributes_xstruct w s : xstruct (XGetWindowAttributes w s).2 = xstruct s.
Proof. unfold XGetWindowAttributes. xstruct_solve. Qed.
Lemma XGetGeometry_xstruct w s : xstruct (XGetGeometry w s).2 = xstruct s.
Proof. unfold XGetGeometry. xstruct_solve. Qed.
Lemma XQueryTree_xstruct w s : xstruct (XQueryTree w s).2 = xstruct s.
Proof. unfold XQueryTree. xstruct_solve. Qed.
Lemma XSetErrorHandler_xstruct h s : xstruct (XSetErrorHandler h s).2 = xstruct s.
Proof. reflexivity. Qed.
Lemma XCheckTypedWindowEvent_xstruct w t s : xstruct (XCheckTypedWindowEvent w t s).2 = xstruct s.
Proof. unfold XCheckTypedWindowEvent. xstruct_solve. Qed.

#[export] Hint Rewrite XMapWindow_xstruct XUnmapWindow_xstruct XConfigureWindow_xstruct
  XMoveWindow_xstruct XRaiseWindow_xstruct XGrabButton_xstruct XGrabServer_xstruct
  XUngrabServer_xstruct XGetWindowAttributes_xstruct XGetGeometry_xstruct
  XQueryTree_xstruct XSetErrorHandler_xstruct XCheckTypedWindowEvent_xstruct : xstruct.

(** Requests that change the structure, as transformers of [XStruct]. *)
Definition st_with_wins (ws : gmap Window (Window * Z)) (t : XStruct) : XStruct :=
  mkXStruct (st_root t) ws (st_save t) (st_next t).
Definition st_create (p : Window) (t : XStruct) : XStruct :=
  mkXStruct (st_root t) (<[st_next t := (p, 0)]> (st_wins t)) (st_save t) (st_next t + 1)%N.
Definition st_bump (t : XStruct) : XStruct :=
  mkXStruct (st_root t) (st_wins t) (st_save t) (st_next t + 1)%N.
Definition st_select (w : Window) (m : Z) (t : XStruct) : XStruct :=
  st_with_wins (alter (fun pm => (pm.1, m)) w (st_wins t)) t.
Definition st_reparent (w p : Window) (t : XStruct) : XStruct :=
  st_with_wins (alter (fun pm => (p, pm.2)) w (st_wins t)) t.
Definition st_save_add (w : Window) (t : XStruct) : XStruct :=
  mkXStruct (st_root t) (st_wins t) ({[w]} ∪ st_save t) (st_next t).
Definition st_save_remove (w : Window) (t : XStruct) : XStruct :=
  mkXStruct (st_root t) (st_wins t) (st_save t ∖ {[w]}) (st_next t).
Definition st_destroy (w : Window) (t : XStruct) : XStruct :=
  mkXStruct (st_root t) (delete w (st_wins t)) (st_save t ∖ {[w]}) (st_next t).

(** Compute the fields of composed structure transformers, leaving the
    underlying structure folded. *)
Ltac st_simpl := cbn [st_wins st_root st_save st_next st_reparent st_with_wins
  st_save_remove st_save_add st_select st_create st_bump st_destroy] in *.

Lemma XCreateSimpleWindow_result p x y w h bw b bg s :
  (XCreateSimpleWindow p x y w h bw b bg s).1 = xs_next_id s.
Proof. unfold XCreateSimpleWindow. by repeat case_match. Qed.

Lemma XCreateSimpleWindow_xstruct p x y w h bw b bg s :
  xstruct (XCreateSimpleWindow p x y w h bw b bg s).2 =
  if win_exists p s && (0 <? w) && (0 <? h)
  then st_create p (xstruct s) else st_bump (xstruct s).
Proof.
  unfold XCreateSimpleWindow. unfold win_exists; simpl.
  destruct (bool_decide _); simpl; [|reflexivity].
  destruct (Z.leb_spec w 0), (Z.ltb_spec 0 w), (Z.leb_spec h 0), (Z.ltb_spec 0 h);
    simpl; try lia; try reflexivity.
  rewrite xstruct_notify. unfold st_create, xstruct; simpl. by rewrite fmap_insert.
Qed.

Lemma XSelectInput_xstruct w m s :
  xstruct (XSelectInput w m s) =
  if win_exists w s && negb (has_mask m SubstructureRedirectMask && bool_decide (w = xs_root s)
                             && xs_rival_redirect s)
  then st_select w m (xstruct s) else xstruct s.
Proof.
  unfold XSelectInput. simpl. destruct (win_exists w _) eqn:He; simpl; [|reflexivity].
  destruct (_ && _ && _); simpl; [reflexivity|].
  unfold st_select, st_with_wins, xstruct; simpl. f_equal.
  by apply fmap_alter_commute.
Qed.

Lemma XAddToSaveSet_xstruct w s :
  xstruct (XAddToSaveSet w s) = if win_exists w s then st_save_add w (xstruct s) else xstruct s.
Proof. unfold XAddToSaveSet. simpl. by destruct (win_exists w _). Qed.

Lemma XRemoveFromSaveSet_xstruct w s :
  xstruct (XRemoveFromSaveSet w s) = if win_exists w s then st_save_remove w (xstruct s) else xstruct s.
Proof. unfold XRemoveFromSaveSet. simpl. by destruct (win_exists w _). Qed.

Lemma XReparentWindow_xstruct w p x y s :
  xstruct (XReparentWindow w p x y s) =
  if win_exists w s && win_exists p s && negb (bool_decide (p = w))
  then st_reparent w p (xstruct s) else xstruct s.
Proof.
  unfold XReparentWindow, win_exists. simpl.
  destruct (xs_windows s !! w) as [ww|] eqn:Hw; simpl; [|reflexivity].
  destruct (bool_decide (is_Some (xs_windows s !! p))); simpl; [|reflexivity].
  destruct (bool_decide (p = w)); simpl; [reflexivity|].
  assert (Hu : forall s', xs_windows s' = xs_windows s ->
            xstruct (update_win w (with_parent p x y) s') = st_reparent w p (xstruct s')).
  { intros s' Hs'. unfold st_reparent, st_with_wins, xstruct; simpl. f_equal.
    by apply fmap_alter_commute. }
  destruct (xw_mapped ww), (bool_decide (p = xw_parent ww)); autorewrite with xstruct;
    (rewrite Hu; [by autorewrite with xstruct|]); unfold notify; by repeat case_match.
Qed.

Lemma children_nil (ws : gmap Window XWin) f :
  (forall v x, ws !! v = Some x -> xw_parent x <> f) -> children ws f = [].
Proof.
  intros Hno. unfold children.
  assert (Hf : forall l, (forall v x, (v, x) ∈ l -> xw_parent x <> f) ->
            filter (fun kv : Window * XWin => xw_parent kv.2 = f) l = []).
  { induction l as [|[v x] l IH]; intros Hl; [done|]. rewrite filter_cons.
    rewrite decide_False by (apply (Hl v); left). apply IH. intros; eapply Hl; by right. }
  rewrite Hf; [done|]. intros v x Hin%elem_of_map_to_list. by apply (Hno v).
Qed.

Lemma subtree_leaf fuel ws f :
  children ws f = [] -> subtree fuel ws f = [f].
Proof. destruct fuel; simpl; [done|]. intros ->. done. Qed.

Lemma fmap_filter_not_in (ws : gmap Window XWin) f :
  wstruct <$> filter (fun kv : Window * XWin => kv.1 ∉ [f]) ws = delete f (wstruct <$> ws).
Proof.
  apply map_eq. intros i. rewrite lookup_fmap, map_lookup_filter.
  destruct (decide (i = f)) as [->|Hne].
  - rewrite lookup_delete_eq. destruct (ws !! f); simpl; [|done].
    rewrite option_guard_False; [done|]. simpl. rewrite list_elem_of_singleton. tauto.
  - rewrite lookup_delete_ne, lookup_fmap by done. destruct (ws !! i); simpl; [|done].
    rewrite option_guard_True; [done|]. simpl. rewrite list_elem_of_singleton. tauto.
Qed.

(** [notify] only appends to the queue. *)
Lemma notify_set_queue p ev s : exists q, notify p ev s = set_queue q s.
Proof.
  unfold notify. repeat case_match; first [by eexists | exists (xs_queue s); by destruct s].
Qed.

(** Destroying a window without children removes exactly that window. *)
Lemma XDestroyWindow_xstruct f s :
  f <> xs_root s -> win_exists f s = true ->
  (forall v, parent_of s v <> Some f) ->
  xstruct (XDestroyWindow f s) = st_destroy f (xstruct s).
Proof.
  intros Hroot Hex Hno. unfold XDestroyWindow, win_exists in *. simpl.
  rewrite bool_decide_false by done.
  destruct (xs_windows s !! f) as [ww|] eqn:Hf; [|by apply bool_decide_eq_true in Hex as []].
  set (s0 := log (RqDestroyWindow f) s).
  assert (Hgone : forall ws : gmap Window XWin, (forall v, xw_parent <$> ws !! v = parent_of s v) ->
            ws !! f <> None -> subtree (size ws) ws f = [f]).
  { intros ws Hws Hwf. apply subtree_leaf, children_nil. intros v x Hv Hp.
    apply (Hno v). rewrite <-Hws, Hv. simpl. by f_equal. }
  assert (Hfin : forall s1, xs_windows s1 !! f <> None ->
            (forall v, xw_parent <$> xs_windows s1 !! v = parent_of s v) ->
            wstruct <$> xs_windows s1 = wstruct <$> xs_windows s ->
            xs_save_set s1 = xs_save_set s -> xs_root s1 = xs_root s -> xs_next_id s1 = xs_next_id s ->
            xstruct (let gone := subtree (size (xs_windows s1)) (xs_windows s1) f in
                     let s2 := notify (xw_parent ww) (EvDestroyNotify (xw_parent ww) f) s1 in
                     let s3 := set_windows (filter (fun kv => kv.1 ∉ gone) (xs_windows s2)) s2 in
                     let s4 := set_stack (filter (fun v => v ∉ gone) (xs_stack s3)) s3 in
                     set_save_set (filter (fun v => v ∉ gone) (xs_save_set s4)) s4)
            = st_destroy f (xstruct s)).
  { intros s1 H1 H2 H3 H4 H5 H6. simpl. rewrite Hgone by done.
    destruct (notify_set_queue (xw_parent ww) (EvDestroyNotify (xw_parent ww) f) s1) as [q ->].
    unfold st_destroy, xstruct; simpl. rewrite fmap_filter_not_in, H3, H4, H5, H6.
    f_equal. apply set_eq. intros v.
    rewrite elem_of_filter, elem_of_difference, elem_of_singleton, list_elem_of_singleton.
    tauto. }
  destruct (xw_mapped ww); apply Hfin; simpl.
  - destruct (notify_set_queue (xw_parent ww) (EvUnmapNotify {| um_event := xw_parent ww; um_window := f |})
               (update_win f (with_mapped false) s0)) as [q ->]. simpl.
    by rewrite lookup_alter_eq, Hf.
  - intros v. destruct (notify_set_queue (xw_parent ww) (EvUnmapNotify {| um_event := xw_parent ww; um_window := f |})
               (update_win f (with_mapped false) s0)) as [q ->]. simpl. unfold parent_of.
    destruct (decide (f = v)) as [<-|?]; [by rewrite lookup_alter_eq, Hf|by rewrite lookup_alter_ne].
  - destruct (notify_set_queue (xw_parent ww) (EvUnmapNotify {| um_event := xw_parent ww; um_window := f |})
               (update_win f (with_mapped false) s0)) as [q ->]. simpl.
    by apply fmap_alter_wstruct.
  - by destruct (notify_set_queue (xw_parent ww) (EvUnmapNotify {| um_event := xw_parent ww; um_window := f |})
               (update_win f (with_mapped false) s0)) as [q ->].
  - by destruct (notify_set_queue (xw_parent ww) (EvUnmapNotify {| um_event := xw_parent ww; um_window := f |})
               (update_win f (with_mapped false) s0)) as [q ->].
  - by destruct (notify_set_queue (xw_parent ww) (EvUnmapNotify {| um_event := xw_parent ww; um_window := f |})
               (update_win f (with_mapped false) s0)) as [q ->].
  - by rewrite Hf.
  - done.
  - done.
  - done.
  - done.
  - done.
Qed.

Section LiftRun.
Context {S : Type} `{HasX S}.

Lemma bind_xcall {A B} (f : XServer -> A * XServer) (k : A -> M S B) s :
  bind (xcall f) k s = k (f (x_of s)).1 (with_x (f (x_of s)).2 s).
Proof. unfold bind, xcall. by destruct (f (x_of s)). Qed.

Lemma bind_xdo {B} (f : XServer -> XServer) (k : unit -> M S B) s :
  bind (xdo f) k s = k tt (with_x (f (x_of s)) s).
Proof. reflexivity. Qed.

Lemma xdo_run (f : XServer -> XServer) s : xdo f s = Ok (tt, with_x (f (x_of s)) s).
Proof. reflexivity. Qed.

Lemma xcall_run {A} (f : XServer -> A * XServer) s :
  xcall f s = Ok ((f (x_of s)).1, with_x (f (x_of s)).2 s).
Proof. unfold xcall. by destruct (f (x_of s)). Qed.
End LiftRun.

#[export] Hint Rewrite @bind_xcall @bind_xdo @xdo_run @xcall_run : mrun.

Lemma XSelectInput_handler w m s : xs_handler (XSelectInput w m s) = xs_handler s.
Proof. unfold XSelectInput. by repeat case_match. Qed.

(** ** The request log *)

Lemma notify_log p ev s : xs_log (notify p ev s) = xs_log s.
Proof. by destruct (notify_set_queue p ev s) as [q ->]. Qed.

Create Rewrite HintDb xlog.
#[export] Hint Rewrite notify_log : xlog.

Ltac xlog_solve :=
  repeat (case_match || case_decide); simplify_eq/=; autorewrite with xlog; simpl;
  rewrite ?notify_log; simpl; try reflexivity.

Lemma XCreateSimpleWindow_log p x y w h bw b bg s :
  xs_log (XCreateSimpleWindow p x y w h bw b bg s).2 = xs_log s ++ [RqCreateWindow (xs_next_id s) p x y w h bw].
Proof. unfold XCreateSimpleWindow. xlog_solve. Qed.
Lemma XSelectInput_log w m s : xs_log (XSelectInput w m s) = xs_log s ++ [RqSelectInput w m].
Proof. unfold XSelectInput. xlog_solve. Qed.
Lemma XAddToSaveSet_log w s : xs_log (XAddToSaveSet w s) = xs_log s ++ [RqChangeSaveSet w true].
Proof. unfold XAddToSaveSet. xlog_solve. Qed.
Lemma XRemoveFromSaveSet_log w s : xs_log (XRemoveFromSaveSet w s) = xs_log s ++ [RqChangeSaveSet w false].
Proof. unfold XRemoveFromSaveSet. xlog_solve. Qed.
Lemma XReparentWindow_log w p x y s :
  xs_log (XReparentWindow w p x y s) = xs_log s ++ [RqReparentWindow w p x y].
Proof. unfold XReparentWindow. xlog_solve. Qed.
Lemma XMapWindow_log w s : xs_log (XMapWindow w s) = xs_log s ++ [RqMapWindow w].
Proof. unfold XMapWindow. xlog_solve. Qed.
Lemma XUnmapWindow_log w s : xs_log (XUnmapWindow w s) = xs_log s ++ [RqUnmapWindow w].
Proof. unfold XUnmapWindow. xlog_solve. Qed.
Lemma XDestroyWindow_log w s : xs_log (XDestroyWindow w s) = xs_log s ++ [RqDestroyWindow w].
Proof. unfold XDestroyWindow. xlog_solve. Qed.
Lemma XConfigureWindow_log w m ch s :
  xs_log (XConfigureWindow w m ch s) = xs_log s ++ [RqConfigureWindow w m ch].
Proof. unfold XConfigureWindow. xlog_solve. Qed.
Lemma XGetWindowAttributes_log w s : xs_log (XGetWindowAttributes w s).2 = xs_log s.
Proof. unfold XGetWindowAttributes. xlog_solve. Qed.

Lemma XGrabButton_log w s : xs_log (XGrabButton w s) = xs_log s ++ [RqGrabButton w].
Proof. unfold XGrabButton. xlog_solve. Qed.

#[export] Hint Rewrite XCreateSimpleWindow_log XSelectInput_log XAddToSaveSet_log
  XRemoveFromSaveSet_log XReparentWindow_log XMapWindow_log XUnmapWindow_log
  XDestroyWindow_log XConfigureWindow_log XGetWindowAttributes_log XGrabButton_log : xlog.

(** ** The installed error handler

    Only [XSetErrorHandler] changes it: the steady-state handler stays
    installed whatever requests follow. *)

Lemma notify_handler p ev s : xs_handler (notify p ev s) = xs_handler s.
Proof. by destruct (notify_set_queue p ev s) as [q ->]. Qed.

Create Rewrite HintDb xhandler.
#[export] Hint Rewrite notify_handler : xhandler.

Ltac xhandler_solve :=
  repeat (case_match || case_decide); simplify_eq/=; repeat progress (rewrite ?notify_handler; simpl); try reflexivity.

Lemma XCreateSimpleWindow_handler p x y w h bw b bg s :
  xs_handler (XCreateSimpleWindow p x y w h bw b bg s).2 = xs_handler s.
Proof. unfold XCreateSimpleWindow. xhandler_solve. Qed.
Lemma XGrabButton_handler w s : xs_handler (XGrabButton w s) = xs_handler s.
Proof. unfold XGrabButton. xhandler_solve. Qed.
Lemma XAddToSaveSet_handler w s : xs_handler (XAddToSaveSet w s) = xs_handler s.
Proof. unfold XAddToSaveSet. xhandler_solve. Qed.
Lemma XRemoveFromSaveSet_handler w s : xs_handler (XRemoveFromSaveSet w s) = xs_handler s.
Proof. unfold XRemoveFromSaveSet. xhandler_solve. Qed.
Lemma XReparentWindow_handler w p x y s : xs_handler (XReparentWindow w p x y s) = xs_handler s.
Proof. unfold XReparentWindow. xhandler_solve. Qed.
Lemma XMapWindow_handler w s : xs_handler (XMapWindow w s) = xs_handler s.
Proof. unfold XMapWindow. xhandler_solve. Qed.
Lemma XUnmapWindow_handler w s : xs_handler (XUnmapWindow w s) = xs_handler s.
Proof. unfold XUnmapWindow. xhandler_solve. Qed.
Lemma XDestroyWindow_handler w s : xs_handler (XDestroyWindow w s) = xs_handler s.
Proof. unfold XDestroyWindow. xhandler_solve. Qed.
Lemma XConfigureWindow_handler w m ch s : xs_handler (XConfigureWindow w m ch s) = xs_handler s.
Proof. unfold XConfigureWindow. xhandler_solve. Qed.
Lemma XMoveWindow_handler w x y s : xs_handler (XMoveWindow w x y s) = xs_handler s.
Proof. apply XConfigureWindow_handler. Qed.
Lemma XRaiseWindow_handler w s : xs_handler (XRaiseWindow w s) = xs_handler s.
Proof. apply XConfigureWindow_handler. Qed.
Lemma XGetWindowAttributes_handler w s : xs_handler (XGetWindowAttributes w s).2 = xs_handler s.
Proof. unfold XGetWindowAttributes. xhandler_solve. Qed.
Lemma XGetGeometry_handler w s : xs_handler (XGetGeometry w s).2 = xs_handler s.
Proof. unfold XGetGeometry. xhandler_solve. Qed.
Lemma XQueryTree_handler w s : xs_handler (XQueryTree w s).2 = xs_handler s.
Proof. unfold XQueryTree. xhandler_solve. Qed.
Lemma XCheckTypedWindowEvent_handler w t s : xs_handler (XCheckTypedWindowEvent w t s).2 = xs_handler s.
Proof. unfold XCheckTypedWindowEvent. xhandler_solve. Qed.

#[export] Hint Rewrite XCreateSimpleWindow_handler XSelectInput_handler XGrabButton_handler
  XAddToSaveSet_handler XRemoveFromSaveSet_handler XReparentWindow_handler XMapWindow_handler
  XUnmapWindow_handler XDestroyWindow_handler XConfigureWindow_handler XMoveWindow_handler
  XRaiseWindow_handler XGetWindowAttributes_handler XGetGeometry_handler XQueryTree_handler
  XCheckTypedWindowEvent_handler : xhandler.

(** ** The event queue

    The window manager's requests only append the notifications they
    generate to the queue. *)

Lemma notify_queue_prefix p ev s : xs_queue s `prefix_of` xs_queue (notify p ev s).
Proof. unfold notify. repeat case_match; simpl; [by apply prefix_app_r|done..]. Qed.

Ltac xqueue_solve :=
  repeat (case_match || case_decide); simplify_eq/=;
  repeat first [etrans; [|apply notify_queue_prefix]; simpl | reflexivity].

Lemma XCreateSimpleWindow_queue p x y w h bw b bg s :
  xs_queue s `prefix_of` xs_queue (XCreateSimpleWindow p x y w h bw b bg s).2.
Proof. unfold XCreateSimpleWindow. xqueue_solve. Qed.
Lemma XSelectInput_queue w m s : xs_queue s `prefix_of` xs_queue (XSelectInput w m s).
Proof. unfold XSelectInput. xqueue_solve. Qed.
Lemma XAddToSaveSet_queue w s : xs_queue s `prefix_of` xs_queue (XAddToSaveSet w s).
Proof. unfold XAddToSaveSet. xqueue_solve. Qed.
Lemma XRemoveFromSaveSet_queue w s : xs_queue s `prefix_of` xs_queue (XRemoveFromSaveSet w s).
Proof. unfold XRemoveFromSaveSet. xqueue_solve. Qed.
Lemma XReparentWindow_queue w p x y s : xs_queue s `prefix_of` xs_queue (XReparentWindow w p x y s).
Proof. unfold XReparentWindow. xqueue_solve. Qed.
Lemma XMapWindow_queue w s : xs_queue s `prefix_of` xs_queue (XMapWindow w s).
Proof. unfold XMapWindow. xqueue_solve. Qed.
Lemma XUnmapWindow_queue w s : xs_queue s `prefix_of` xs_queue (XUnmapWindow w s).
Proof. unfold XUnmapWindow. xqueue_solve. Qed.
Lemma XDestroyWindow_queue w s : xs_queue s `prefix_of` xs_queue (XDestroyWindow w s).
Proof. unfold XDestroyWindow. xqueue_solve. Qed.
Lemma XConfigureWindow_queue w m ch s : xs_queue s `prefix_of` xs_queue (XConfigureWindow w m ch s).
Proof. unfold XConfigureWindow. xqueue_solve. Qed.
Lemma XGetWindowAttributes_queue w s : xs_queue s `prefix_of` xs_queue (XGetWindowAttributes w s).2.
Proof. unfold XGetWindowAttributes. xqueue_solve. Qed.
Lemma XGrabButton_queue w s : xs_queue s `prefix_of` xs_queue (XGrabButton w s).
Proof. unfold XGrabButton. xqueue_solve. Qed.
Lemma XMoveWindow_queue w x y s : xs_queue s `prefix_of` xs_queue (XMoveWindow w x y s).
Proof. apply XConfigureWindow_queue. Qed.
Lemma XRaiseWindow_queue w s : xs_queue s `prefix_of` xs_queue (XRaiseWindow w s).
Proof. apply XConfigureWindow_queue. Qed.
Lemma XGetGeometry_queue w s : xs_queue s `prefix_of` xs_queue (XGetGeometry w s).2.
Proof. unfold XGetGeometry. xqueue_solve. Qed.

Create HintDb xqueue discriminated.
#[export] Hint Resolve XCreateSimpleWindow_queue XSelectInput_queue XAddToSaveSet_queue
  XRemoveFromSaveSet_queue XReparentWindow_queue XMapWindow_queue XUnmapWindow_queue
  XDestroyWindow_queue XConfigureWindow_queue XGetWindowAttributes_queue XGrabButton_queue
  XMoveWindow_queue XRaiseWindow_queue XGetGeometry_queue : xqueue.

(** ** Window records across the unframing requests *)

Lemma notify_windows p ev s : xs_windows (notify p ev s) = xs_windows s.
Proof. by destruct (notify_set_queue p ev s) as [q ->]. Qed.

Lemma XUnmapWindow_lookup_ne w v s : v <> w -> xs_windows (XUnmapWindow w s) !! v = xs_windows s !! v.
Proof.
  intros Hv. unfold XUnmapWindow. simpl. repeat case_match; rewrite ?notify_windows; simpl;
    by rewrite ?lookup_alter_ne by congruence.
Qed.

Lemma XRemoveFromSaveSet_windows w s : xs_windows (XRemoveFromSaveSet w s) = xs_windows s.
Proof. unfold XRemoveFromSaveSet. by case_match. Qed.

(** A successful reparent moves [w] to [(x, y)] in its new parent. *)
Lemma XReparentWindow_lookup w p x y s ww :
  xs_windows s !! w = Some ww -> is_Some (xs_windows s !! p) -> p <> w ->
  xs_windows (XReparentWindow w p x y s) !! w = Some (with_parent p x y ww).
Proof.
  intros Hw Hp Hpw. unfold XReparentWindow, win_exists. simpl. rewrite Hw. simpl.
  rewrite bool_decide_true by done. rewrite bool_decide_false by done. simpl.
  repeat case_match; rewrite ?notify_windows; simpl; rewrite ?notify_windows; simpl;
    rewrite ?notify_windows; simpl; rewrite ?notify_windows; simpl; by rewrite lookup_alter_eq, ?Hw.
Qed.

(** Destroying [f] leaves the record of another window as it was, or
    removes it with [f]'s subtree. *)
Lemma XDestroyWindow_lookup_ne f v s :
  v <> f -> xs_windows (XDestroyWindow f s) !! v = xs_windows s !! v \/
            xs_windows (XDestroyWindow f s) !! v = None.
Proof.
  intros Hv. unfold XDestroyWindow. simpl. case_decide; [by left|].
  destruct (xs_windows s !! f) as [fw|]; [|by left]. cbn zeta.
  set (s1 := if xw_mapped fw then _ else _).
  assert (Hs1 : xs_windows s1 !! v = xs_windows s !! v).
  { subst s1. case_match; rewrite ?notify_windows; simpl; by rewrite ?lookup_alter_ne by congruence. }
  simpl. rewrite notify_windows, map_lookup_filter, Hs1.
  destruct (xs_windows s !! v); simpl; [|by left]. case_guard; [by left|by right].
Qed.
