(* ===== verification/Registry.v ===== *)
(** * The client registry

    The C implementation keeps its clients in [OwenScreen.clients], a
    fixed array of 256 [Client {win, frame}] records of which the first
    [client_count] are live ([src/owen.c], lines 13-21 and 106-133):
    [owen_clients_add] writes at [client_count] without a bounds check,
    [owen_clients_get_index] is a linear search returning [-1] when
    absent, and [owen_clients_delete] moves the last live record into the
    deleted slot.

    The abstract registry of the spec (section 4.1) is a finite map from
    client to frame.  [ClientRegistry] states what a registry promises
    to the framing engine; the array implements it under [owen_screen_ok]
    (array of 256 records, [0 <= client_count <= 256], no client twice
    among the live records). *)

From S2P Require Import Prelude.

(** ** The interface *)

Class ClientRegistry (R : Type) := {
  reg_ok : R -> Prop;
  reg_abs : R -> gmap Window Window;
  reg_full : R -> bool;
  reg_add : Window -> Window -> R -> option R;
  reg_frame_of : Window -> R -> option Window;
  reg_remove : Window -> R -> R;
  reg_count : R -> Z
}.

(** The laws: every operation refines the corresponding finite-map
    operation; [reg_add] of an absent client into a registry that is not
    full succeeds. *)
Class ClientRegistryLaws (R : Type) `{ClientRegistry R} := {
  reg_frame_of_abs r w : reg_ok r -> reg_frame_of w r = reg_abs r !! w;
  reg_add_abs r w f :
    reg_ok r -> reg_abs r !! w = None -> reg_full r = false ->
    exists r', reg_add w f r = Some r' /\ reg_ok r' /\ reg_abs r' = <[w:=f]> (reg_abs r);
  reg_remove_abs r w :
    reg_ok r -> reg_ok (reg_remove w r) /\ reg_abs (reg_remove w r) = delete w (reg_abs r);
  reg_count_abs r : reg_ok r -> reg_count r = Z.of_nat (size (reg_abs r))
}.

(** ** The C array registry *)

Record Client := mkClient { win : Window; frame : Window }.

Record OwenScreen := mkOwenScreen {
  index : Z; height : Z; width : Z; client_count : Z;
  clients : list Client
}.

Definition CLIENTS_LEN : Z := 256.

(** Static storage is zero-initialised. *)
Definition client0 : Client := mkClient XNone XNone.

Definition set_clients (n : Z) (cs : list Client) (s : OwenScreen) : OwenScreen :=
  mkOwenScreen (index s) (height s) (width s) n cs.

(** [owen.screen.clients[i]]: [None] is an access out of the array. *)
Definition client_at (s : OwenScreen) (i : Z) : option Client :=
  if 0 <=? i then clients s !! Z.to_nat i else None.

(** The test of the search loops: [win == owen.screen.clients[i].win]. *)
Definition client_is (w : Window) (s : OwenScreen) (i : Z) : bool :=
  match client_at s i with Some c => bool_decide (w = win c) | None => false end.

(** [for (int i = 0; i < client_count; i++) if (win == clients[i].win) ...] *)
Definition find_client (w : Window) (s : OwenScreen) : option Z :=
  c_for_find (client_is w s) 0 (Z.to_nat (client_count s)).

(** [owen_clients_add]: [clients[client_count] = client; client_count++],
    with no capacity check: writing past the array is undefined ([None]). *)
Definition owen_clients_add (w f : Window) (s : OwenScreen) : option OwenScreen :=
  let n := client_count s in
  if (0 <=? n) && (n <? Z.of_nat (length (clients s)))
  then Some (set_clients (n + 1) (<[Z.to_nat n := mkClient w f]> (clients s)) s)
  else None.

(** [owen_clients_get_index] *)
Definition owen_clients_get_index (w : Window) (s : OwenScreen) : Z :=
  match find_client w s with Some i => i | None => -1 end.

(** [owen_clients_delete]: the last live record replaces the deleted
    one, then [client_count--]. *)
Definition owen_clients_delete (w : Window) (s : OwenScreen) : OwenScreen :=
  match find_client w s with
  | Some i =>
    let last := default client0 (client_at s (client_count s - 1)) in
    set_clients (client_count s - 1) (<[Z.to_nat i := last]> (clients s)) s
  | None => s
  end.

(** [owen.screen.clients[owen_clients_get_index(win)].frame], the
    lookup the callers perform; [-1] makes the access out of bounds. *)
Definition owen_clients_frame_of (w : Window) (s : OwenScreen) : option Window :=
  frame <$> client_at s (owen_clients_get_index w s).

(** ** Abstraction *)

Definition live (s : OwenScreen) : list Client := take (Z.to_nat (client_count s)) (clients s).

Definition client_pair (c : Client) : Window * Window := (win c, frame c).

Definition owen_abs (s : OwenScreen) : gmap Window Window := list_to_map (client_pair <$> live s).

Definition owen_screen_ok (s : OwenScreen) : Prop :=
  Z.of_nat (length (clients s)) = CLIENTS_LEN /\
  0 <= client_count s <= CLIENTS_LEN /\
  NoDup (win <$> live s).

#[export] Instance owen_screen_ok_dec s : Decision (owen_screen_ok s).
Proof. unfold owen_screen_ok. apply _. Defined.

#[export] Instance OwenScreen_registry : ClientRegistry OwenScreen := {
  reg_ok := owen_screen_ok;
  reg_abs := owen_abs;
  reg_full s := client_count s =? CLIENTS_LEN;
  reg_add := owen_clients_add;
  reg_frame_of := owen_clients_frame_of;
  reg_remove := owen_clients_delete;
  reg_count := client_count
}.

(** ** Lemmas on lists and finite maps *)

(** The swap-with-last deletion of the C array is, on the live prefix, a
    permutation of deleting index [i]. *)
Lemma take_swap_last_perm {A} (arr : list A) (n i : nat) (x : A) :
  (i < n)%nat -> (n <= length arr)%nat -> arr !! (n - 1)%nat = Some x ->
  take (n - 1)%nat (<[i:=x]> arr) ≡ₚ delete i (take n arr).
Proof.
  intros Hi Hn Hx.
  assert (Htk : take n arr = take (n - 1) arr ++ [x]).
  { replace n with (S (n - 1)) at 1 by lia. by apply take_S_r. }
  rewrite Htk, take_insert.
  destruct (decide (i < n - 1)%nat) as [Hlt|Hge].
  - assert (Hl : (i < length (take (n - 1) arr))%nat) by (rewrite length_take; lia).
    rewrite insert_take_drop by done. rewrite !delete_take_drop.
    rewrite take_app_le by lia. rewrite drop_app_le by lia.
    apply Permutation_app_head, Permutation_cons_append.
  - assert (i = n - 1)%nat as -> by lia.
    rewrite delete_take_drop, take_app_le, drop_app_ge by (rewrite length_take; lia).
    rewrite take_take, Nat.min_id, length_take.
    replace (S (n - 1) - Nat.min (n - 1) (length arr))%nat with 1%nat by lia.
    by rewrite app_nil_r.
Qed.

Lemma list_to_map_delete_at (l : list (Window * Window)) i k v :
  NoDup l.*1 -> l !! i = Some (k, v) ->
  (list_to_map (delete i l) : gmap Window Window) = delete k (list_to_map l).
Proof.
  intros Hnd Hi.
  pose proof (delete_Permutation l i _ Hi) as Hp.
  rewrite (list_to_map_proper l ((k, v) :: delete i l)) by done. simpl.
  rewrite delete_insert_eq. symmetry. apply delete_id.
  apply not_elem_of_list_to_map_1.
  rewrite Hp in Hnd. simpl in Hnd. by apply NoDup_cons in Hnd as [? _].
Qed.

Lemma client_pairs_fst (l : list Client) : (client_pair <$> l).*1 = win <$> l.
Proof. rewrite <-list_fmap_compose. reflexivity. Qed.

(** The map built from the live records answers with the first record
    of the client, as the C search does. *)
Lemma owen_abs_lookup_list (l : list Client) w :
  (list_to_map (client_pair <$> l) : gmap Window Window) !! w
  = (fun p => frame p.2) <$> list_find (fun c => w = win c) l.
Proof.
  induction l as [|c l IH]; [done|].
  rewrite fmap_cons. cbn [list_to_map foldr list_find client_pair fst snd].
  destruct (decide (w = win c)) as [->|Hne].
  - by rewrite lookup_insert_eq.
  - rewrite lookup_insert_ne by congruence. rewrite IH.
    by destruct (list_find _ l) as [[]|].
Qed.

(** ** The array operations against the live prefix *)

Section ArrayRegistry.
Context (s : OwenScreen).
Hypothesis Hbounds : 0 <= client_count s <= Z.of_nat (length (clients s)).

Lemma length_live : length (live s) = Z.to_nat (client_count s).
Proof. unfold live. rewrite length_take. lia. Qed.

Lemma client_at_live i :
  0 <= i < client_count s -> client_at s i = live s !! Z.to_nat i.
Proof.
  intros Hi. unfold client_at, live.
  destruct (Z.leb_spec 0 i); [|lia]. rewrite lookup_take_lt; [done|lia].
Qed.

(** The C search loop is [list_find] on the live records. *)
Lemma find_client_list_find w :
  find_client w s = (fun p => Z.of_nat p.1) <$> list_find (fun c => w = win c) (live s).
Proof.
  unfold find_client.
  destruct (list_find _ (live s)) as [[j c]|] eqn:Hf; simpl.
  - apply list_find_Some in Hf as (Hj & Hw & Hfirst).
    assert (Hjn : (j < Z.to_nat (client_count s))%nat)
      by (rewrite <-length_live; eapply lookup_lt_Some; eauto).
    apply c_for_find_least; [lia| |].
    + unfold client_is. rewrite client_at_live by lia. rewrite Nat2Z.id, Hj.
      by apply bool_decide_eq_true.
    + intros k Hk. unfold client_is. rewrite client_at_live by lia.
      destruct (live s !! Z.to_nat k) as [c'|] eqn:Hc'; [|done].
      apply bool_decide_eq_false. eapply Hfirst; [done|lia].
  - apply list_find_None in Hf.
    destruct (c_for_find _ _ _) as [j|] eqn:Hc; [|done].
    apply c_for_find_some in Hc as (Hj & Hw & _).
    unfold client_is in Hw. rewrite client_at_live in Hw by lia.
    destruct (live s !! Z.to_nat j) as [c'|] eqn:Hc'; [|done].
    apply bool_decide_eq_true in Hw. subst w.
    eapply Forall_lookup_1 in Hf; [|done]. by destruct Hf.
Qed.

(** [clients[get_index(w)].frame] is the abstract lookup. *)
Lemma owen_clients_frame_of_abs w : owen_clients_frame_of w s = owen_abs s !! w.
Proof.
  unfold owen_clients_frame_of, owen_clients_get_index, owen_abs.
  rewrite owen_abs_lookup_list, find_client_list_find.
  destruct (list_find _ (live s)) as [[j c]|] eqn:Hf; simpl; [|done].
  apply list_find_Some in Hf as (Hj & _ & _).
  assert (j < length (live s))%nat by (eapply lookup_lt_Some; eauto).
  rewrite client_at_live by (rewrite length_live in *; lia).
  by rewrite Nat2Z.id, Hj.
Qed.

Lemma owen_clients_get_index_absent w :
  owen_clients_get_index w s = -1 <-> owen_abs s !! w = None.
Proof.
  unfold owen_clients_get_index, owen_abs.
  rewrite owen_abs_lookup_list, find_client_list_find.
  destruct (list_find _ (live s)) as [[j c]|]; simpl; [|done].
  split; [lia|done].
Qed.
End ArrayRegistry.

Lemma live_add s w f s' :
  owen_clients_add w f s = Some s' ->
  client_count s' = client_count s + 1 /\ clients s' = <[Z.to_nat (client_count s) := mkClient w f]> (clients s) /\
  live s' = live s ++ [mkClient w f].
Proof.
  unfold owen_clients_add. destruct (_ && _) eqn:Hb; [|discriminate].
  apply andb_true_iff in Hb as [Hb1 Hb2]. apply Z.leb_le in Hb1. apply Z.ltb_lt in Hb2.
  intros [= <-]. split; [done|]. split; [done|]. unfold live; simpl.
  replace (Z.to_nat (client_count s + 1)) with (S (Z.to_nat (client_count s))) by lia.
  rewrite (take_S_r _ _ (mkClient w f)).
  - rewrite take_insert. by destruct (decide _); [lia|].
  - apply list_lookup_insert_eq. lia.
Qed.

Lemma live_delete s w i :
  0 <= client_count s <= Z.of_nat (length (clients s)) ->
  find_client w s = Some i ->
  live (owen_clients_delete w s) ≡ₚ delete (Z.to_nat i) (live s).
Proof.
  intros Hb Hf. unfold owen_clients_delete. rewrite Hf.
  pose proof (c_for_find_some _ _ _ _ Hf) as (Hi & _).
  unfold live; simpl.
  replace (Z.to_nat (client_count s - 1)) with (Z.to_nat (client_count s) - 1)%nat by lia.
  destruct (clients s !! (Z.to_nat (client_count s) - 1)%nat) as [c|] eqn:Hc;
    [|apply lookup_ge_None in Hc; lia].
  replace (default client0 (client_at s (client_count s - 1))) with c.
  - apply take_swap_last_perm; [lia|lia|done].
  - unfold client_at. destruct (Z.leb_spec 0 (client_count s - 1)); [|lia].
    by replace (Z.to_nat (client_count s - 1)) with (Z.to_nat (client_count s) - 1)%nat
      by lia; rewrite Hc.
Qed.

(** Round trip on the array: deleting the client just added gives the
    live records back, in order (the record stays behind, dead, in the
    slot past [client_count]). *)
Lemma owen_clients_delete_add s w f s' :
  owen_abs s !! w = None -> owen_clients_add w f s = Some s' ->
  client_count (owen_clients_delete w s') = client_count s /\ live (owen_clients_delete w s') = live s.
Proof.
  intros Hw Hadd. destruct (live_add _ _ _ _ Hadd) as (Hc & Hcl & Hl).
  unfold owen_clients_add in Hadd. destruct (_ && _) eqn:Hb; [|discriminate].
  apply andb_true_iff in Hb as [Hb1 Hb2]. apply Z.leb_le in Hb1. apply Z.ltb_lt in Hb2.
  assert (Hnone : list_find (fun c => w = win c) (live s) = None).
  { unfold owen_abs in Hw. rewrite owen_abs_lookup_list in Hw. by apply fmap_None in Hw. }
  assert (Hf : find_client w s' = Some (client_count s)).
  { rewrite find_client_list_find by (rewrite Hc, Hcl, length_insert; lia).
    rewrite Hl, list_find_app_r by done. simpl. rewrite decide_True by done. simpl.
    rewrite length_live by lia. f_equal. lia. }
  unfold owen_clients_delete. rewrite Hf. cbn [client_count set_clients clients].
  rewrite Hc. split; [lia|]. unfold live, client_at; cbn [client_count clients set_clients].
  rewrite Hcl. replace (client_count s + 1 - 1) with (client_count s) by lia.
  rewrite (proj2 (Z.leb_le 0 _) Hb1), list_lookup_insert_eq by lia. simpl.
  rewrite !take_insert. by repeat destruct (decide _); try lia.
Qed.

Lemma owen_clients_add_ok s w f :
  owen_screen_ok s -> owen_abs s !! w = None -> (client_count s =? CLIENTS_LEN) = false ->
  exists s', owen_clients_add w f s = Some s' /\ owen_screen_ok s' /\
             owen_abs s' = <[w:=f]> (owen_abs s).
Proof.
  intros (Hlen & Hn & Hnd) Hw Hfull. apply Z.eqb_neq in Hfull.
  destruct (owen_clients_add w f s) as [s'|] eqn:Hadd.
  2:{ unfold owen_clients_add in Hadd. rewrite Hlen in Hadd.
      destruct (Z.leb_spec 0 (client_count s)), (Z.ltb_spec (client_count s) CLIENTS_LEN);
        simpl in Hadd; try discriminate; unfold CLIENTS_LEN in *; lia. }
  destruct (live_add _ _ _ _ Hadd) as (Hc & Hcl & Hl).
  apply not_elem_of_list_to_map_2 in Hw. rewrite client_pairs_fst in Hw.
  exists s'. split; [done|]. split; [split; [|split]|].
  - by rewrite Hcl, length_insert.
  - unfold CLIENTS_LEN in *; lia.
  - rewrite Hl, fmap_app. apply NoDup_app. split; [done|]. split; [|apply NoDup_singleton].
    intros x Hx Hx'. apply list_elem_of_singleton in Hx'. simpl in Hx'. by subst x.
  - unfold owen_abs. rewrite Hl, fmap_app. apply list_to_map_snoc. by rewrite client_pairs_fst.
Qed.

Lemma owen_clients_delete_ok s w :
  owen_screen_ok s ->
  owen_screen_ok (owen_clients_delete w s) /\
  owen_abs (owen_clients_delete w s) = delete w (owen_abs s).
Proof.
  intros Hok. destruct Hok as (Hlen & Hn & Hnd) eqn:Hok'.
  assert (Hb : 0 <= client_count s <= Z.of_nat (length (clients s))) by lia.
  destruct (find_client w s) as [i|] eqn:Hf.
  - pose proof (live_delete _ _ _ Hb Hf) as Hp.
    pose proof Hf as Hf'. rewrite find_client_list_find in Hf' by lia.
    destruct (list_find _ (live s)) as [[j c]|] eqn:Hlf; simplify_eq/=.
    apply list_find_Some in Hlf as (Hj & Hw & _). rewrite Nat2Z.id in Hp.
    assert (Hnd' : NoDup (win <$> live (owen_clients_delete w s))).
    { rewrite Hp, list_fmap_delete. eapply sublist_NoDup; [done|apply sublist_delete]. }
    assert (j < length (live s))%nat by (eapply lookup_lt_Some; eauto).
    rewrite length_live in * by lia.
    split; [split; [|split]|].
    + unfold owen_clients_delete. rewrite Hf. simpl. by rewrite length_insert.
    + unfold owen_clients_delete. rewrite Hf. simpl. unfold CLIENTS_LEN in *; lia.
    + done.
    + unfold owen_abs. rewrite (list_to_map_proper _ (client_pair <$> delete j (live s))).
      * rewrite list_fmap_delete. subst w. apply (list_to_map_delete_at _ _ _ (frame c)).
        -- by rewrite client_pairs_fst.
        -- by rewrite list_lookup_fmap, Hj.
      * by rewrite client_pairs_fst.
      * by rewrite Hp.
  - unfold owen_clients_delete. rewrite Hf. split; [done|].
    symmetry. apply delete_id. apply owen_clients_get_index_absent; [lia|].
    by unfold owen_clients_get_index; rewrite Hf.
Qed.

(** The number of live records, whatever the array holds: an add adds
    one, a delete that finds the client removes one. *)
Lemma owen_clients_add_count w f s s' :
  owen_clients_add w f s = Some s' -> Z.to_nat (client_count s') = S (Z.to_nat (client_count s)).
Proof.
  unfold owen_clients_add. case_match eqn:E; [|done]. intros [= <-]. simpl.
  apply andb_true_iff in E as [E _]. apply Z.leb_le in E. lia.
Qed.

Lemma owen_clients_frame_of_found w s f :
  owen_clients_frame_of w s = Some f -> exists i, find_client w s = Some i.
Proof.
  unfold owen_clients_frame_of, owen_clients_get_index. destruct (find_client w s) as [i|]; [by eauto|].
  unfold client_at. simpl. discriminate.
Qed.

Lemma owen_clients_delete_count w s i :
  find_client w s = Some i -> S (Z.to_nat (client_count (owen_clients_delete w s))) = Z.to_nat (client_count s).
Proof.
  unfold owen_clients_delete. intros Hi. rewrite Hi. simpl. unfold find_client in Hi.
  destruct (Z.to_nat (client_count s)) eqn:E; [done|]. lia.
Qed.

Lemma owen_count_size s :
  owen_screen_ok s -> client_count s = Z.of_nat (size (owen_abs s)).
Proof.
  intros (Hlen & Hn & Hnd). unfold owen_abs.
  rewrite map_size_list_to_map by (by rewrite client_pairs_fst).
  rewrite length_fmap, length_live; lia.
Qed.

(** ** Behaviour outside the invariant's contract *)

(** What the array does where the spec's registry would refuse. *)

(** C13: on a well-formed array, [owen_clients_add] writes past the
    end of [clients[256]] (undefined behaviour, [None]) exactly when 256
    clients are registered: the 257th client is not refused. *)
Theorem owen_clients_add_overflow s w f :
  owen_screen_ok s ->
  owen_clients_add w f s = None <-> client_count s = CLIENTS_LEN.
Proof.
  intros (Hlen & Hn & _). unfold owen_clients_add. rewrite Hlen.
  unfold CLIENTS_LEN in *.
  destruct (Z.leb_spec 0 (client_count s)); [|lia].
  destruct (Z.ltb_spec (client_count s) 256); simpl; split; intros; (discriminate || lia || done).
Qed.

(** Adding a client that is already registered is not refused: the old
    record stays the one found, and the registry holds the client twice. *)
Theorem owen_clients_add_present s w f1 f2 s' :
  owen_abs s !! w = Some f1 -> owen_clients_add w f2 s = Some s' ->
  owen_abs s' !! w = Some f1 /\ ~ owen_screen_ok s'.
Proof.
  intros Hw Hadd. destruct (live_add _ _ _ _ Hadd) as (_ & _ & Hl).
  assert (Hin : w ∈ win <$> live s).
  { rewrite <-client_pairs_fst. apply elem_of_list_to_map_2 in Hw.
    rewrite list_elem_of_fmap. exists (w, f1). split; [done|exact Hw]. }
  split.
  - unfold owen_abs. rewrite Hl, fmap_app, list_to_map_app.
    by apply lookup_union_Some_l.
  - intros (_ & _ & Hnd). rewrite Hl, fmap_app in Hnd.
    apply NoDup_app in Hnd as (_ & Hdis & _). apply (Hdis w Hin). simpl.
    by apply list_elem_of_singleton.
Qed.

Lemma owen_clients_add_room s w f :
  owen_screen_ok s -> client_count s < CLIENTS_LEN -> exists s', owen_clients_add w f s = Some s'.
Proof.
  intros (Hlen & Hn & _) Hc. unfold owen_clients_add. rewrite Hlen.
  destruct (Z.leb_spec 0 (client_count s)), (Z.ltb_spec (client_count s) CLIENTS_LEN);
    simpl; [by eexists|lia..].
Qed.

(** ** The array refines the abstract registry *)

(** C5: adding a client that is not registered to an array with room
    succeeds, keeps the array well-formed, records the client with its
    frame in the abstract map, and increments [client_count]. *)
Theorem owen_clients_add_spec s w f :
  owen_screen_ok s -> owen_abs s !! w = None -> client_count s < CLIENTS_LEN ->
  exists s', owen_clients_add w f s = Some s' /\ owen_screen_ok s' /\
    owen_abs s' = <[w:=f]> (owen_abs s) /\ client_count s' = client_count s + 1.
Proof.
  intros Hok Hw Hc.
  destruct (owen_clients_add_ok s w f Hok Hw) as (s' & Hadd & Hok' & Habs); [apply Z.eqb_neq; lia|].
  exists s'. do 3 (split; [done|]). by destruct (live_add _ _ _ _ Hadd).
Qed.

(** C6: deleting a client (swap with the last live record, then
    [client_count--]) keeps the array well-formed, removes exactly that
    client from the abstract map, and decrements [client_count] exactly
    when the client was registered. *)
Theorem owen_clients_delete_spec s w :
  owen_screen_ok s ->
  let s' := owen_clients_delete w s in
  owen_screen_ok s' /\ owen_abs s' = delete w (owen_abs s) /\
  client_count s' =
    (if bool_decide (is_Some (owen_abs s !! w)) then client_count s - 1 else client_count s).
Proof.
  intros Hok s'. destruct (owen_clients_delete_ok s w Hok) as (Hok' & Habs).
  split; [done|]. split; [done|].
  rewrite (owen_count_size s' Hok'), (owen_count_size s Hok). unfold s'. rewrite Habs.
  case_bool_decide as Hw.
  - rewrite map_size_delete_Some by done. pose proof (map_size_ne_0_lookup_2 _ _ Hw). lia.
  - rewrite map_size_delete_None; [done|]. by apply eq_None_not_Some.
Qed.

(** C7: [owen_clients_get_index] returns [-1] exactly for a window that
    is not registered, and for a registered one a live index whose
    record holds the window and its frame. *)
Theorem owen_clients_get_index_spec s w :
  owen_screen_ok s ->
  let i := owen_clients_get_index w s in
  match owen_abs s !! w with
  | None => i = -1
  | Some f => 0 <= i < client_count s /\ client_at s i = Some (mkClient w f)
  end.
Proof.
  intros (Hlen & Hn & _) i. unfold CLIENTS_LEN in *.
  assert (Hb : 0 <= client_count s <= Z.of_nat (length (clients s))) by lia.
  subst i. unfold owen_clients_get_index, owen_abs.
  rewrite owen_abs_lookup_list, (find_client_list_find s Hb).
  destruct (list_find _ (live s)) as [[j c]|] eqn:Hf; simpl; [|done].
  apply list_find_Some in Hf as (Hj & Hw & _).
  assert (j < length (live s))%nat by (eapply lookup_lt_Some; eauto).
  rewrite (length_live s Hb) in *.
  split; [lia|]. rewrite client_at_live by lia. rewrite Nat2Z.id, Hj.
  by destruct c; simpl in *; subst.
Qed.

(** ** Concrete registries *)

(** Two clients, 10 and 11, framed by 100 and 101. *)
Definition reg_example : OwenScreen :=
  mkOwenScreen 0 1080 1920 2 ([mkClient 10 100; mkClient 11 101] ++ replicate 254 client0).

(** A full array: clients 10..265. *)
Definition reg_full_example : OwenScreen :=
  mkOwenScreen 0 1080 1920 256
    ((fun i => mkClient (N.of_nat i + 10) (N.of_nat i + 1000)) <$> seq 0 256).

Lemma owen_clients_add_overflow_witness :
  owen_clients_add 5 6 reg_full_example = None.
Proof.
  apply (owen_clients_add_overflow reg_full_example 5 6); [decide_by_eval|reflexivity].
Defined.

Lemma owen_clients_add_spec_witness :
  exists s', owen_clients_add 12 102 reg_example = Some s' /\ owen_screen_ok s' /\
    owen_abs s' = <[12%N:=102%N]> (owen_abs reg_example) /\
    client_count s' = client_count reg_example + 1.
Proof. apply owen_clients_add_spec; [decide_by_eval|reflexivity|vm_compute; reflexivity]. Defined.

Lemma owen_clients_delete_spec_witness :
  owen_screen_ok (owen_clients_delete 10 reg_example) /\
  owen_abs (owen_clients_delete 10 reg_example) = delete 10%N (owen_abs reg_example) /\
  client_count (owen_clients_delete 10 reg_example) = 1.
Proof. apply (owen_clients_delete_spec reg_example 10); decide_by_eval. Defined.

Lemma owen_clients_get_index_spec_witness :
  0 <= owen_clients_get_index 11 reg_example < client_count reg_example /\
  client_at reg_example (owen_clients_get_index 11 reg_example) = Some (mkClient 11 101).
Proof. apply (owen_clients_get_index_spec reg_example 11); decide_by_eval. Defined.

(** ** The array implements the registry interface

    The laws of [ClientRegistryLaws], discharged by the lemmas above:
    the array refines the finite map [owen_abs]. *)

#[export] Instance OwenScreen_registry_laws : ClientRegistryLaws OwenScreen.
Proof.
  split; simpl.
  - intros s w (Hlen & Hn & _). apply owen_clients_frame_of_abs. lia.
  - apply owen_clients_add_ok.
  - apply owen_clients_delete_ok.
  - apply owen_count_size.
Qed.
