(* ===== verification/Layout.v ===== *)
(** * The layout engine of the C implementation

    [owen_frame_get_width], [owen_frame_get_height] and
    [owen_frame_get_start_point] ([src/owen.c], lines 73-104) place the
    frame of a new client from the number of clients already framed.
    Divisions are C [int] divisions ([c_div], undefined on a zero
    divisor), so the functions return [option].

    Theorems: the functions never divide by zero; they compute the spec's
    formulas (section 4.2); the new frame always lies inside the
    screen; the spec's values for the first three clients; and, as the
    spec warns, the third and fourth frames overlap. *)

From S2P Require Import Prelude Registry.

Record Point := mkPoint { px : Z; py : Z }.

(** [owen_frame_get_width()] *)
Definition owen_frame_get_width (s : OwenScreen) : option Z :=
  if client_count s =? 0 then Some (width s) else c_div (width s) 2.

(** [owen_frame_get_height()] *)
Definition owen_frame_get_height (s : OwenScreen) : option Z :=
  if client_count s =? 0 then Some (height s) else c_div (height s) (client_count s).

(** [owen_frame_get_start_point(index)] *)
Definition owen_frame_get_start_point (s : OwenScreen) (idx : Z) : option Point :=
  x ← (if idx =? 0 then Some 0 else c_div (width s) 2);
  y ← (if (idx =? 0) || (idx =? 1) then Some 0 else c_div (height s) idx);
  Some (mkPoint x y).

(** The geometry of the frame [owen_frame] creates: position from
    [owen_frame_get_start_point(client_count)], size from the two
    others. *)
Record Rect := mkRect { rx : Z; ry : Z; rw : Z; rh : Z }.

Definition new_frame_rect (s : OwenScreen) : option Rect :=
  w ← owen_frame_get_width s;
  h ← owen_frame_get_height s;
  p ← owen_frame_get_start_point s (client_count s);
  Some (mkRect (px p) (py p) w h).

(** The spec's formulas (section 4.2), over mathematical integers. *)
Definition spec_rect (W H n : Z) : Rect :=
  mkRect (if n =? 0 then 0 else W / 2)
         (if (n =? 0) || (n =? 1) then 0 else H / n)
         (if n =? 0 then W else W / 2)
         (if n =? 0 then H else H / n).

Definition screen_of (W H n : Z) : OwenScreen := mkOwenScreen 0 H W n [].

(** ** Theorems *)

Section Layout.
Context (s : OwenScreen).
Hypothesis Hpos : 0 <= width s /\ 0 <= height s /\ 0 <= client_count s.

(** No division by zero or overflow: the layout is always defined,
    and equal to the spec's formulas. *)
Theorem new_frame_rect_spec :
  new_frame_rect s = Some (spec_rect (width s) (height s) (client_count s)).
Proof.
  unfold new_frame_rect, owen_frame_get_width, owen_frame_get_height,
    owen_frame_get_start_point, spec_rect.
  destruct (Z.eqb_spec (client_count s) 0) as [->|Hn]; simpl; [done|].
  rewrite !c_div_pos by lia. simpl.
  destruct (Z.eqb_spec (client_count s) 1) as [->|Hn1]; simpl; [|done].
  by rewrite Z.div_1_r.
Qed.
End Layout.

(** The spec's rectangle lies inside the screen. *)
Lemma spec_rect_inside W H n :
  0 <= W -> 0 <= H -> 0 <= n ->
  let r := spec_rect W H n in
  0 <= rx r /\ 0 <= ry r /\ rx r + rw r <= W /\ ry r + rh r <= H.
Proof.
  intros HW HH Hn. unfold spec_rect; simpl.
  destruct (Z.eqb_spec n 0) as [->|Hn0]; simpl; [lia|].
  pose proof (Z.div_pos W 2). pose proof (Z.mul_div_le W 2).
  destruct (Z.eqb_spec n 1) as [->|Hn1]; simpl.
  - rewrite Z.div_1_r. lia.
  - pose proof (Z.div_pos H n). pose proof (Z.mul_div_le H n).
    assert (2 * (H / n) <= n * (H / n)) by (apply Z.mul_le_mono_nonneg_r; lia).
    lia.
Qed.

(** The spec's third and fourth rectangles overlap. *)
Lemma spec_rect_overlap W H :
  2 <= W -> 9 <= H ->
  let r2 := spec_rect W H 2 in
  let r3 := spec_rect W H 3 in
  rx r2 = rx r3 /\ ry r3 < ry r2 < ry r3 + rh r3.
Proof.
  intros HW HH. unfold spec_rect; simpl.
  pose proof (Z.div_mod H 2 ltac:(lia)). pose proof (Z.div_mod H 3 ltac:(lia)).
  pose proof (Z.mod_pos_bound H 2). pose proof (Z.mod_pos_bound H 3).
  split; [done|]. lia.
Qed.

(** The three calls [owen_frame] makes, when the layout is defined. *)
Lemma new_frame_rect_some s r :
  new_frame_rect s = Some r ->
  owen_frame_get_width s = Some (rw r) /\ owen_frame_get_height s = Some (rh r) /\
  owen_frame_get_start_point s (client_count s) = Some (mkPoint (rx r) (ry r)).
Proof.
  unfold new_frame_rect.
  destruct (owen_frame_get_width s), (owen_frame_get_height s),
    (owen_frame_get_start_point s (client_count s)) as [[]|]; simpl; try discriminate.
  by intros [= <-].
Qed.

(** ** Properties of the layout functions *)

(** C16: on a screen of non-negative size with a non-negative client
    count, the three layout functions are defined (no division by zero,
    no overflow) and compute: width [W] for the first client and [W/2]
    after; height [H] for the first client and [H/n] after; start point
    x [0] at index 0 and [W/2] after, y [0] at indices 0 and 1 and
    [H/index] after. *)
Theorem owen_frame_layout_formulas s idx :
  0 <= width s -> 0 <= height s -> 0 <= client_count s -> 0 <= idx ->
  owen_frame_get_width s = Some (if client_count s =? 0 then width s else width s / 2) /\
  owen_frame_get_height s =
    Some (if client_count s =? 0 then height s else height s / client_count s) /\
  owen_frame_get_start_point s idx =
    Some (mkPoint (if idx =? 0 then 0 else width s / 2) (if idx <=? 1 then 0 else height s / idx)).
Proof.
  intros HW HH Hn Hi. unfold owen_frame_get_width, owen_frame_get_height, owen_frame_get_start_point.
  split; [destruct (Z.eqb_spec (client_count s) 0); [done|by apply c_div_pos; lia]|].
  split; [destruct (Z.eqb_spec (client_count s) 0); [done|by apply c_div_pos; lia]|].
  destruct (Z.eqb_spec idx 0) as [->|Hi0]; [done|]. simpl.
  destruct (Z.eqb_spec idx 1) as [->|Hi1]; simpl; rewrite !c_div_pos by lia; [done|].
  by rewrite (proj2 (Z.leb_gt idx 1)) by lia.
Qed.

Lemma owen_frame_layout_formulas_witness :
  owen_frame_get_width (screen_of 1920 1080 2) = Some 960 /\
  owen_frame_get_height (screen_of 1920 1080 2) = Some 540 /\
  owen_frame_get_start_point (screen_of 1920 1080 2) 2 = Some (mkPoint 960 540).
Proof. apply (owen_frame_layout_formulas (screen_of 1920 1080 2) 2); vm_compute; discriminate. Defined.

(** C17: the frame [owen_frame] places for the next client is defined
    and lies inside the screen. *)
Theorem new_frame_rect_inside s :
  0 <= width s -> 0 <= height s -> 0 <= client_count s ->
  exists r, new_frame_rect s = Some r /\
    0 <= rx r /\ 0 <= ry r /\ rx r + rw r <= width s /\ ry r + rh r <= height s.
Proof.
  intros HW HH Hn. exists (spec_rect (width s) (height s) (client_count s)).
  split; [apply new_frame_rect_spec; lia|]. by apply spec_rect_inside.
Qed.

Lemma new_frame_rect_inside_witness :
  exists r, new_frame_rect (screen_of 1920 1080 5) = Some r /\
    0 <= rx r /\ 0 <= ry r /\ rx r + rw r <= 1920 /\ ry r + rh r <= 1080.
Proof. apply (new_frame_rect_inside (screen_of 1920 1080 5)); vm_compute; discriminate. Defined.

(** The third and fourth frames overlap (the spec's open
    question, section 9): both start at x = [W/2], and the top of the
    third frame ([H/2]) lies strictly inside the fourth ([H/3] to
    [H/3 + H/3]).  Frames are placed once, never re-tiled. *)
Theorem third_fourth_frames_overlap W H :
  2 <= W -> 9 <= H ->
  exists r2 r3, new_frame_rect (screen_of W H 2) = Some r2 /\
    new_frame_rect (screen_of W H 3) = Some r3 /\
    rx r2 = rx r3 /\ ry r3 < ry r2 < ry r3 + rh r3.
Proof.
  intros HW HH. exists (spec_rect W H 2), (spec_rect W H 3).
  split; [apply (new_frame_rect_spec (screen_of W H 2)); simpl; lia|].
  split; [apply (new_frame_rect_spec (screen_of W H 3)); simpl; lia|].
  by apply spec_rect_overlap.
Qed.

Lemma third_fourth_frames_overlap_witness :
  exists r2 r3, new_frame_rect (screen_of 1920 1080 2) = Some r2 /\
    new_frame_rect (screen_of 1920 1080 3) = Some r3 /\
    rx r2 = rx r3 /\ ry r3 < ry r2 < ry r3 + rh r3.
Proof. apply third_fourth_frames_overlap; lia. Defined.
