(* ===== verification/Framing.v ===== *)
(** * The framing invariant, shared by both implementations

    Both window managers frame a client the same way: a new top-level
    frame window whose event mask lets the manager intercept its
    children's requests, the client added to the save set and
    reparented into the frame.  This file states the resulting
    invariant on the window structure [XStruct] of the server, for a
    registry [R] (client -> frame) and a frame mask [m]: the C code
    instantiates [m] with [SubstructureRedirectMask |
    SubstructureNotifyMask] and the registry with its array, the C++
    code adds [ButtonPressMask] and uses its [unordered_map].

    It also proves what the request sequences of framing and unframing
    do to the structure ([frame_seq_xstruct], [unframe_requests_xstruct])
    and that the invariant is preserved by them ([frames_ok_frame],
    [frames_ok_unframe]).  The invariant is decidable, so concrete
    states are checked by evaluation. *)

From S2P Require Import Prelude Xlib.

(** ** The invariant

    Stated on the window structure [XStruct] of the server and the
    abstract registry: every managed client [c] with frame [f] is the
    only child of [f], [f] is a top-level window with the frame's event
    mask, and [c] is in the save set.  Window ids (and parent ids) are
    below the next id the server allocates. *)

Definition sparent (t : XStruct) (v : Window) : option Window := fst <$> st_wins t !! v.
Definition smask (t : XStruct) (v : Window) : option Z := snd <$> st_wins t !! v.

Definition struct_ok (t : XStruct) : Prop :=
  is_Some (st_wins t !! st_root t) /\
  forall v pm, st_wins t !! v = Some pm -> (v < st_next t)%N /\ (pm.1 < st_next t)%N.

Definition frames_ok (m : Z) (R : gmap Window Window) (t : XStruct) : Prop :=
  forall c f, R !! c = Some f ->
    sparent t f = Some (st_root t) /\ f <> st_root t /\ c <> st_root t /\
    sparent t c = Some f /\ c ∈ st_save t /\ smask t f = Some m /\
    (forall v, sparent t v = Some f -> v = c).

(** The invariant is decidable: [frames_ok] quantifies over all windows
    only through the finite map of the server, as [frames_ok_alt] makes
    explicit.  Concrete states are checked by evaluation. *)
Definition frames_ok_alt (m : Z) (R : gmap Window Window) (t : XStruct) : Prop :=
  map_Forall (fun c f =>
    sparent t f = Some (st_root t) /\ f <> st_root t /\ c <> st_root t /\
    sparent t c = Some f /\ c ∈ st_save t /\ smask t f = Some m /\
    map_Forall (fun v pm => pm.1 = f -> v = c) (st_wins t)) R.

Lemma frames_ok_alt_iff m R t : frames_ok_alt m R t <-> frames_ok m R t.
Proof.
  unfold frames_ok, frames_ok_alt, map_Forall, sparent. split.
  - intros H c f Hc. destruct (H c f Hc) as (? & ? & ? & ? & ? & ? & Hone).
    do 6 (split; [done|]). intros v Hv.
    destruct (st_wins t !! v) as [pm|] eqn:E; [|discriminate]. injection Hv as Hv.
    by apply (Hone v pm).
  - intros H c f Hc. destruct (H c f Hc) as (? & ? & ? & ? & ? & ? & Hone).
    do 6 (split; [done|]). intros v pm Hv Hp. apply Hone. by rewrite Hv, <-Hp.
Qed.

#[export] Instance struct_ok_dec t : Decision (struct_ok t).
Proof.
  unfold struct_ok.
  change (Decision (is_Some (st_wins t !! st_root t) /\
    map_Forall (fun v pm => (v < st_next t)%N /\ (pm.1 < st_next t)%N) (st_wins t))).
  apply _.
Defined.

#[export] Instance frames_ok_dec m R t : Decision (frames_ok m R t).
Proof.
  destruct (decide (frames_ok_alt m R t)) as [H|H]; [left|right]; by rewrite <-frames_ok_alt_iff.
Defined.

(** The structure after framing (a new top-level frame with mask [m],
    the client in the save set and reparented into it) and after
    unframing. *)
Definition st_frame (m : Z) (w : Window) (t : XStruct) : XStruct :=
  st_reparent w (st_next t) (st_save_add w (st_select (st_next t) m (st_create (st_root t) t))).

Definition st_unframe (w f : Window) (t : XStruct) : XStruct :=
  st_destroy f (st_save_remove w (st_reparent w (st_root t) t)).

Section Invariant.
Context (m : Z) (R : gmap Window Window) (t : XStruct).
Hypothesis Hs : struct_ok t.
Hypothesis Hf : frames_ok m R t.

Lemma struct_ok_lt v : is_Some (st_wins t !! v) -> (v < st_next t)%N.
Proof. intros [pm Hv]. by apply (proj2 Hs v pm). Qed.

Lemma sparent_exists v p : sparent t v = Some p -> is_Some (st_wins t !! v).
Proof. unfold sparent. destruct (st_wins t !! v); [done|discriminate]. Qed.

Lemma sparent_lt v p : sparent t v = Some p -> (p < st_next t)%N.
Proof.
  unfold sparent. destruct (st_wins t !! v) as [pm|] eqn:Hv; [|discriminate].
  intros [= <-]. by apply (proj2 Hs v pm).
Qed.

(** Frames and clients are different windows, and a frame belongs to
    one client. *)
Lemma frames_ok_distinct c f :
  R !! c = Some f -> c <> f /\ R !! f = None /\ (forall c', R !! c' = Some f -> c' = c).
Proof.
  intros Hc. destruct (Hf c f Hc) as (Hpf & Hfr & Hcr & Hpc & _ & _ & Hone).
  split; [intros ->; congruence|]. split.
  - destruct (R !! f) as [g|] eqn:Hg; [|done].
    destruct (Hf f g Hg) as (_ & Hgr & _ & Hpg & _). congruence.
  - intros c' Hc'. destruct (Hf c' f Hc') as (_ & _ & _ & Hpc' & _). by apply Hone.
Qed.

Lemma st_frame_lookup w v :
  is_Some (st_wins t !! w) ->
  st_wins (st_frame m w t) !! v =
    if decide (v = w) then (fun pm => (st_next t, pm.2)) <$> st_wins t !! w
    else if decide (v = st_next t) then Some (st_root t, m)
    else st_wins t !! v.
Proof.
  intros Hw. pose proof (struct_ok_lt w Hw).
  unfold st_frame, st_reparent, st_save_add, st_select, st_create, st_with_wins; simpl.
  destruct (decide (v = w)) as [->|Hvw].
  - rewrite lookup_alter_eq, lookup_alter_ne, lookup_insert_ne by lia. done.
  - rewrite lookup_alter_ne by done.
    destruct (decide (v = st_next t)) as [->|Hvn].
    + by rewrite lookup_alter_eq, lookup_insert_eq.
    + by rewrite lookup_alter_ne, lookup_insert_ne.
Qed.

(** Framing an unmanaged window that is not a frame keeps the
    invariant and registers the new frame. *)
Lemma frames_ok_frame w :
  is_Some (st_wins t !! w) -> w <> st_root t -> R !! w = None ->
  (forall c, R !! c <> Some w) ->
  struct_ok (st_frame m w t) /\ frames_ok m (<[w := st_next t]> R) (st_frame m w t).
Proof.
  intros Hw Hwr HRw Hnf. pose proof (struct_ok_lt w Hw) as Hwn.
  assert (Hroot : (st_root t < st_next t)%N) by (apply struct_ok_lt, Hs).
  pose proof (fun v => st_frame_lookup w v Hw) as Hlk.
  assert (Lw : st_wins (st_frame m w t) !! w = (fun pm => (st_next t, pm.2)) <$> st_wins t !! w)
    by (rewrite Hlk; by rewrite decide_True).
  assert (Lf : st_wins (st_frame m w t) !! st_next t = Some (st_root t, m)).
  { rewrite Hlk, decide_False, decide_True by (done || lia). done. }
  assert (Lo : forall v, v <> w -> v <> st_next t -> st_wins (st_frame m w t) !! v = st_wins t !! v).
  { intros v ? ?. by rewrite Hlk, !decide_False. }
  clear Hlk.
  assert (Er : st_root (st_frame m w t) = st_root t) by reflexivity.
  assert (En : st_next (st_frame m w t) = (st_next t + 1)%N) by reflexivity.
  assert (Esv : st_save (st_frame m w t) = {[w]} ∪ st_save t) by reflexivity.
  split.
  - split.
    + rewrite Er, Lo by lia. apply Hs.
    + intros v pm. rewrite En.
      destruct (decide (v = w)) as [->|].
      * rewrite Lw. destruct Hw as [pm' Hpm']. rewrite Hpm'. intros [= <-]. simpl. lia.
      * destruct (decide (v = st_next t)) as [->|].
        -- rewrite Lf. intros [= <-]. simpl. lia.
        -- rewrite Lo by done. intros Hv. destruct (proj2 Hs v pm Hv). lia.
  - intros c g Hc. unfold sparent, smask. rewrite Er, Esv.
    destruct (decide (c = w)) as [->|Hcw].
    + rewrite lookup_insert_eq in Hc. injection Hc as <-.
      rewrite Lw, Lf. destruct Hw as [pm Hpm]. rewrite Hpm.
      split; [done|]. split; [lia|]. split; [done|]. split; [done|].
      split; [set_solver|]. split; [done|].
      intros v. destruct (decide (v = w)); [done|].
      destruct (decide (v = st_next t)) as [Ev|].
      { rewrite Ev, Lf. simpl. intros [= ?]. lia. }
      rewrite Lo by done. intros Hv. apply sparent_lt in Hv. lia.
    + rewrite lookup_insert_ne in Hc by done.
      destruct (Hf c g Hc) as (Hpg & Hgr & Hcr & Hpc & Hsave & Hmask & Hone).
      assert (Hg : is_Some (st_wins t !! g)) by (eapply sparent_exists; eauto).
      assert (Hc' : is_Some (st_wins t !! c)) by (eapply sparent_exists; eauto).
      apply struct_ok_lt in Hg, Hc'.
      assert (g <> w) by (intros ->; by apply (Hnf c)).
      rewrite !Lo by lia.
      split; [done|]. split; [done|]. split; [done|]. split; [done|].
      split; [set_solver|]. split; [done|].
      intros v. destruct (decide (v = w)) as [->|].
      * rewrite Lw. destruct Hw as [pm ->]. simpl. intros [= ?]. lia.
      * destruct (decide (v = st_next t)) as [->|]; [rewrite Lf; simpl; intros [= ?]; congruence|].
        rewrite Lo by done. apply Hone.
Qed.

Lemma st_unframe_lookup w f v :
  w <> f ->
  st_wins (st_unframe w f t) !! v =
    if decide (v = f) then None
    else if decide (v = w) then (fun pm => (st_root t, pm.2)) <$> st_wins t !! w
    else st_wins t !! v.
Proof.
  intros Hwf. unfold st_unframe, st_destroy, st_save_remove, st_reparent, st_with_wins; simpl.
  destruct (decide (v = f)) as [->|Hvf]; [by rewrite lookup_delete_eq|].
  rewrite lookup_delete_ne by done.
  destruct (decide (v = w)) as [->|Hvw]; [by rewrite lookup_alter_eq|by rewrite lookup_alter_ne].
Qed.

(** Unframing a managed client keeps the invariant and forgets the
    client. *)
Lemma frames_ok_unframe w f :
  R !! w = Some f ->
  struct_ok (st_unframe w f t) /\ frames_ok m (delete w R) (st_unframe w f t).
Proof.
  intros Hw. destruct (frames_ok_distinct w f Hw) as (Hwf & _ & Huniq).
  destruct (Hf w f Hw) as (Hpf & Hfr & Hwr & Hpw & _ & _ & Hone).
  pose proof (fun v => st_unframe_lookup w f v Hwf) as Hlk.
  assert (Lf : st_wins (st_unframe w f t) !! f = None) by (rewrite Hlk; by rewrite decide_True).
  assert (Lw : st_wins (st_unframe w f t) !! w = (fun pm => (st_root t, pm.2)) <$> st_wins t !! w)
    by (rewrite Hlk, decide_False, decide_True; done).
  assert (Lo : forall v, v <> w -> v <> f -> st_wins (st_unframe w f t) !! v = st_wins t !! v)
    by (intros v ? ?; by rewrite Hlk, !decide_False).
  clear Hlk.
  assert (Er : st_root (st_unframe w f t) = st_root t) by reflexivity.
  assert (En : st_next (st_unframe w f t) = st_next t) by reflexivity.
  assert (Esv : st_save (st_unframe w f t) = (st_save t ∖ {[w]}) ∖ {[f]}) by reflexivity.
  split.
  - split.
    + rewrite Er, Lo by congruence. apply Hs.
    + intros v pm. rewrite En.
      destruct (decide (v = w)) as [->|Hvw]; [|destruct (decide (v = f)) as [->|Hvf]].
      * rewrite Lw. destruct (st_wins t !! w) as [pm'|] eqn:Hpm'; [|done].
        intros [= <-]. simpl. split; [by apply (proj2 Hs w pm')|].
        apply struct_ok_lt, Hs.
      * by rewrite Lf.
      * rewrite Lo by done. apply Hs.
  - intros c g Hc. unfold sparent, smask. rewrite Er, Esv.
    destruct (decide (c = w)) as [->|Hcw]; [by rewrite lookup_delete_eq in Hc|].
    rewrite lookup_delete_ne in Hc by done.
    destruct (Hf c g Hc) as (Hpg & Hgr & Hcr & Hpc & Hsave & Hmask & Hone').
    assert (g <> f) by (intros ->; by apply Hcw, Huniq).
    assert (g <> w) by (intros ->; congruence).
    assert (c <> f) by (intros ->; congruence).
    rewrite !Lo by done.
    split; [done|]. split; [done|]. split; [done|]. split; [done|].
    split; [set_solver|]. split; [done|].
    intros v. destruct (decide (v = w)) as [->|]; [|destruct (decide (v = f)) as [->|]].
    + rewrite Lw. unfold sparent in Hpw. destruct (st_wins t !! w); [|done].
      simpl. intros [= ?]. congruence.
    + by rewrite Lf.
    + rewrite Lo by done. apply Hone'.
Qed.
(** Another client creating a window whose parent exists and is not a
    frame keeps the invariant: the new window is fresh, and a frame
    keeps its client as only child. *)
Lemma frames_ok_create p :
  is_Some (st_wins t !! p) -> (forall c, R !! c <> Some p) ->
  struct_ok (st_create p t) /\ frames_ok m R (st_create p t).
Proof.
  intros Hp Hnf. pose proof (struct_ok_lt p Hp) as Hpn.
  assert (Hl : forall v, st_wins (st_create p t) !! v =
            if decide (v = st_next t) then Some (p, 0) else st_wins t !! v).
  { intros v. unfold st_create; simpl.
    case_decide; [subst; by rewrite lookup_insert_eq|by rewrite lookup_insert_ne]. }
  split.
  - split; [rewrite Hl; case_decide; [done|apply Hs]|].
    intros v pm. rewrite Hl. simpl. case_decide as Hv.
    + intros [= <-]. simpl. lia.
    + intros Hvp. destruct (proj2 Hs v pm Hvp). lia.
  - intros c f Hc. destruct (Hf c f Hc) as (Hpf & Hfr & Hcr & Hpc & Hsave & Hm & Hone).
    pose proof (struct_ok_lt f (sparent_exists f _ Hpf)) as Hfn.
    pose proof (struct_ok_lt c (sparent_exists c _ Hpc)) as Hcn.
    unfold sparent, smask in *. rewrite !Hl, !decide_False by lia. simpl.
    do 6 (split; [done|]). intros v. rewrite Hl. case_decide as Hv.
    + intros [= Hpf']. by destruct (Hnf c); rewrite Hc, Hpf'.
    + apply Hone.
Qed.

(** Round trip: unframing the client just framed gives the structure
    back, with the frame's id consumed, when the client was a
    top-level window outside the save set and the save set holds only
    existing windows. *)
Lemma st_unframe_frame w :
  sparent t w = Some (st_root t) -> w ∉ st_save t ->
  (forall v, v ∈ st_save t -> is_Some (st_wins t !! v)) ->
  st_unframe w (st_next t) (st_frame m w t) = st_bump t.
Proof.
  intros Hpw Hws Hsv. pose proof (struct_ok_lt w (sparent_exists w _ Hpw)) as Hwn.
  assert (Hn : st_wins t !! st_next t = None).
  { destruct (st_wins t !! st_next t) eqn:E; [|done].
    pose proof (struct_ok_lt (st_next t) ltac:(by rewrite E)). lia. }
  unfold st_unframe, st_frame, st_bump, st_destroy, st_save_remove, st_reparent, st_save_add,
    st_select, st_create, st_with_wins; simpl. f_equal.
  - apply map_eq. intros v. destruct (decide (v = st_next t)) as [->|Hvn].
    + by rewrite lookup_delete_eq, Hn.
    + rewrite lookup_delete_ne by done. destruct (decide (v = w)) as [->|Hvw].
      * rewrite !lookup_alter_eq, lookup_alter_ne, lookup_insert_ne by lia.
        unfold sparent in Hpw. destruct (st_wins t !! w) as [[p mw]|]; simpl in *; by simplify_eq.
      * by rewrite !lookup_alter_ne, lookup_insert_ne by done.
  - apply set_eq. intros v. rewrite !elem_of_difference, elem_of_union, !elem_of_singleton.
    split; [tauto|]. intros Hv. split; [split; [tauto|by intros ->]|].
    intros ->. destruct (Hsv _ Hv) as [? E]. by rewrite Hn in E.
Qed.

End Invariant.

(** ** The requests of framing and unframing on the structure *)

Lemma xs_next_id_xstruct x : xs_next_id x = st_next (xstruct x).
Proof. reflexivity. Qed.
Lemma xs_root_xstruct x : xs_root x = st_root (xstruct x).
Proof. reflexivity. Qed.

(** The requests of framing ([XCreateSimpleWindow] on the root,
    [XSelectInput] of mask [m] on the frame, requests [g] that leave the
    structure alone, [XAddToSaveSet], [XReparentWindow] into the frame,
    [XMapWindow] of the frame) on the structure. *)
Lemma frame_seq_xstruct (g : XServer -> XServer) x w m (x0 y0 wd ht bw bc bg : Z) :
  (forall y, xstruct (g y) = xstruct y) ->
  struct_ok (xstruct x) -> is_Some (xs_windows x !! w) -> 0 < wd -> 0 < ht ->
  xstruct (XMapWindow (xs_next_id x) (XReparentWindow w (xs_next_id x) 0 0 (XAddToSaveSet w
    (g (XSelectInput (xs_next_id x) m
      (XCreateSimpleWindow (xs_root x) x0 y0 wd ht bw bc bg x).2)))))
  = st_frame m w (xstruct x).
Proof.
  intros Hg Hs Hw Hrw Hrh. set (f := xs_next_id x).
  assert (Hw' : is_Some (st_wins (xstruct x) !! w)) by (simpl; rewrite lookup_fmap; by destruct Hw as [? ->]).
  assert (Hwn : (w < xs_next_id x)%N) by exact (struct_ok_lt _ Hs w Hw').
  assert (Hrn : (xs_root x < xs_next_id x)%N) by exact (struct_ok_lt _ Hs _ (proj1 Hs)).
  set (t := xstruct x).
  set (x2 := (XCreateSimpleWindow _ _ _ _ _ _ _ _ x).2).
  assert (E2 : xstruct x2 = st_create (xs_root x) t).
  { unfold x2. rewrite XCreateSimpleWindow_xstruct, win_exists_xstruct, bool_decide_true by apply Hs.
    destruct (Z.ltb_spec 0 wd), (Z.ltb_spec 0 ht); [done|lia..]. }
  assert (Hf2 : win_exists f x2 = true).
  { rewrite win_exists_xstruct, E2. apply bool_decide_true. simpl. by rewrite lookup_insert_eq. }
  set (x3 := g (XSelectInput f m x2)).
  assert (E3 : xstruct x3 = st_select f m (st_create (xs_root x) t)).
  { unfold x3. rewrite Hg, XSelectInput_xstruct, Hf2, E2, (xs_root_xstruct x2), E2.
    by rewrite (bool_decide_false (f = _)), andb_false_r by (simpl; lia). }
  assert (Ew3 : win_exists w x3 = true).
  { rewrite win_exists_xstruct, E3. apply bool_decide_true. simpl.
    rewrite lookup_alter_ne, lookup_insert_ne by lia. done. }
  set (x4 := XAddToSaveSet w x3).
  assert (E4 : xstruct x4 = st_save_add w (st_select f m (st_create (xs_root x) t))).
  { unfold x4. by rewrite XAddToSaveSet_xstruct, Ew3, E3. }
  rewrite XMapWindow_xstruct, XReparentWindow_xstruct, !win_exists_xstruct, E4.
  rewrite !bool_decide_true, bool_decide_false by (simpl; rewrite ?lookup_alter_eq,
    ?lookup_alter_ne, ?lookup_insert_eq, ?lookup_insert_ne by lia; done || lia).
  reflexivity.
Qed.

(** The four requests of unframing (unmap the frame, reparent the
    client to the root, remove it from the save set, destroy the frame)
    on the structure. *)
Lemma unframe_requests_xstruct m R x w f :
  struct_ok (xstruct x) -> frames_ok m R (xstruct x) -> R !! w = Some f ->
  xstruct (XDestroyWindow f (XRemoveFromSaveSet w
    (XReparentWindow w (xs_root x) 0 0 (XUnmapWindow f x))))
  = st_unframe w f (xstruct x).
Proof.
  intros Hs Hf Hw. destruct (frames_ok_distinct _ _ _ Hf w f Hw) as (Hwf & _ & _).
  destruct (Hf w f Hw) as (Hpf & Hfr & Hwr & Hpw & _ & _ & Hone).
  assert (Hwr' : w <> xs_root x) by exact Hwr.
  set (t := xstruct x).
  assert (Ew : win_exists w x = true).
  { rewrite win_exists_xstruct. apply bool_decide_true. by eapply sparent_exists. }
  set (x2 := XReparentWindow w (xs_root x) 0 0 (XUnmapWindow f x)).
  assert (E2 : xstruct x2 = st_reparent w (st_root t) t).
  { unfold x2. rewrite XReparentWindow_xstruct, !win_exists_xstruct, XUnmapWindow_xstruct.
    rewrite <-!win_exists_xstruct, Ew, bool_decide_false by congruence.
    rewrite win_exists_xstruct, bool_decide_true by apply Hs. done. }
  assert (Ew2 : win_exists w x2 = true).
  { rewrite win_exists_xstruct, E2. apply bool_decide_true. st_simpl. rewrite lookup_alter_eq.
    apply fmap_is_Some. by eapply sparent_exists. }
  rewrite XDestroyWindow_xstruct.
  - by rewrite XRemoveFromSaveSet_xstruct, Ew2, E2.
  - rewrite xs_root_xstruct, XRemoveFromSaveSet_xstruct, Ew2, E2. done.
  - rewrite win_exists_xstruct, XRemoveFromSaveSet_xstruct, Ew2, E2. apply bool_decide_true.
    st_simpl. rewrite lookup_alter_ne by done. by eapply sparent_exists.
  - intros v. rewrite parent_of_xstruct, XRemoveFromSaveSet_xstruct, Ew2, E2. st_simpl.
    destruct (decide (v = w)) as [->|Hvw].
    + rewrite lookup_alter_eq. unfold sparent in Hpw. destruct (st_wins t !! w); simpl; [|done].
      intros [= Heq]. apply Hfr. rewrite <-Heq. reflexivity.
    + rewrite lookup_alter_ne by done. intros Hv. by apply Hvw, Hone.
Qed.
