(* ===== verification/Shutdown.v ===== *)
(** * Closing the display connection

    [XCloseDisplay] ([owen_destroy] in [src/owen.c], the destructor of
    [WindowManager] in [src/owen.cpp]) ends the window manager's
    connection.  The X protocol says what the server then does for the
    closing client (close-down mode [DestroyAll]), and this is what the
    save set of the framing protocol is for:

    - every window of the client's save set that is an inferior of a
      window the client created is reparented to its closest ancestor
      that is not such an inferior, keeping its position on the screen;
      every window of the save set is mapped;
    - then every window the client created is destroyed, with its
      inferiors, and the save set is forgotten.

    The windows a connection created are the ids of the [CreateWindow]
    requests of its log ([created_windows]); the other clients' requests
    are not in the window manager's log.  The protocol leaves open the
    order in which the save set is processed; the model computes every
    new parent and position from the structure at close time.

    [close_restores] is the consequence for a window manager whose
    registry satisfies the framing invariant of [Framing] and whose
    frames, and only they, were created on its connection: every client
    is mapped again as a child of the root, where its frame showed it,
    and no frame is left.  [owns] states that hypothesis as an
    invariant of the structure; [owns_step] and [owns_create] keep it
    across a framing, an unframing and another client's new window,
    given what each Xlib call allocates and logs ([allocates] for the
    calls, [allocs] for whole computations, with the hints that split
    them). *)

From S2P Require Import Prelude Xlib Framing.

(** ** The server at connection close *)

Definition created_windows (l : list XRequest) : list Window :=
  omap (fun rq => match rq with RqCreateWindow w _ _ _ _ _ _ => Some w | _ => None end) l.

(** The ancestors of [w], its parent first. *)
Fixpoint ancestors (fuel : nat) (ws : gmap Window XWin) (w : Window) : list Window :=
  match fuel with
  | O => []
  | S f =>
    match ws !! w with
    | Some x =>
      match ws !! xw_parent x with
      | Some _ => xw_parent x :: ancestors f ws (xw_parent x)
      | None => []
      end
    | None => []
    end
  end.

(** The position on the screen of the inside upper-left corner of [w]
    (a window's position is that of its outer corner, border included,
    inside its parent). *)
Fixpoint origin (fuel : nat) (ws : gmap Window XWin) (w : Window) : Z * Z :=
  match fuel with
  | O => (0, 0)
  | S f =>
    match ws !! w with
    | Some x =>
      let o := match ws !! xw_parent x with
               | Some _ => origin f ws (xw_parent x)
               | None => (0, 0)
               end in
      (o.1 + xw_x x + xw_border_width x, o.2 + xw_y x + xw_border_width x)
    | None => (0, 0)
    end
  end.

(** The ancestors, from the top, that are not inferiors of a window in [C]. *)
Fixpoint take_until_created (C : list Window) (l : list Window) : list Window :=
  match l with
  | [] => []
  | a :: l' => if bool_decide (a ∈ C) then [] else a :: take_until_created C l'
  end.

(** The new parent of a save-set window [w]: [None] when [w] is not an
    inferior of a window in [C]. *)
Definition restore_parent (C : list Window) (ws : gmap Window XWin) (w : Window) : option Window :=
  let up := rev (ancestors (size ws) ws w) in
  if existsb (fun a => bool_decide (a ∈ C)) up then last (take_until_created C up) else None.

Definition restore_win (C : list Window) (ws : gmap Window XWin) (w : Window) (x : XWin) : XWin :=
  let x := match restore_parent C ws w with
           | Some np =>
             let o := origin (size ws) ws (xw_parent x) in
             let o' := origin (size ws) ws np in
             with_parent np (o.1 + xw_x x - o'.1) (o.2 + xw_y x - o'.2) x
           | None => x
           end in
  with_mapped true x.

(** The windows after the save set is processed. *)
Definition restored (C : list Window) (s : XServer) : gmap Window XWin :=
  map_imap (fun v x => Some (if bool_decide (v ∈ xs_save_set s) then restore_win C (xs_windows s) v x else x))
    (xs_windows s).

(** The windows of [C] that exist, with their inferiors. *)
Definition destroyed (C : list Window) (ws : gmap Window XWin) : list Window :=
  List.concat (map (subtree (size ws) ws) (filter (fun w => bool_decide (is_Some (ws !! w))) C)).

(** [XCloseDisplay(dpy)]. *)
Definition XCloseDisplay (s : XServer) : XServer :=
  let C := created_windows (xs_log s) in
  let ws := restored C s in
  let gone := destroyed C ws in
  let s := set_windows (filter (fun kv => kv.1 ∉ gone) ws) s in
  let s := set_stack (filter (fun v => v ∉ gone) (xs_stack s)) s in
  set_save_set ∅ s.

(** ** The window tree *)

Lemma elem_of_children ws w u : u ∈ children ws w <-> exists x, ws !! u = Some x /\ xw_parent x = w.
Proof.
  unfold children. rewrite list_elem_of_fmap. split.
  - intros [[k x] [-> Hin]]. apply list_elem_of_filter in Hin as [Hp Hin].
    apply elem_of_map_to_list in Hin. by exists x.
  - intros (x & Hu & Hp). exists (u, x). split; [done|].
    apply list_elem_of_filter. split; [done|]. by apply elem_of_map_to_list.
Qed.

Lemma subtree_self fuel ws w : w ∈ subtree fuel ws w.
Proof. destruct fuel; simpl; left. Qed.

Lemma subtree_child fuel ws w u v :
  u ∈ children ws w -> v ∈ subtree fuel ws u -> v ∈ subtree (S fuel) ws w.
Proof.
  intros Hu Hv. simpl. right. apply list_elem_of_In, in_concat. exists (subtree fuel ws u).
  split; [apply in_map, list_elem_of_In, Hu|by apply list_elem_of_In].
Qed.

(** A window of a subtree is its root or has its parent in it. *)
Lemma subtree_up fuel ws w v :
  v ∈ subtree fuel ws w -> v = w \/ exists x, ws !! v = Some x /\ xw_parent x ∈ subtree fuel ws w.
Proof.
  revert w. induction fuel as [|f IH]; intros w; simpl.
  - rewrite list_elem_of_singleton. by left.
  - rewrite elem_of_cons. intros [->|Hv]; [by left|right].
    apply list_elem_of_In, in_concat in Hv as (l & Hl & Hvl).
    apply in_map_iff in Hl as (u & <- & Hu). apply list_elem_of_In in Hu, Hvl.
    destruct (IH u Hvl) as [->|(x & Hx & Hp)].
    + apply elem_of_children in Hu as (x & Hx & Hp). exists x. split; [done|]. rewrite Hp. left.
    + exists x. split; [done|]. by apply (subtree_child f ws w u).
Qed.

Lemma elem_of_destroyed C ws v :
  v ∈ destroyed C ws <-> exists w, w ∈ C /\ is_Some (ws !! w) /\ v ∈ subtree (size ws) ws w.
Proof.
  unfold destroyed. rewrite list_elem_of_In, in_concat. split.
  - intros (l & Hl & Hv). apply in_map_iff in Hl as (w & <- & Hw).
    apply list_elem_of_In, list_elem_of_filter in Hw as [Hw HC]. apply bool_decide_unpack in Hw.
    exists w. split; [done|]. split; [done|]. by apply list_elem_of_In.
  - intros (w & HC & Hw & Hv). exists (subtree (size ws) ws w). split; [|by apply list_elem_of_In].
    apply in_map, list_elem_of_In, list_elem_of_filter. split; [by apply bool_decide_pack|done].
Qed.

Lemma size_two (ws : gmap Window XWin) a b xa xb :
  a <> b -> ws !! a = Some xa -> ws !! b = Some xb -> (2 <= size ws)%nat.
Proof.
  intros Hab Ha Hb. rewrite <-(insert_delete_id ws a xa) by done.
  rewrite map_size_insert_None by apply lookup_delete_eq.
  assert (Hb' : delete a ws !! b = Some xb) by (rewrite lookup_delete_ne; done).
  destruct (size (delete a ws)) eqn:E; [|lia].
  apply map_size_empty_iff in E. rewrite E in Hb'. discriminate.
Qed.

Lemma ancestors_top fuel ws v vx :
  ws !! v = Some vx -> ws !! xw_parent vx = None -> ancestors fuel ws v = [].
Proof. intros Hv Hp. destruct fuel; simpl; [done|]. by rewrite Hv, Hp. Qed.

Lemma ancestors_step fuel ws v vx :
  ws !! v = Some vx -> is_Some (ws !! xw_parent vx) ->
  ancestors (S fuel) ws v = xw_parent vx :: ancestors fuel ws (xw_parent vx).
Proof. intros Hv [p Hp]. simpl. by rewrite Hv, Hp. Qed.

Lemma origin_top fuel ws v vx :
  ws !! v = Some vx -> ws !! xw_parent vx = None ->
  origin (S fuel) ws v = (xw_x vx + xw_border_width vx, xw_y vx + xw_border_width vx).
Proof. intros Hv Hp. simpl. rewrite Hv, Hp. simpl. f_equal; lia. Qed.

Lemma origin_step fuel ws v vx :
  ws !! v = Some vx -> is_Some (ws !! xw_parent vx) ->
  origin (S fuel) ws v = ((origin fuel ws (xw_parent vx)).1 + xw_x vx + xw_border_width vx,
                          (origin fuel ws (xw_parent vx)).2 + xw_y vx + xw_border_width vx).
Proof. intros Hv [p Hp]. simpl. by rewrite Hv, Hp. Qed.

(** A save-set window with no parent window stays where it is. *)
Lemma restore_win_top C ws v vx :
  ws !! v = Some vx -> ws !! xw_parent vx = None -> restore_win C ws v vx = with_mapped true vx.
Proof. intros Hv Hp. unfold restore_win, restore_parent. by rewrite (ancestors_top _ _ _ _ Hv Hp). Qed.

Lemma lookup_restored C x v :
  restored C x !! v =
    (fun y => if bool_decide (v ∈ xs_save_set x) then restore_win C (xs_windows x) v y else y)
      <$> xs_windows x !! v.
Proof. unfold restored. rewrite map_lookup_imap. by destruct (xs_windows x !! v). Qed.

Lemma sparent_xstruct x w p :
  sparent (xstruct x) w = Some p <-> exists xw, xs_windows x !! w = Some xw /\ xw_parent xw = p.
Proof.
  unfold sparent; simpl. rewrite lookup_fmap.
  destruct (xs_windows x !! w) as [xw|]; simpl; split.
  - intros [= <-]. by exists xw.
  - by intros (? & [= <-] & <-).
  - discriminate.
  - by intros (? & ? & _).
Qed.

(** ** A framed client is restored *)

Section Close.
Context (m : Z) (R : gmap Window Window) (x : XServer).
Hypothesis Hs : struct_ok (xstruct x).
Hypothesis Hf : frames_ok m R (xstruct x).
(** The root is not the window manager's, and has no parent window. *)
Hypothesis Hroot : xs_root x ∉ created_windows (xs_log x).
Hypothesis Htop : forall rw, xs_windows x !! xs_root x = Some rw -> xs_windows x !! xw_parent rw = None.
(** The frames, and no client, were created on the connection. *)
Hypothesis Hown : forall c f, R !! c = Some f ->
  f ∈ created_windows (xs_log x) /\ c ∉ created_windows (xs_log x).

Lemma restore_client c f cw fw :
  R !! c = Some f -> xs_windows x !! c = Some cw -> xs_windows x !! f = Some fw ->
  xw_parent cw = f -> xw_parent fw = xs_root x ->
  restore_win (created_windows (xs_log x)) (xs_windows x) c cw =
    with_mapped true (with_parent (xs_root x) (xw_x fw + xw_border_width fw + xw_x cw)
                        (xw_y fw + xw_border_width fw + xw_y cw) cw).
Proof.
  intros Hc Hcw Hfw Hcp Hfp. destruct Hs as [[rs Hrs] _]. simpl in Hrs. rewrite lookup_fmap in Hrs.
  destruct (xs_windows x !! xs_root x) as [rw|] eqn:Hrw; [|discriminate].
  destruct (Hown c f Hc) as [HfC _]. pose proof (Htop rw eq_refl) as Hrp.
  assert (Hcf : c <> f) by (intros ->; rewrite Hcw in Hfw; injection Hfw as ->;
    destruct (Hf f f Hc) as (_ & Hne & _); congruence).
  pose proof (size_two _ c f cw fw Hcf Hcw Hfw) as Hsz.
  unfold restore_win, restore_parent.
  destruct (size (xs_windows x)) as [|[|n]]; [lia|lia|].
  rewrite (ancestors_step _ _ c cw), Hcp, (ancestors_step _ _ f fw), Hfp, (ancestors_top _ _ _ rw)
    by (rewrite ?Hcp, ?Hfp; done).
  cbn [rev app existsb take_until_created].
  repeat case_bool_decide; try contradiction. cbn [orb last].
  rewrite (origin_step _ _ f fw), Hfp, !(origin_top _ _ _ rw) by (rewrite ?Hfp; done).
  cbn [fst snd]. f_equal. f_equal; lia.
Qed.

(** The root's parent is not a window, so no window of the
    connection is an ancestor of a child of the root. *)
Lemma restored_not_destroyed c cw :
  restored (created_windows (xs_log x)) x !! c = Some cw -> xw_parent cw = xs_root x ->
  c ∉ created_windows (xs_log x) ->
  c ∉ destroyed (created_windows (xs_log x)) (restored (created_windows (xs_log x)) x).
Proof.
  intros Hc Hp HcC Hd. apply elem_of_destroyed in Hd as (w & HwC & [wx Hw] & Hsub).
  destruct Hs as [[rs Hrs] _]. simpl in Hrs. rewrite lookup_fmap in Hrs.
  destruct (xs_windows x !! xs_root x) as [rw|] eqn:Hrw; [|discriminate].
  pose proof (Htop rw eq_refl) as Hrp.
  destruct (subtree_up _ _ _ _ Hsub) as [->|(cx & Hcx & Hcp)]; [done|].
  rewrite Hc in Hcx. injection Hcx as <-. rewrite Hp in Hcp.
  destruct (subtree_up _ _ _ _ Hcp) as [<-|(rx & Hrx & Hrxp)]; [done|].
  rewrite lookup_restored, Hrw in Hrx. simpl in Hrx. injection Hrx as <-.
  assert (Hp' : xw_parent (if bool_decide (xs_root x ∈ xs_save_set x)
                           then restore_win (created_windows (xs_log x)) (xs_windows x) (xs_root x) rw
                           else rw) = xw_parent rw)
    by (case_bool_decide; [by rewrite (restore_win_top _ _ _ rw)|done]).
  rewrite Hp' in Hrxp.
  destruct (subtree_up _ _ _ _ Hrxp) as [Hpw|(px & Hpx & _)].
  - rewrite <-Hpw, lookup_restored, Hrp in Hw. discriminate.
  - rewrite lookup_restored, Hrp in Hpx. discriminate.
Qed.

(** Closing the connection of a window manager whose frames, and only
    they, are its windows: every client is mapped again as a child of
    the root, where its frame showed it (the frame's position, plus its
    border, plus the client's position inside it), and its frame is
    destroyed. *)
Theorem close_restores c f :
  R !! c = Some f ->
  exists cw fw, xs_windows x !! c = Some cw /\ xs_windows x !! f = Some fw /\
    xs_windows (XCloseDisplay x) !! c =
      Some (with_mapped true (with_parent (xs_root x) (xw_x fw + xw_border_width fw + xw_x cw)
                                (xw_y fw + xw_border_width fw + xw_y cw) cw)) /\
    xs_windows (XCloseDisplay x) !! f = None.
Proof.
  intros Hc. destruct (Hf c f Hc) as (Hfr & _ & _ & Hcf & Hsave & _).
  apply sparent_xstruct in Hfr as (fw & Hfw & Hfp). apply sparent_xstruct in Hcf as (cw & Hcw & Hcp).
  destruct (Hown c f Hc) as [HfC HcC].
  exists cw, fw. do 2 (split; [done|]).
  assert (Hrc : restored (created_windows (xs_log x)) x !! c =
    Some (with_mapped true (with_parent (xs_root x) (xw_x fw + xw_border_width fw + xw_x cw)
                              (xw_y fw + xw_border_width fw + xw_y cw) cw))).
  { rewrite lookup_restored, Hcw. simpl. rewrite bool_decide_true by exact Hsave.
    by rewrite (restore_client c f cw fw). }
  unfold XCloseDisplay. cbn [xs_windows set_save_set set_stack set_windows]. split.
  - apply map_lookup_filter_Some_2; [done|]. simpl.
    by apply (restored_not_destroyed c _ Hrc).
  - apply map_lookup_filter_None. right. intros fx _. simpl. intros Hnot. apply Hnot.
    apply elem_of_destroyed. exists f. split; [done|]. split; [|apply subtree_self].
    rewrite lookup_restored, Hfw. by eexists.
Qed.
End Close.

(** ** The window manager's windows along its runs *)

(** The root has no parent window. *)
Definition top_ok (t : XStruct) : Prop :=
  forall pm, st_wins t !! st_root t = Some pm -> st_wins t !! pm.1 = None.

(** [C], the windows created on the connection, are the frames of the
    registry [R]: the root is not one of them, they were allocated
    before [st_next], those that still exist are frames, and every
    frame is one of them. *)
Definition owns (R : gmap Window Window) (C : list Window) (t : XStruct) : Prop :=
  (st_root t ∉ C) /\ top_ok t /\ (forall v, v ∈ C -> (v < st_next t)%N) /\
  (forall v, v ∈ C -> is_Some (st_wins t !! v) -> exists c, R !! c = Some v) /\
  (forall c f, R !! c = Some f -> f ∈ C).

(** What a handler does to the registry and the structure: nothing, a
    new frame for an unregistered window, or an unframe. *)
Definition frames_step (m : Z) (R R' : gmap Window Window) (t t' : XStruct) : Prop :=
  (R' = R /\ t' = t) \/
  (exists w, is_Some (st_wins t !! w) /\ w <> st_root t /\ R !! w = None /\
     R' = <[w := st_next t]> R /\ t' = st_frame m w t) \/
  (exists c f, R !! c = Some f /\ R' = delete c R /\ t' = st_unframe c f t).

Lemma st_frame_is_Some m w t v :
  v <> st_next t -> is_Some (st_wins (st_frame m w t) !! v) <-> is_Some (st_wins t !! v).
Proof.
  intros Hv. unfold st_frame. st_simpl.
  destruct (decide (v = w)) as [->|Hw];
    [rewrite lookup_alter_eq, fmap_is_Some|rewrite lookup_alter_ne by congruence];
    by rewrite lookup_alter_ne, lookup_insert_ne by congruence.
Qed.

Lemma st_frame_lookup_ne m w t v :
  v <> w -> v <> st_next t -> st_wins (st_frame m w t) !! v = st_wins t !! v.
Proof. intros. unfold st_frame. st_simpl. by rewrite !lookup_alter_ne, lookup_insert_ne by congruence. Qed.

Lemma st_unframe_is_Some c f t v :
  v <> f -> is_Some (st_wins (st_unframe c f t) !! v) <-> is_Some (st_wins t !! v).
Proof.
  intros Hv. unfold st_unframe. st_simpl. rewrite lookup_delete_ne by congruence.
  destruct (decide (v = c)) as [->|Hc]; [by rewrite lookup_alter_eq, fmap_is_Some|by rewrite lookup_alter_ne].
Qed.

Lemma st_unframe_lookup_ne c f t v :
  v <> c -> v <> f -> st_wins (st_unframe c f t) !! v = st_wins t !! v.
Proof. intros. unfold st_unframe. st_simpl. by rewrite lookup_delete_ne, lookup_alter_ne by congruence. Qed.

Lemma st_unframe_lookup_f c f t : st_wins (st_unframe c f t) !! f = None.
Proof. unfold st_unframe. st_simpl. apply lookup_delete_eq. Qed.

Section Owns.
Context (m : Z) (R : gmap Window Window) (C : list Window) (t : XStruct).
Hypothesis Hs : struct_ok t.
Hypothesis Hf : frames_ok m R t.
Hypothesis Ho : owns R C t.

(** Every step of the registry keeps the window manager's windows its
    frames, given what was allocated meanwhile. *)
Lemma owns_step R' C' t' :
  frames_step m R R' t t' ->
  (forall v, v ∈ C' <-> v ∈ C \/ (st_next t <= v < st_next t')%N) -> owns R' C' t'.
Proof.
  destruct Ho as (Hr & Htop & Hlt & Hex & Hfr). destruct Hs as [[rp Hrp] Hlt'].
  intros [[-> ->]|[(w & Hw & Hwr & HRw & -> & ->)|(c & f & Hc & -> & ->)]] HC.
  - assert (HC' : forall v, v ∈ C' <-> v ∈ C) by (intros v; rewrite HC; split; [intros [?|?]; [done|lia]|auto]).
    split_and!; [by rewrite HC'|done| |intros v; rewrite HC'; auto|intros c f ?; rewrite HC'; eauto].
    intros v. rewrite HC'. auto.
  - assert (Hnext : st_next (st_frame m w t) = (st_next t + 1)%N) by reflexivity.
    assert (Hroot : st_root (st_frame m w t) = st_root t) by reflexivity.
    rewrite Hnext in HC. unfold owns. rewrite Hnext, Hroot.
    assert (Hn : forall v, is_Some (st_wins t !! v) -> v <> st_next t)
      by (intros v [pm Hv] ->; specialize (Hlt' _ _ Hv); lia).
    split_and!.
    + rewrite HC. intros [?|?]; [done|]. specialize (Hlt' _ _ Hrp). lia.
    + intros pm Hpm. rewrite Hroot in Hpm.
      rewrite st_frame_lookup_ne in Hpm by (done || (apply Hn; by eexists)).
      rewrite Hrp in Hpm. injection Hpm as <-. pose proof (Htop rp Hrp) as Hnone.
      rewrite st_frame_lookup_ne; [done| |specialize (Hlt' _ _ Hrp); lia].
      intros Heq. rewrite <-Heq in Hw. destruct Hw as [? Hw]. congruence.
    + intros v. rewrite HC. intros [Hv|Hv]; [pose proof (Hlt v Hv); lia|lia].
    + intros v. rewrite HC. intros Hv Hsome.
      destruct (decide (v = st_next t)) as [->|Hvn]; [exists w; apply lookup_insert_eq|].
      apply st_frame_is_Some in Hsome; [|done]. destruct Hv as [Hv|Hv]; [|lia].
      destruct (Hex v Hv Hsome) as [c Hc]. exists c. rewrite lookup_insert_ne; [done|congruence].
    + intros c f. destruct (decide (c = w)) as [->|Hcw].
      * rewrite lookup_insert_eq. intros [= <-]. apply HC. right. lia.
      * rewrite lookup_insert_ne by done. intros Hc. apply HC. left. eauto.
  - st_simpl. unfold st_unframe in HC. st_simpl.
    assert (HC' : forall v, v ∈ C' <-> v ∈ C) by (intros v; rewrite HC; split; [intros [?|?]; [done|lia]|auto]).
    destruct (Hf c f Hc) as (Hfr' & Hfnr & Hcnr & Hcf & _).
    split_and!.
    + unfold st_unframe. st_simpl. by rewrite HC'.
    + intros pm Hpm. unfold st_unframe in Hpm |- *. st_simpl.
      rewrite lookup_delete_ne, lookup_alter_ne in Hpm by congruence.
      rewrite Hrp in Hpm. injection Hpm as <-. pose proof (Htop rp Hrp) as Hnone.
      rewrite lookup_delete_None. right. by rewrite lookup_alter_None.
    + intros v. rewrite HC'. unfold st_unframe. st_simpl. auto.
    + intros v. rewrite HC'. intros Hv Hsome.
      destruct (decide (v = f)) as [->|Hvf]; [by rewrite st_unframe_lookup_f in Hsome; destruct Hsome|].
      apply st_unframe_is_Some in Hsome; [|done]. destruct (Hex v Hv Hsome) as [c' Hc'].
      exists c'. rewrite lookup_delete_ne; [done|]. intros ->. congruence.
    + intros c' f'. rewrite lookup_delete_Some. intros [_ Hc']. apply HC'. eauto.
Qed.

(** The hypotheses of [close_restores]. *)
Lemma owns_client c f : R !! c = Some f -> f ∈ C /\ c ∉ C.
Proof.
  destruct Ho as (_ & _ & _ & Hex & Hfr). intros Hc. split; [eauto|]. intros HcC.
  destruct (Hf c f Hc) as (_ & Hfnr & _ & Hcf & _).
  destruct (Hex c HcC (sparent_exists _ _ _ Hcf)) as [c' Hc'].
  destruct (Hf c' c Hc') as (Hcr & _). congruence.
Qed.
End Owns.

(** Another client's window is not the window manager's. *)
Lemma owns_create R C t p : struct_ok t -> owns R C t -> owns R C (st_create p t).
Proof.
  intros [[rp Hrp] Hlt'] (Hr & Htop & Hlt & Hex & Hfr). unfold owns, st_create. cbn [st_root st_wins st_next].
  pose proof (Hlt' _ _ Hrp) as [Hrn Hpn]. split_and!; [done| | |intros v Hv Hsome; apply Hex; [done|] |done].
  - intros pm Hpm. cbn [st_root st_wins] in Hpm |- *. rewrite lookup_insert_ne in Hpm by lia.
    rewrite Hrp in Hpm. injection Hpm as <-. rewrite lookup_insert_ne by lia. by apply Htop.
  - intros v Hv. specialize (Hlt v Hv). lia.
  - specialize (Hlt v Hv). by rewrite lookup_insert_ne in Hsome by lia.
Qed.

Lemma top_ok_xstruct x rw :
  top_ok (xstruct x) -> xs_windows x !! xs_root x = Some rw -> xs_windows x !! xw_parent rw = None.
Proof.
  intros Htop Hrw. specialize (Htop (wstruct rw)). simpl in Htop. rewrite !lookup_fmap, Hrw in Htop.
  specialize (Htop eq_refl). by apply fmap_None in Htop.
Qed.

(** [close_restores] for a server whose windows of the connection are
    the frames of [R]. *)
Corollary close_restores_owns m R x c f :
  struct_ok (xstruct x) -> frames_ok m R (xstruct x) -> owns R (created_windows (xs_log x)) (xstruct x) ->
  R !! c = Some f ->
  exists cw fw, xs_windows x !! c = Some cw /\ xs_windows x !! f = Some fw /\
    xs_windows (XCloseDisplay x) !! c =
      Some (with_mapped true (with_parent (xs_root x) (xw_x fw + xw_border_width fw + xw_x cw)
                                (xw_y fw + xw_border_width fw + xw_y cw) cw)) /\
    xs_windows (XCloseDisplay x) !! f = None.
Proof.
  intros Hs Hf Ho Hc. pose proof Ho as (Hr & Htop & _).
  apply (close_restores m R x); [done|done|done| |intros ??; by apply (owns_client m R _ (xstruct x))|done].
  intros rw. by apply top_ok_xstruct.
Qed.

(** ** Windows allocated on the connection *)

(** [f] logs exactly the windows it allocates. *)
Definition allocates (f : XServer -> XServer) : Prop := forall x,
  (xs_next_id x <= xs_next_id (f x))%N /\
  forall v, v ∈ created_windows (xs_log (f x)) <->
            v ∈ created_windows (xs_log x) \/ (xs_next_id x <= v < xs_next_id (f x))%N.

Lemma created_windows_app l1 l2 : created_windows (l1 ++ l2) = created_windows l1 ++ created_windows l2.
Proof. apply omap_app. Qed.

Lemma notify_next p ev s : xs_next_id (notify p ev s) = xs_next_id s.
Proof. by destruct (notify_set_queue p ev s) as [q ->]. Qed.

(** A call that logs requests other than [CreateWindow] and allocates
    nothing. *)
Lemma allocates_none f :
  (forall x, exists rqs, xs_log (f x) = xs_log x ++ rqs /\ created_windows rqs = [] /\
                         xs_next_id (f x) = xs_next_id x) -> allocates f.
Proof.
  intros Hf x. destruct (Hf x) as (rqs & Hl & Hc & Hn). rewrite Hn, Hl, created_windows_app, Hc, app_nil_r.
  split; [lia|]. intros v. split; [auto|intros [?|?]; [done|lia]].
Qed.

Ltac xnext_solve :=
  repeat (case_match || case_decide); simplify_eq/=; repeat (rewrite notify_next; simpl); try reflexivity.

Lemma XCreateSimpleWindow_allocates p x y w h bw b bg :
  allocates (fun s => (XCreateSimpleWindow p x y w h bw b bg s).2).
Proof.
  intros s. rewrite XCreateSimpleWindow_log, created_windows_app.
  assert (Hn : xs_next_id (XCreateSimpleWindow p x y w h bw b bg s).2 = (xs_next_id s + 1)%N)
    by (unfold XCreateSimpleWindow; xnext_solve).
  rewrite Hn. split; [lia|]. intros v. simpl. rewrite elem_of_app, list_elem_of_singleton.
  split; (intros [?|?]; [by left|right]); lia.
Qed.

(** A call whose log lemma is [L]; one that logs nothing. *)
Ltac allocates_logged L :=
  apply allocates_none; intros s; eexists; rewrite L; split; [done|]; split; [done|];
  unfold XSelectInput, XAddToSaveSet, XRemoveFromSaveSet, XReparentWindow, XMapWindow,
    XUnmapWindow, XDestroyWindow, XConfigureWindow, XGrabButton; xnext_solve.
Ltac allocates_silent :=
  apply allocates_none; intros s; exists []; rewrite app_nil_r; split; [xnext_solve|split; [done|xnext_solve]].

Lemma XSelectInput_allocates w m : allocates (XSelectInput w m).
Proof. allocates_logged XSelectInput_log. Qed.
Lemma XAddToSaveSet_allocates w : allocates (XAddToSaveSet w).
Proof. allocates_logged XAddToSaveSet_log. Qed.
Lemma XRemoveFromSaveSet_allocates w : allocates (XRemoveFromSaveSet w).
Proof. allocates_logged XRemoveFromSaveSet_log. Qed.
Lemma XReparentWindow_allocates w p x y : allocates (XReparentWindow w p x y).
Proof. allocates_logged XReparentWindow_log. Qed.
Lemma XMapWindow_allocates w : allocates (XMapWindow w).
Proof. allocates_logged XMapWindow_log. Qed.
Lemma XUnmapWindow_allocates w : allocates (XUnmapWindow w).
Proof. allocates_logged XUnmapWindow_log. Qed.
Lemma XDestroyWindow_allocates w : allocates (XDestroyWindow w).
Proof. allocates_logged XDestroyWindow_log. Qed.
Lemma XConfigureWindow_allocates w m ch : allocates (XConfigureWindow w m ch).
Proof. allocates_logged XConfigureWindow_log. Qed.
Lemma XMoveWindow_allocates w x y : allocates (XMoveWindow w x y).
Proof. apply XConfigureWindow_allocates. Qed.
Lemma XRaiseWindow_allocates w : allocates (XRaiseWindow w).
Proof. apply XConfigureWindow_allocates. Qed.
Lemma XGrabButton_allocates w : allocates (XGrabButton w).
Proof. allocates_logged XGrabButton_log. Qed.
Lemma XGetWindowAttributes_allocates w : allocates (fun s => (XGetWindowAttributes w s).2).
Proof. unfold XGetWindowAttributes. allocates_silent. Qed.
Lemma XGetGeometry_allocates w : allocates (fun s => (XGetGeometry w s).2).
Proof. unfold XGetGeometry. allocates_silent. Qed.
Lemma XCheckTypedWindowEvent_allocates w t : allocates (fun s => (XCheckTypedWindowEvent w t s).2).
Proof. unfold XCheckTypedWindowEvent. allocates_silent. Qed.

Create HintDb xalloc discriminated.
#[export] Hint Resolve XCreateSimpleWindow_allocates XSelectInput_allocates XAddToSaveSet_allocates
  XRemoveFromSaveSet_allocates XReparentWindow_allocates XMapWindow_allocates XUnmapWindow_allocates
  XDestroyWindow_allocates XConfigureWindow_allocates XMoveWindow_allocates XRaiseWindow_allocates
  XGrabButton_allocates XGetWindowAttributes_allocates XGetGeometry_allocates
  XCheckTypedWindowEvent_allocates : xalloc.

(** Between two states of a program, the windows logged as created are
    the earlier ones and those allocated meanwhile. *)
Definition allocs {S} `{HasX S} (s s' : S) : Prop :=
  (xs_next_id (x_of s) <= xs_next_id (x_of s'))%N /\
  forall v, v ∈ created_windows (xs_log (x_of s')) <->
            v ∈ created_windows (xs_log (x_of s)) \/ (xs_next_id (x_of s) <= v < xs_next_id (x_of s'))%N.

#[export] Instance allocs_preorder {S} `{HasX S} : PreOrder (@allocs S _).
Proof.
  split.
  - intros s. split; [lia|]. intros v. split; [auto|intros [?|?]; [done|lia]].
  - intros s1 s2 s3 [H12 E12] [H23 E23]. split; [lia|]. intros v. rewrite E23, E12.
    split; [intros [[?|?]|?]; [by left|right; lia|right; lia]|].
    intros [?|?]; [by left; left|].
    destruct (decide (v < xs_next_id (x_of s2))%N); [left; right; lia|right; lia].
Qed.

Lemma allocs_same {S} `{HasX S} (s s' : S) : x_of s' = x_of s -> allocs s s'.
Proof.
  intros E. unfold allocs. rewrite E. split; [lia|]. intros v. split; [auto|intros [?|?]; [done|lia]].
Qed.

Section Allocs.
Context {S : Type} `{HasX S}.
Hypothesis x_of_with_x : forall x s, x_of (with_x x s) = x.

Lemma allocs_xdo f : allocates f -> steps allocs (xdo f).
Proof. intros Hf s a s' [= _ <-]. unfold allocs. rewrite x_of_with_x. apply Hf. Qed.

Lemma allocs_xcall {A} (f : XServer -> A * XServer) :
  allocates (fun x => (f x).2) -> steps allocs (xcall f).
Proof.
  intros Hf s a s'. unfold xcall. specialize (Hf (x_of s)). simpl in Hf.
  destruct (f (x_of s)) as [b x']. intros [= _ <-]. unfold allocs. by rewrite x_of_with_x.
Qed.
End Allocs.

Ltac allocs_x :=
  first [ apply allocs_xdo; [intros; reflexivity|eauto with xalloc]
        | apply allocs_xcall; [intros; reflexivity|eauto with xalloc] ].

#[export] Hint Extern 2 (steps allocs (xdo _)) => allocs_x : keeps.
#[export] Hint Extern 2 (steps allocs (xcall _)) => allocs_x : keeps.
#[export] Hint Extern 2 (steps allocs (modify _)) =>
  apply steps_modify; first [exact _|intros ?; apply allocs_same; reflexivity] : keeps.
