(* ===== verification/Runs.v ===== *)
(** * Runs of a window manager among other X clients

    Both implementations loop over [XNextEvent] and dispatch.  Between
    two iterations the rest of the display acts on the server.  This
    file defines, for any program whose state holds the display
    ([HasX]), the step relation [run_step] that interleaves one
    iteration of the program's loop with those actions:

    - [run_loop]: one iteration, when the event at the head of the
      queue satisfies the program's guard [event_ok] (what the server
      may deliver and the handlers need);
    - [run_create]: another client creates a window of positive size
      under an existing window that is not a frame of the registry;
    - [run_unmap]: another client unmaps a window (never redirected:
      [UnmapNotify] goes to the parent that selected it);
    - [run_event]: the server queues an event (a redirected
      [MapRequest] or [ConfigureRequest], pointer input, a
      notification).

    The other clients' requests change the server as the same Xlib
    request of the window manager does, but are not written to the
    window manager's request log.

    [run_rtc_steady] is the invariant argument shared by both programs,
    by induction on the run: a state predicate that the loop keeps
    (with the steady-state error handler installed) and that the other
    clients' actions keep holds in every reachable state.  The
    combinators [keeps_xdo] and [keeps_xcall] show that a computation
    keeps the installed error handler from the Xlib calls it makes;
    [grows_xdo] and [grows_xcall] that it only appends to the event
    queue ([queue_grows]).  [run_in_order]: a loop whose iteration
    dispatches the head of the queue, with handlers that keep the
    error handler and only append, dispatches in [n] iterations the
    [n] events at the head of the queue, in order ([dispatch_all]). *)

From S2P Require Import Prelude Xlib Framing.

(** ** Other clients *)

(** Another client's [XCreateWindow(dpy, p, 0, 0, w, h, 0, ...)]. *)
Definition client_create (p : Window) (w h : Z) (x : XServer) : XServer :=
  set_log (xs_log x) (XCreateSimpleWindow p 0 0 w h 0 0 0 x).2.

(** Another client's [XUnmapWindow(dpy, w)]. *)
Definition client_unmap (w : Window) (x : XServer) : XServer :=
  set_log (xs_log x) (XUnmapWindow w x).

(** The server queues an event for the window manager. *)
Definition server_event (e : XEvent) (x : XServer) : XServer :=
  set_queue (xs_queue x ++ [e]) x.

Section Runs.
Context {S : Type} `{HasX S}.
Context (loop : M S bool) (event_ok : S -> XEvent -> Prop) (clients : S -> gmap Window Window).

Inductive run_step : S -> S -> Prop :=
  | run_loop st b st' :
      (forall e, head (xs_queue (x_of st)) = Some e -> event_ok st e) ->
      loop st = Ok (b, st') -> run_step st st'
  | run_create st p w h :
      is_Some (xs_windows (x_of st) !! p) -> (forall c, clients st !! c <> Some p) ->
      0 < w -> 0 < h -> run_step st (with_x (client_create p w h (x_of st)) st)
  | run_unmap st w : run_step st (with_x (client_unmap w (x_of st)) st)
  | run_event st e : run_step st (with_x (server_event e (x_of st)) st).
End Runs.

(** The installed error handler is [h]. *)
Definition handler_is {S} `{HasX S} (h : XErrorHandler) (st : S) : Prop := xs_handler (x_of st) = h.

(** ** The other clients' actions on the structure *)

Lemma client_create_xstruct p w h x :
  is_Some (xs_windows x !! p) -> 0 < w -> 0 < h ->
  xstruct (client_create p w h x) = st_create p (xstruct x).
Proof.
  intros Hp Hw Hh. unfold client_create. change (xstruct (set_log ?l ?y)) with (xstruct y).
  rewrite XCreateSimpleWindow_xstruct. unfold win_exists.
  rewrite bool_decide_true by done. by rewrite (proj2 (Z.ltb_lt 0 w)), (proj2 (Z.ltb_lt 0 h)).
Qed.

Lemma client_unmap_xstruct w x : xstruct (client_unmap w x) = xstruct (XUnmapWindow w x).
Proof. reflexivity. Qed.

Lemma client_create_handler p w h x : xs_handler (client_create p w h x) = xs_handler x.
Proof. unfold client_create. cbn [xs_handler set_log]. by rewrite XCreateSimpleWindow_handler. Qed.

Lemma client_unmap_handler w x : xs_handler (client_unmap w x) = xs_handler x.
Proof. unfold client_unmap. cbn [xs_handler set_log]. by rewrite XUnmapWindow_handler. Qed.

(** [st_create] under a parent that is not a frame keeps the
    structure and the framing invariant ([frames_ok_create]), read on
    the server. *)
Lemma frames_ok_client_create m R x p w h :
  struct_ok (xstruct x) -> frames_ok m R (xstruct x) ->
  is_Some (xs_windows x !! p) -> (forall c, R !! c <> Some p) -> 0 < w -> 0 < h ->
  xs_root (client_create p w h x) = xs_root x /\
  struct_ok (xstruct (client_create p w h x)) /\ frames_ok m R (xstruct (client_create p w h x)).
Proof.
  intros Hs Hf Hp Hnf Hw Hh. rewrite xs_root_xstruct, client_create_xstruct by done.
  split; [done|]. apply frames_ok_create; [done|done| |done].
  simpl. rewrite lookup_fmap. destruct Hp as [y ->]. by eexists.
Qed.

(** ** Keeping the error handler *)

Section Keeps.
Context {S : Type} `{HasX S}.
Hypothesis x_of_with_x : forall x s, x_of (with_x x s) = x.
Context (h : XErrorHandler).

Lemma keeps_xdo f : (forall x, xs_handler (f x) = xs_handler x) -> keeps (handler_is h) (xdo f).
Proof. intros Hf s a s' [= _ <-] Hs. unfold handler_is in *. by rewrite x_of_with_x, Hf. Qed.

Lemma keeps_xcall {A} (f : XServer -> A * XServer) :
  (forall x, xs_handler (f x).2 = xs_handler x) -> keeps (handler_is h) (xcall f).
Proof.
  intros Hf s a s'. unfold xcall. specialize (Hf (x_of s)).
  destruct (f (x_of s)) as [b x']. intros [= _ <-] Hs. unfold handler_is in *.
  rewrite x_of_with_x. simpl in Hf. congruence.
Qed.
End Keeps.

(** Close a goal [keeps (handler_is h) m] for an Xlib call or a
    change of the program's own state. *)
Ltac keeps_x :=
  first [ apply keeps_xdo; [intros; reflexivity|intros; autorewrite with xhandler; reflexivity]
        | apply keeps_xcall; [intros; reflexivity|intros; autorewrite with xhandler; try reflexivity;
                              simpl; repeat case_match; reflexivity] ].

#[export] Hint Extern 2 (steps (preserves (handler_is _)) (xdo _)) => keeps_x : keeps.
#[export] Hint Extern 2 (steps (preserves (handler_is _)) (xcall _)) => keeps_x : keeps.
#[export] Hint Extern 2 (steps (preserves (handler_is _)) (modify _)) =>
  apply steps_modify; first [exact _|let Hp := fresh in intros ? Hp; exact Hp] : keeps.

(** ** The queue only grows at its end *)

(** Every event queued in [s] is still queued, in order, at the head of
    the queue of [s']. *)
Definition queue_grows {S} `{HasX S} (s s' : S) : Prop := xs_queue (x_of s) `prefix_of` xs_queue (x_of s').

#[export] Instance queue_grows_preorder {S} `{HasX S} : PreOrder (@queue_grows S _).
Proof. split; [intros s; unfold queue_grows; reflexivity|intros s1 s2 s3 H12 H23; unfold queue_grows in *; by etrans]. Qed.

Section Grows.
Context {S : Type} `{HasX S}.
Hypothesis x_of_with_x : forall x s, x_of (with_x x s) = x.

Lemma grows_xdo f : (forall x, xs_queue x `prefix_of` xs_queue (f x)) -> steps queue_grows (xdo f).
Proof. intros Hf s a s' [= _ <-]. unfold queue_grows. rewrite x_of_with_x. apply Hf. Qed.

Lemma grows_xcall {A} (f : XServer -> A * XServer) :
  (forall x, xs_queue x `prefix_of` xs_queue (f x).2) -> steps queue_grows (xcall f).
Proof.
  intros Hf s a s'. unfold xcall. specialize (Hf (x_of s)).
  destruct (f (x_of s)) as [b x']. intros [= _ <-]. unfold queue_grows. by rewrite x_of_with_x.
Qed.
End Grows.

Ltac grows_x :=
  first [ apply grows_xdo; [intros; reflexivity|intros; first [reflexivity|eauto with xqueue]]
        | apply grows_xcall; [intros; reflexivity|intros; first [reflexivity|eauto with xqueue]] ].

#[export] Hint Extern 2 (steps queue_grows (xdo _)) => grows_x : keeps.
#[export] Hint Extern 2 (steps queue_grows (xcall _)) => grows_x : keeps.
#[export] Hint Extern 2 (steps queue_grows (modify _)) =>
  apply steps_modify; first [exact _|intros ?; unfold queue_grows; reflexivity] : keeps.

(** ** The loop handles the queued events in order *)

(** [XNextEvent] in steady state: the head of the queue is removed and
    the pending errors go to the installed handler, which ignores them. *)
Definition pop_event (x : XServer) : XServer := set_queue (tail (xs_queue x)) (set_errors [] x).

(** The reference for an event loop: the events of [q], each removed
    from the queue and dispatched, one after the other. *)
Fixpoint dispatch_all {S} `{HasX S} (dispatch : XEvent -> M S unit) (q : list XEvent) : M S unit :=
  match q with
  | [] => ret tt
  | e :: q' => xdo pop_event ;;; dispatch e ;;; dispatch_all dispatch q'
  end.

Section InOrder.
Context {S : Type} `{HasX S}.
Hypothesis x_of_with_x : forall x s, x_of (with_x x s) = x.
Context (step : M S bool) (run : nat -> M S unit) (dispatch : XEvent -> M S unit).
Context (P : XEvent -> Prop).
(** [run n] is [n] iterations of [step], stopping when it returns [false]. *)
Hypothesis run_O : run O = ret tt.
Hypothesis run_S : forall n, run (Datatypes.S n) = (more <- step ;; if more then run n else ret tt).
(** One iteration in steady state dispatches the head of the queue. *)
Hypothesis step_next : forall st e,
  xs_handler (x_of st) = AppHandler 1 -> head (xs_queue (x_of st)) = Some e ->
  step st = (dispatch e ;;; ret true) (with_x (pop_event (x_of st)) st).
Hypothesis dispatch_handler : forall e, keeps (handler_is (AppHandler 1)) (dispatch e).
(** The handlers of the events satisfying [P] only append to the queue. *)
Hypothesis dispatch_grows : forall e, P e -> steps queue_grows (dispatch e).

Lemma run_in_order q st :
  xs_handler (x_of st) = AppHandler 1 -> Forall P q -> q `prefix_of` xs_queue (x_of st) ->
  run (length q) st = dispatch_all dispatch q st.
Proof.
  revert st. induction q as [|e q IH]; intros st Hh HP [r Hq]; [cbn [length dispatch_all]; by rewrite run_O|].
  inversion HP as [|? ? He HP']; subst.
  set (st1 := with_x (pop_event (x_of st)) st).
  assert (Hhd : head (xs_queue (x_of st)) = Some e) by (rewrite Hq; reflexivity).
  cbn [length dispatch_all]. rewrite run_S. unfold bind at 1.
  rewrite (step_next st e Hh Hhd), bind_xdo. unfold bind. change (with_x (pop_event (x_of st)) st) with st1.
  destruct (dispatch e st1) as [[[] s2]|h] eqn:Hd; [|done].
  simpl. apply IH; [|done|].
  - apply (dispatch_handler e st1 tt s2 Hd). unfold handler_is, st1. rewrite x_of_with_x. exact Hh.
  - transitivity (xs_queue (x_of st1)); [|exact (dispatch_grows e He st1 tt s2 Hd)].
    unfold st1. rewrite x_of_with_x. cbn [pop_event xs_queue set_queue]. rewrite Hq. by exists r.
Qed.
End InOrder.

(** ** Invariants along runs *)

Section Steady.
Context {S : Type} `{HasX S}.
Hypothesis x_of_with_x : forall x s, x_of (with_x x s) = x.
Context (loop : M S bool) (event_ok : S -> XEvent -> Prop) (clients : S -> gmap Window Window).
Context (ok : S -> Prop).

(** What one iteration of the loop guarantees. *)
Hypothesis loop_ok : forall st,
  ok st -> xs_handler (x_of st) = AppHandler 1 ->
  (forall e, head (xs_queue (x_of st)) = Some e -> event_ok st e) ->
  exists b st', loop st = Ok (b, st') /\ ok st'.
Hypothesis loop_handler : keeps (handler_is (AppHandler 1)) loop.
(** The invariant reads the server only through its structure and the
    window manager's request log. *)
Hypothesis ok_with_x : forall st x,
  ok st -> xstruct x = xstruct (x_of st) -> xs_log x = xs_log (x_of st) -> ok (with_x x st).
Hypothesis ok_create : forall st p w h,
  ok st -> is_Some (xs_windows (x_of st) !! p) -> (forall c, clients st !! c <> Some p) ->
  0 < w -> 0 < h -> ok (with_x (client_create p w h (x_of st)) st).

Definition steady (st : S) : Prop := ok st /\ xs_handler (x_of st) = AppHandler 1.

Lemma run_step_steady st st' : steady st -> run_step loop event_ok clients st st' -> steady st'.
Proof.
  intros [Hok Hh] Hstep. unfold steady.
  destruct Hstep as [st b st' Hev Hrun|st p w h Hp Hnf Hw Hh'|st w|st e].
  - split; [|exact (loop_handler st b st' Hrun Hh)].
    destruct (loop_ok st Hok Hh Hev) as (b' & st'' & Hrun' & Hok').
    rewrite Hrun in Hrun'. by simplify_eq.
  - split; [by apply ok_create|]. by rewrite x_of_with_x, client_create_handler.
  - split; [apply ok_with_x; [done| |reflexivity]; rewrite client_unmap_xstruct; apply XUnmapWindow_xstruct|].
    by rewrite x_of_with_x, client_unmap_handler.
  - split; [by apply ok_with_x|by rewrite x_of_with_x].
Qed.

(** By induction on the run. *)
Lemma run_rtc_steady st0 st : steady st0 -> rtc (run_step loop event_ok clients) st0 st -> steady st.
Proof. intros H0 Hr. induction Hr as [|x y z Hxy _ IH]; [done|]. by apply IH, (run_step_steady x). Qed.
End Steady.
