(* ===== verification/Potential.v ===== *)
(** * A potential for the event loops

    The event loops of both programs run until [XNextEvent] would block.
    Handling an event may queue new ones: every request the window
    manager makes generates notifications ([CreateNotify],
    [ReparentNotify], [MapNotify], [UnmapNotify], ...) on the windows
    where it selected [SubstructureNotify], and the handlers of
    [UnmapNotify] unframe clients, which generates an [UnmapNotify] of
    the client on its frame when the client is mapped.  The loop still
    drains its queue, and this file gives the measure that shows it:

    - [ev_weight]: a redirected request or a pointer event weighs
      [heavy], a notification 1; [qweight] sums the queue;
    - [qadds k f]: the Xlib call [f] appends notifications of weight at
      most [k] ([XReparentWindow] at most 4, [XDestroyWindow] 2, ...);
    - [Potential]: a program's potential [pot] is the weight of the
      queue plus a weight for the program's own state (its registered
      clients: an unframe removes one, which pays for the
      [UnmapNotify] it may generate); [costs k m] says that a
      successful run of [m] raises [pot] by at most [k];
    - [run_terminates]: a loop whose every iteration dispatches the
      head of the queue with a handler that costs less than the weight
      of the event it handles ends, within [pot + 1] iterations, with
      the queue empty, unless a handler halts. *)

From S2P Require Import Prelude Xlib Runs.

Local Open Scope nat_scope.

(** ** Weights of events *)

(** What another client causes (a redirected [MapRequest] or
    [ConfigureRequest], pointer input) weighs [heavy]; a notification 1. *)
Definition heavy : nat := 16.

Definition ev_weight (e : XEvent) : nat :=
  match e with
  | EvMapRequest _ | EvConfigureRequest _ | EvButtonPress _ | EvMotionNotify _ => heavy
  | _ => 1
  end.

Fixpoint qweight (q : list XEvent) : nat :=
  match q with
  | [] => 0
  | e :: q' => ev_weight e + qweight q'
  end.

Lemma qweight_app q1 q2 : qweight (q1 ++ q2) = qweight q1 + qweight q2.
Proof. induction q1 as [|e q IH]; simpl; lia. Qed.

Lemma ev_weight_pos e : 1 <= ev_weight e.
Proof. destruct e; simpl; unfold heavy; lia. Qed.

Lemma qweight_le_length q : qweight q <= heavy * length q.
Proof. induction q as [|e q IH]; simpl; [lia|]. destruct e; simpl in *; unfold heavy in *; lia. Qed.

(** ** What each Xlib call adds to the queue *)

Definition qadds (k : nat) (f : XServer -> XServer) : Prop :=
  forall x, qweight (xs_queue (f x)) <= qweight (xs_queue x) + k.

Lemma qweight_notify p ev s : qweight (xs_queue (notify p ev s)) <= qweight (xs_queue s) + ev_weight ev.
Proof. unfold notify. repeat case_match; simpl; rewrite ?qweight_app; simpl; lia. Qed.

(** Unfold a call, split its branches and bound each [notify] it makes. *)
Ltac qadds_solve :=
  intros ?; repeat (case_match || case_decide); simplify_eq/=;
  repeat match goal with
  | |- context [qweight (xs_queue (notify ?p ?ev ?s))] =>
      pose proof (qweight_notify p ev s); set (qweight (xs_queue (notify p ev s))) in *; simpl in *
  | H : context [qweight (xs_queue (notify ?p ?ev ?s))] |- _ =>
      pose proof (qweight_notify p ev s); set (qweight (xs_queue (notify p ev s))) in *; simpl in *
  end; lia.

Lemma XCreateSimpleWindow_qadds p x y w h bw b bg :
  qadds 1 (fun s => (XCreateSimpleWindow p x y w h bw b bg s).2).
Proof. unfold XCreateSimpleWindow. qadds_solve. Qed.
Lemma XSelectInput_qadds w m : qadds 0 (XSelectInput w m).
Proof. unfold XSelectInput. qadds_solve. Qed.
Lemma XAddToSaveSet_qadds w : qadds 0 (XAddToSaveSet w).
Proof. unfold XAddToSaveSet. qadds_solve. Qed.
Lemma XRemoveFromSaveSet_qadds w : qadds 0 (XRemoveFromSaveSet w).
Proof. unfold XRemoveFromSaveSet. qadds_solve. Qed.
Lemma XReparentWindow_qadds w p x y : qadds 4 (XReparentWindow w p x y).
Proof. unfold XReparentWindow. qadds_solve. Qed.
Lemma XMapWindow_qadds w : qadds 1 (XMapWindow w).
Proof. unfold XMapWindow. qadds_solve. Qed.
Lemma XUnmapWindow_qadds w : qadds 1 (XUnmapWindow w).
Proof. unfold XUnmapWindow. qadds_solve. Qed.
Lemma XDestroyWindow_qadds w : qadds 2 (XDestroyWindow w).
Proof. unfold XDestroyWindow. qadds_solve. Qed.
Lemma XConfigureWindow_qadds w m ch : qadds 1 (XConfigureWindow w m ch).
Proof. unfold XConfigureWindow. qadds_solve. Qed.
Lemma XMoveWindow_qadds w x y : qadds 1 (XMoveWindow w x y).
Proof. apply XConfigureWindow_qadds. Qed.
Lemma XRaiseWindow_qadds w : qadds 1 (XRaiseWindow w).
Proof. apply XConfigureWindow_qadds. Qed.
Lemma XGrabButton_qadds w : qadds 0 (XGrabButton w).
Proof. unfold XGrabButton. qadds_solve. Qed.
Lemma XGetWindowAttributes_qadds w : qadds 0 (fun s => (XGetWindowAttributes w s).2).
Proof. unfold XGetWindowAttributes. qadds_solve. Qed.
Lemma XGetGeometry_qadds w : qadds 0 (fun s => (XGetGeometry w s).2).
Proof. unfold XGetGeometry. qadds_solve. Qed.

Lemma take_typed_qweight w t q e q' :
  take_typed_window_event w t q = Some (e, q') -> qweight q' + ev_weight e = qweight q.
Proof.
  revert q'. induction q as [|e0 q IH]; intros q'; simpl; [discriminate|].
  case_match; [intros [= <- <-]; lia|].
  destruct (take_typed_window_event w t q) as [[e1 q1]|] eqn:E; [|discriminate].
  intros [= <- <-]. specialize (IH q1 eq_refl). simpl. lia.
Qed.

(** [XCheckTypedWindowEvent] only removes an event. *)
Lemma XCheckTypedWindowEvent_qadds w t : qadds 0 (fun s => (XCheckTypedWindowEvent w t s).2).
Proof.
  intros x. unfold XCheckTypedWindowEvent.
  destruct (take_typed_window_event w t (xs_queue x)) as [[e q]|] eqn:E; simpl; [|lia].
  apply take_typed_qweight in E. lia.
Qed.

Create HintDb costs discriminated.
#[export] Hint Resolve XCreateSimpleWindow_qadds XSelectInput_qadds XAddToSaveSet_qadds
  XRemoveFromSaveSet_qadds XReparentWindow_qadds XMapWindow_qadds XUnmapWindow_qadds
  XDestroyWindow_qadds XConfigureWindow_qadds XMoveWindow_qadds XRaiseWindow_qadds
  XGrabButton_qadds XGetWindowAttributes_qadds XGetGeometry_qadds XCheckTypedWindowEvent_qadds : costs.

(** ** The potential of a program *)

(** A program's share of the potential, [extra], does not depend on the
    server. *)
Class Potential (S : Type) {HX : HasX S} := {
  extra : S -> nat;
  extra_with_x x s : extra (with_x x s) = extra s;
  pot_x_of_with_x x s : x_of (with_x x s) = x
}.

(** A registered client weighs [client_weight] in either program:
    unframing it pays for the notifications the unframe generates. *)
Definition client_weight : nat := 8.

Definition pot {S} `{Potential S} (s : S) : nat := qweight (xs_queue (x_of s)) + extra s.

(** A successful run of [m] raises the potential by at most [k]. *)
Definition costs {S} `{Potential S} {A} (k : Z) (m : M S A) : Prop :=
  steps (fun s s' => (Z.of_nat (pot s') <= Z.of_nat (pot s) + k)%Z) m.

Section Costs.
Context {S : Type} `{Potential S}.

Lemma costs_weaken {A} c k (m : M S A) : costs c m -> (c <= k)%Z -> costs k m.
Proof. intros Hm Hk s a s' Hrun. specialize (Hm s a s' Hrun). cbv beta in *. lia. Qed.

Lemma costs_ret {A} (a : A) : costs 0 (ret a).
Proof. intros s b s' [= _ <-]. cbv beta. lia. Qed.

Lemma costs_stop {A} k h : costs k (@stop S A h).
Proof. by intros s a s' ?. Qed.

Lemma costs_gets {A} (f : S -> A) : costs 0 (gets f).
Proof. intros s b s' [= _ <-]. cbv beta. lia. Qed.

Lemma costs_defined {A} (o : option A) w : costs 0 (defined o w).
Proof. destruct o; [apply costs_ret|apply costs_stop]. Qed.

Lemma costs_check {A} (o : option A) w : costs 0 (check o w).
Proof. destruct o; [apply costs_ret|apply costs_stop]. Qed.

Lemma costs_bind {A B} k c (m : M S A) (f : A -> M S B) :
  costs c m -> (forall a, costs (k - c) (f a)) -> costs k (bind m f).
Proof.
  intros Hm Hf s b s''. unfold bind. destruct (m s) as [[a s']|] eqn:E; [|done].
  intros Hk. specialize (Hm s a s' E). specialize (Hf a s' b s'' Hk). cbv beta in *. lia.
Qed.

Lemma costs_xdo c (f : XServer -> XServer) : qadds c f -> costs (Z.of_nat c) (xdo f).
Proof.
  intros Hf s a s' [= _ <-]. unfold pot. rewrite pot_x_of_with_x, extra_with_x.
  specialize (Hf (x_of s)). cbv beta. lia.
Qed.

Lemma costs_xcall {A} c (f : XServer -> A * XServer) :
  qadds c (fun x => (f x).2) -> costs (Z.of_nat c) (xcall f).
Proof.
  intros Hf s a s'. unfold xcall. specialize (Hf (x_of s)). simpl in Hf.
  destruct (f (x_of s)) as [b x']. intros [= _ <-]. unfold pot.
  rewrite pot_x_of_with_x, extra_with_x. simpl in Hf. cbv beta. lia.
Qed.

Lemma costs_bind_assoc {A B C} k (m : M S A) (f : A -> M S B) (g : B -> M S C) :
  costs k (bind m (fun a => bind (f a) g)) -> costs k (bind (bind m f) g).
Proof. intros Hm s c s' Hrun. rewrite bind_assoc in Hrun. exact (Hm s c s' Hrun). Qed.
End Costs.

#[export] Hint Resolve costs_ret costs_stop costs_gets costs_defined costs_check : costs.
#[export] Hint Extern 2 (costs _ (xdo _)) => eapply costs_xdo; solve [eauto with costs] : costs.
#[export] Hint Extern 2 (costs _ (xcall _)) => eapply costs_xcall; solve [eauto with costs] : costs.

(** Split a computation into its steps and branches, charging each step
    its cost ([eauto with costs]) against the budget; a nested [bind] or
    a branch before a [bind] is first moved out, and a step whose cost
    is not known is charged 0 and split in turn. *)
Ltac costs_split :=
  repeat match goal with
  | |- costs _ (bind (bind _ _) _) => apply costs_bind_assoc
  | |- costs _ (bind (match ?x with _ => _ end) _) => destruct x; cbv beta iota
  | |- costs _ (bind _ _) =>
      first [ eapply costs_bind; [solve [eauto with costs]|intros ?]
            | apply (costs_bind _ 0); [|intros ?] ]
  | |- costs _ (if ?b then _ else _) => destruct b
  | |- costs _ (match ?x with _ => _ end) => destruct x
  | |- costs _ _ => eapply costs_weaken; [solve [eauto with costs]|lia]
  end.

(** ** A loop that lowers the potential drains its queue *)

Section Terminates.
Context {S : Type} `{Potential S}.
Context (step : M S bool) (run : nat -> M S unit) (dispatch : XEvent -> M S unit).
(** [run n] is [n] iterations of [step], stopping when it returns [false]. *)
Hypothesis run_S : forall n, run (Datatypes.S n) = (more <- step ;; if more then run n else ret tt).
(** In steady state an iteration removes the head of the queue and
    dispatches it, or returns [false] on an empty queue. *)
Hypothesis step_pop : forall st, xs_handler (x_of st) = AppHandler 1 ->
  step st = (match head (xs_queue (x_of st)) with
             | Some e => dispatch e ;;; ret true
             | None => ret false
             end) (with_x (pop_event (x_of st)) st).
Hypothesis dispatch_handler : forall e, keeps (handler_is (AppHandler 1)) (dispatch e).
(** Handling an event costs less than the event's weight. *)
Hypothesis dispatch_costs : forall e, costs (Z.of_nat (ev_weight e) - 1) (dispatch e).

Lemma pot_pop st e q :
  xs_queue (x_of st) = e :: q -> pot (with_x (pop_event (x_of st)) st) + ev_weight e = pot st.
Proof.
  intros Hq. unfold pot. rewrite pot_x_of_with_x, extra_with_x, Hq. simpl. rewrite Hq. simpl. lia.
Qed.

Lemma run_terminates n st :
  xs_handler (x_of st) = AppHandler 1 -> pot st < n ->
  (exists h, run n st = Halted h) \/ (exists st', run n st = Ok (tt, st') /\ xs_queue (x_of st') = []).
Proof.
  revert st. induction n as [|n IH]; intros st Hh Hn; [lia|].
  assert (Hrun : run (Datatypes.S n) st =
    match step st with Ok (more, s') => (if more then run n else ret tt) s' | Halted h => Halted h end)
    by (rewrite run_S; reflexivity).
  rewrite Hrun, (step_pop st Hh).
  set (st1 := with_x (pop_event (x_of st)) st).
  destruct (xs_queue (x_of st)) as [|e q] eqn:Hq; simpl.
  - right. exists st1. split; [reflexivity|]. unfold st1. rewrite pot_x_of_with_x. simpl. by rewrite Hq.
  - unfold bind. destruct (dispatch e st1) as [[[] s2]|h] eqn:Hd; [|by left; exists h].
    simpl. apply IH.
    + apply (dispatch_handler e st1 tt s2 Hd). unfold handler_is, st1. rewrite pot_x_of_with_x. exact Hh.
    + pose proof (dispatch_costs e st1 tt s2 Hd) as Hc. pose proof (pot_pop st e q Hq) as Hp.
      fold st1 in Hp. pose proof (ev_weight_pos e). cbv beta in Hc. lia.
Qed.
End Terminates.

(** Bound the weight of the queue of a nest of Xlib calls [g1 (g2 (...
    x))] by the hints [qadds k gi], one call at a time. *)
Ltac qweight_chain :=
  repeat match goal with
  | |- context [qweight (xs_queue (?g ?x))] =>
      let H := fresh "Hq" in
      eassert (H : qadds _ g) by (solve [eauto with costs]); specialize (H x);
      set (qweight (xs_queue (g x))) in *
  | _ : context [qweight (xs_queue (?g ?x))] |- _ =>
      let H := fresh "Hq" in
      eassert (H : qadds _ g) by (solve [eauto with costs]); specialize (H x);
      set (qweight (xs_queue (g x))) in *
  end.
