(* ===== verification/OwenC.v ===== *)
(** * The C window manager ([src/owen.c])

    The global [static Owen owen] and the display connection form the
    state [CWorld]: the [Owen] record (root window, [OwenScreen] with
    the client array, [wm_detected]) and the X server.  Each function
    of [owen.c] that changes state is one definition in the monad [M]:
    [owen_frame], [owen_unframe], the handlers [x_on_unmap_notify],
    [x_on_map_request], [x_on_configure_request], the two error
    handlers, [owen_init], [owen_reframe], one iteration of [owen_run]
    ([owen_run_step]), [owen_destroy] and [owen_main].  Undefined
    behaviour (writing past [clients[256]], reading [clients[-1]],
    reading an uninitialised [XWindowAttributes]) halts with
    [Undefined]; [exit] halts with [Exit].  A map request followed by the unmap of the new
    client on its frame is a round trip: the registry and the server's
    structure come back ([st_unframe_frame] of [Framing],
    [owen_clients_delete_add] of [Registry]).  In steady state no
    handler changes the installed error handler and every handler only
    appends to the queue, so [n] iterations of [owen_run] dispatch the
    [n] events at the head of the queue in order ([run_in_order] of
    [Runs]). *)

From S2P Require Import Prelude Xlib Registry Layout Framing Shutdown Runs.

Record Owen := mkOwen { root : Window; screen : OwenScreen; wm_detected : bool }.

Record CWorld := mkCWorld { owen : Owen; cx : XServer }.

#[export] Instance CWorld_HasX : HasX CWorld := {
  x_of := cx;
  with_x x w := mkCWorld (owen w) x
}.

Definition set_screen (sc : OwenScreen) (w : CWorld) : CWorld :=
  mkCWorld (mkOwen (root (owen w)) sc (wm_detected (owen w))) (cx w).
Definition set_root (r : Window) (w : CWorld) : CWorld :=
  mkCWorld (mkOwen r (screen (owen w)) (wm_detected (owen w))) (cx w).
Definition set_wm_detected (b : bool) (w : CWorld) : CWorld :=
  mkCWorld (mkOwen (root (owen w)) (screen (owen w)) b) (cx w).

Definition get_screen : M CWorld OwenScreen := gets (fun w => screen (owen w)).
Definition get_root : M CWorld Window := gets (fun w => root (owen w)).

(** ** Error handlers (lines 60-71) *)

(** [_on_vm_detected] (installed as [AppHandler 0]). *)
Definition _on_vm_detected (error_code : Z) : M CWorld Z :=
  (if error_code =? BadAccess then modify (set_wm_detected true) else ret tt) ;;;
  ret 0.

(** [_on_x_error] (installed as [AppHandler 1]). *)
Definition _on_x_error (error_code : Z) : M CWorld Z := ret 0.

Definition owen_handlers (h : XErrorHandler) (code : Z) : M CWorld Z :=
  match h with
  | AppHandler 0 => _on_vm_detected code
  | AppHandler 1 => _on_x_error code
  | _ => default_error_handler code
  end.

(** ** Registry access from the global *)

Definition owen_clients_add_m (w f : Window) : M CWorld unit :=
  sc <- get_screen ;;
  sc' <- defined (owen_clients_add w f sc) "clients[client_count] written past the array" ;;
  modify (set_screen sc').

(** ** Framing (lines 135-204) *)

Definition BORDER_WIDTH : Z := 4.
Definition BORDER_COLOR : Z := 0xff5a5f.
Definition BG_COLOR : Z := 0xbfd7ea.

(** [owen_frame(win, is_reframed)] *)
Definition owen_frame (win : Window) (is_reframed : bool) : M CWorld unit :=
  attrs <- xcall (XGetWindowAttributes win) ;;
  skip <- (if is_reframed
           then a <- defined attrs "x_window_attrs read uninitialised" ;;
                ret (wa_override_redirect a || negb (wa_map_state a =? IsViewable))
           else ret false) ;;
  if skip then ret tt else
  sc <- get_screen ;;
  new_width <- defined (owen_frame_get_width sc) "division in owen_frame_get_width" ;;
  new_height <- defined (owen_frame_get_height sc) "division in owen_frame_get_height" ;;
  point <- defined (owen_frame_get_start_point sc (client_count sc)) "division in owen_frame_get_start_point" ;;
  r <- get_root ;;
  frame <- xcall (XCreateSimpleWindow r (px point) (py point) new_width new_height
                    BORDER_WIDTH BORDER_COLOR BG_COLOR) ;;
  xdo (XSelectInput frame (Z.lor SubstructureRedirectMask SubstructureNotifyMask)) ;;;
  xdo (XAddToSaveSet win) ;;;
  xdo (XReparentWindow win frame 0 0) ;;;
  xdo (XMapWindow frame) ;;;
  owen_clients_add_m win frame.

(** [owen_unframe(win)]: [clients[owen_clients_get_index(win)].frame] is
    out of bounds when [win] is not a client. *)
Definition owen_unframe (win : Window) : M CWorld unit :=
  sc <- get_screen ;;
  frame <- defined (owen_clients_frame_of win sc) "clients[-1] read" ;;
  xdo (XUnmapWindow frame) ;;;
  r <- get_root ;;
  xdo (XReparentWindow win r 0 0) ;;;
  xdo (XRemoveFromSaveSet win) ;;;
  xdo (XDestroyWindow frame) ;;;
  sc' <- get_screen ;;
  modify (set_screen (owen_clients_delete win sc')).

(** ** Event handlers (lines 206-242) *)

Definition x_on_unmap_notify (e : XUnmapEvent) : M CWorld unit :=
  sc <- get_screen ;;
  if owen_clients_get_index (um_window e) sc =? -1 then ret tt else
  r <- get_root ;;
  if bool_decide (um_event e = r) then ret tt else
  owen_unframe (um_window e).

Definition x_on_map_request (e : XMapRequestEvent) : M CWorld unit :=
  owen_frame (mr_window e) false ;;;
  xdo (XMapWindow (mr_window e)).

Definition changes_of (e : XConfigureRequestEvent) : XWindowChanges :=
  {| wc_x := cr_x e; wc_y := cr_y e; wc_width := cr_width e; wc_height := cr_height e;
     wc_border_width := cr_border_width e; wc_sibling := cr_above e;
     wc_stack_mode := cr_detail e |}.

Definition x_on_configure_request (e : XConfigureRequestEvent) : M CWorld unit :=
  let changes := changes_of e in
  sc <- get_screen ;;
  let owen_client_index := owen_clients_get_index (cr_window e) sc in
  (if negb (owen_client_index =? -1)
   then c <- defined (client_at sc owen_client_index) "clients[index] read" ;;
        xdo (XConfigureWindow (frame c) (cr_value_mask e) changes)
   else ret tt) ;;;
  xdo (XConfigureWindow (cr_window e) (cr_value_mask e) changes).

(** ** The event loop (lines 311-329) *)

Definition owen_dispatch (e : XEvent) : M CWorld unit :=
  match e with
  | EvMapRequest r => x_on_map_request r
  | EvConfigureRequest r => x_on_configure_request r
  | EvUnmapNotify u => x_on_unmap_notify u
  | _ => ret tt
  end.

(** One iteration of [while (1)]: [false] when [XNextEvent] would block. *)
Definition owen_run_step : M CWorld bool :=
  oe <- XNextEvent owen_handlers ;;
  match oe with
  | None => ret false
  | Some e => owen_dispatch e ;;; ret true
  end.

(** [fuel] iterations of the loop, stopping early when it would block. *)
Fixpoint owen_run (fuel : nat) : M CWorld unit :=
  match fuel with
  | O => ret tt
  | S f => more <- owen_run_step ;; if more then owen_run f else ret tt
  end.

(** ** Start-up (lines 245-309) *)

(** [owen_init], after [XOpenDisplay] succeeded.  The cursor calls are
    not modelled. *)
Definition owen_init : M CWorld unit :=
  r <- gets (fun w => xs_root (cx w)) ;;
  modify (set_root r) ;;;
  modify (set_wm_detected false) ;;;
  _ <- xcall (XSetErrorHandler (AppHandler 0)) ;;
  xdo (XSelectInput r (Z.lor (Z.lor SubstructureRedirectMask SubstructureNotifyMask) ButtonPressMask)) ;;;
  XSync owen_handlers ;;;
  det <- gets (fun w => wm_detected (owen w)) ;;
  if det then stop (Exit (-1)) else
  _ <- xcall (XSetErrorHandler (AppHandler 1)) ;;
  rw <- gets (fun w => xs_windows (cx w) !! r) ;;
  sc <- get_screen ;;
  let W := default 0 (xw_width <$> rw) in
  let H := default 0 (xw_height <$> rw) in
  modify (set_screen (mkOwenScreen 0 H W 0 (clients sc))).

(** [owen_reframe] *)
Definition owen_reframe : M CWorld unit :=
  xdo XGrabServer ;;;
  r <- get_root ;;
  q <- xcall (XQueryTree r) ;;
  tree <- defined q "top_level_windows read uninitialised" ;;
  let '(_, _, top_level_windows) := tree in
  mfor top_level_windows (fun w => owen_frame w true) ;;;
  xdo XUngrabServer.

(** The static [owen] before [main] runs: zero-initialised. *)
Definition owen0 : Owen :=
  mkOwen XNone (mkOwenScreen 0 0 0 0 (replicate 256 client0)) false.

(** [owen_destroy()] (lines 331-333): [XCloseDisplay(owen.dpy)]. *)
Definition owen_destroy : M CWorld unit := xdo XCloseDisplay.

(** [main]: [XOpenDisplay] returned [dpy] ([None] for [NULL]); the
    event loop is run for [fuel] iterations. *)
Definition owen_main (dpy : option XServer) (fuel : nat) : res (unit * CWorld) :=
  match dpy with
  | None => Halted (Exit (-1))
  | Some x => (owen_init ;;; owen_reframe ;;; owen_run fuel ;;; owen_destroy) (mkCWorld owen0 x)
  end.

(** ** The framing invariant of the C implementation

    [frames_ok] of [Framing] for the registry the array refines and
    the frame mask of [owen_frame]. *)

Definition frame_mask : Z := Z.lor SubstructureRedirectMask SubstructureNotifyMask.

Definition managed (st : CWorld) : gmap Window Window := owen_abs (screen (owen st)).

Definition owen_ok (st : CWorld) : Prop :=
  owen_screen_ok (screen (owen st)) /\ root (owen st) = xs_root (cx st) /\
  struct_ok (xstruct (cx st)) /\ frames_ok frame_mask (managed st) (xstruct (cx st)).

#[export] Instance owen_ok_dec st : Decision (owen_ok st).
Proof. unfold owen_ok. apply _. Defined.

(** Requests that leave the window structure alone keep the invariant. *)
Lemma owen_ok_with_x st x : owen_ok st -> xstruct x = xstruct (cx st) -> owen_ok (with_x x st).
Proof.
  intros (Ho & Hr & Hs & Hf) Hx. unfold owen_ok, managed. cbn [cx owen with_x CWorld_HasX].
  rewrite Hx, (xs_root_xstruct x), Hx, <-xs_root_xstruct. done.
Qed.

(** ** Running the handlers *)

(** The five requests of [owen_frame], from [XCreateSimpleWindow] to
    [XMapWindow(frame)]. *)
Definition frame_requests (rt w : Window) (r : Rect) (x : XServer) : XServer :=
  let f := xs_next_id x in
  XMapWindow f (XReparentWindow w f 0 0 (XAddToSaveSet w
    (XSelectInput f frame_mask
      (XCreateSimpleWindow rt (rx r) (ry r) (rw r) (rh r)
         BORDER_WIDTH BORDER_COLOR BG_COLOR x).2))).

Lemma frame_requests_xstruct x w r :
  struct_ok (xstruct x) -> is_Some (xs_windows x !! w) -> 0 < rw r -> 0 < rh r ->
  xstruct (frame_requests (xs_root x) w r x) = st_frame frame_mask w (xstruct x).
Proof. intros. by apply (frame_seq_xstruct (fun y => y)). Qed.

Lemma XGetWindowAttributes_next w x : xs_next_id (XGetWindowAttributes w x).2 = xs_next_id x.
Proof. by rewrite xs_next_id_xstruct, XGetWindowAttributes_xstruct. Qed.
Lemma XGetWindowAttributes_root w x : xs_root (XGetWindowAttributes w x).2 = xs_root x.
Proof. by rewrite xs_root_xstruct, XGetWindowAttributes_xstruct. Qed.
Lemma XGetWindowAttributes_windows w x : xs_windows (XGetWindowAttributes w x).2 = xs_windows x.
Proof. unfold XGetWindowAttributes. by destruct (xs_windows x !! w). Qed.

(** The screen sizes under which every frame [owen_frame] creates has a
    positive size: at least two pixels wide and taller than the number
    of clients. *)
Definition screen_fits (sc : OwenScreen) : Prop :=
  2 <= width sc /\ client_count sc < height sc.

Lemma screen_fits_rect sc :
  screen_fits sc -> 0 <= client_count sc ->
  new_frame_rect sc = Some (spec_rect (width sc) (height sc) (client_count sc)) /\
  0 < rw (spec_rect (width sc) (height sc) (client_count sc)) /\
  0 < rh (spec_rect (width sc) (height sc) (client_count sc)).
Proof.
  intros [HW HH] Hn. split; [apply new_frame_rect_spec; lia|]. unfold spec_rect; simpl.
  destruct (Z.eqb_spec (client_count sc) 0); [lia|].
  split; [apply Z.div_str_pos; lia|]. apply Z.div_str_pos. lia.
Qed.

(** [owen_frame] on a new window, when the layout is defined, runs the
    five requests and then [owen_clients_add]. *)
Lemma owen_frame_run st w r :
  new_frame_rect (screen (owen st)) = Some r ->
  owen_frame w false st =
    owen_clients_add_m w (xs_next_id (cx st))
      (mkCWorld (owen st) (frame_requests (root (owen st)) w r (XGetWindowAttributes w (cx st)).2)).
Proof.
  intros Hr. destruct (new_frame_rect_some _ _ Hr) as (H1 & H2 & H3).
  unfold owen_frame, get_screen, get_root. mrun. cbn [owen cx with_x x_of CWorld_HasX].
  rewrite H1, H2, H3. mrun. cbn [owen cx with_x x_of CWorld_HasX root px py].
  rewrite XCreateSimpleWindow_result, XGetWindowAttributes_next.
  unfold frame_requests. by rewrite XGetWindowAttributes_next.
Qed.

Lemma owen_frame_new_run st w r sc' :
  new_frame_rect (screen (owen st)) = Some r ->
  owen_clients_add w (xs_next_id (cx st)) (screen (owen st)) = Some sc' ->
  owen_frame w false st =
    Ok (tt, set_screen sc' (mkCWorld (owen st)
              (frame_requests (root (owen st)) w r (XGetWindowAttributes w (cx st)).2))).
Proof.
  intros Hr Hadd. rewrite (owen_frame_run st w r Hr).
  unfold owen_clients_add_m, get_screen. mrun. cbn [owen]. rewrite Hadd. mrun. reflexivity.
Qed.

(** Framing a window on a map request: the call returns, the window is
    registered with a fresh frame, and the invariant holds. *)
Theorem owen_frame_map_request st w :
  owen_ok st -> screen_fits (screen (owen st)) ->
  is_Some (xs_windows (cx st) !! w) -> w <> xs_root (cx st) ->
  managed st !! w = None -> (forall c, managed st !! c <> Some w) ->
  client_count (screen (owen st)) < CLIENTS_LEN ->
  exists st', owen_frame w false st = Ok (tt, st') /\ owen_ok st' /\
              managed st' = <[w := xs_next_id (cx st)]> (managed st) /\
              xstruct (cx st') = st_frame frame_mask w (xstruct (cx st)) /\
              owen_clients_add w (xs_next_id (cx st)) (screen (owen st)) = Some (screen (owen st')).
Proof.
  intros (Hsc & Hroot & Hs & Hf) Hfit Hw Hwr HRw Hnf Hcnt.
  destruct (screen_fits_rect _ Hfit) as (Hr & Hrw & Hrh); [apply Hsc|].
  set (r := spec_rect _ _ _) in *. clearbody r.
  destruct (reg_add_abs (screen (owen st)) w (xs_next_id (cx st))) as (sc' & Hadd & Hok' & Habs');
    [done|done|simpl; apply Z.eqb_neq; lia|].
  simpl in Hadd, Habs'.
  set (x1 := (XGetWindowAttributes w (cx st)).2).
  assert (Hx1 : xstruct x1 = xstruct (cx st)) by apply XGetWindowAttributes_xstruct.
  assert (Ex : xstruct (frame_requests (root (owen st)) w r x1) = st_frame frame_mask w (xstruct (cx st))).
  { rewrite Hroot, <-(XGetWindowAttributes_root w (cx st)). fold x1.
    rewrite frame_requests_xstruct;
      [by rewrite Hx1|by rewrite Hx1|unfold x1; by rewrite XGetWindowAttributes_windows|done|done]. }
  rewrite (owen_frame_new_run st w r sc' Hr Hadd). eexists. split; [reflexivity|].
  unfold owen_ok, managed. cbn [set_screen owen cx screen root]. fold x1.
  rewrite (xs_root_xstruct (frame_requests _ _ _ _)), Ex, Habs'.
  split; [split; [done|split; [exact Hroot|]]|by split_and!].
  apply frames_ok_frame; [done|done| |by rewrite <-xs_root_xstruct|done|done].
  simpl. rewrite lookup_fmap. by destruct Hw as [? ->].
Qed.



(** Unframing a managed client: the call returns, the client is no
    longer registered, and the invariant holds. *)
Theorem owen_unframe_managed st w f :
  owen_ok st -> managed st !! w = Some f ->
  exists st', owen_unframe w st = Ok (tt, st') /\ owen_ok st' /\
              managed st' = delete w (managed st) /\
              screen (owen st') = owen_clients_delete w (screen (owen st)) /\
              xstruct (cx st') = st_unframe w f (xstruct (cx st)).
Proof.
  intros (Hsc & Hroot & Hs & Hf) Hw.
  assert (Hfo : reg_frame_of w (screen (owen st)) = reg_abs (screen (owen st)) !! w)
    by (apply reg_frame_of_abs; exact Hsc).
  destruct (reg_remove_abs (screen (owen st)) w) as (Hok' & Habs'); [exact Hsc|].
  simpl in Hfo, Hok', Habs'.
  eexists. split.
  - unfold owen_unframe, get_screen, get_root. mrun. simpl. unfold managed in Hw.
    rewrite Hfo, Hw. mrun. reflexivity.
  - unfold owen_ok, managed. cbn [with_x x_of CWorld_HasX set_screen owen cx screen root].
    rewrite Hroot.
    rewrite (xs_root_xstruct (XDestroyWindow _ _)), (unframe_requests_xstruct frame_mask (managed st)) by done.
    rewrite Habs'. split; [|by split_and!]. split; [done|]. split; [done|].
    by apply frames_ok_unframe.
Qed.

(** ** The event handlers *)

(** Mapping a window keeps the invariant and the registry. *)
Lemma owen_ok_map_window st w :
  owen_ok st ->
  owen_ok (with_x (XMapWindow w (cx st)) st) /\ managed (with_x (XMapWindow w (cx st)) st) = managed st.
Proof.
  intros (Hsc & Hroot & Hs & Hf). split; [|done]. unfold owen_ok, managed in *; simpl.
  by rewrite XMapWindow_xstruct, xs_root_xstruct, XMapWindow_xstruct, <-xs_root_xstruct.
Qed.

Lemma x_on_map_request_run st e st1 :
  owen_frame (mr_window e) false st = Ok (tt, st1) ->
  x_on_map_request e st = Ok (tt, with_x (XMapWindow (mr_window e) (cx st1)) st1).
Proof. intros Hrun. unfold x_on_map_request. by rewrite (bind_ok _ _ _ _ _ Hrun). Qed.

(** C2: a map request for a window that exists, is not the root, is not
    managed and is not a frame, when the array has room and the screen
    fits the new frame, returns normally; the window is registered with
    the next window id as its frame, and the framing invariant holds
    afterwards. *)
Theorem x_on_map_request_frames st e :
  owen_ok st -> screen_fits (screen (owen st)) ->
  is_Some (xs_windows (cx st) !! mr_window e) -> mr_window e <> xs_root (cx st) ->
  managed st !! mr_window e = None -> (forall c, managed st !! c <> Some (mr_window e)) ->
  client_count (screen (owen st)) < CLIENTS_LEN ->
  exists st', x_on_map_request e st = Ok (tt, st') /\ owen_ok st' /\
              managed st' = <[mr_window e := xs_next_id (cx st)]> (managed st).
Proof.
  intros Hok Hfit Hw Hwr HRw Hnf Hcnt.
  destruct (owen_frame_map_request st (mr_window e)) as (st1 & Hrun & Hok1 & Hm1 & _); try done.
  destruct (owen_ok_map_window st1 (mr_window e) Hok1) as (Hok2 & Hm2).
  eexists. split; [by apply x_on_map_request_run|]. by rewrite Hm2, Hm1.
Qed.

(** An unmap notification reported on the root never unframes: the
    handler returns with the state unchanged, whatever the window. *)
Theorem x_on_unmap_notify_root st e :
  um_event e = root (owen st) -> x_on_unmap_notify e st = Ok (tt, st).
Proof.
  intros He. unfold x_on_unmap_notify, get_screen, get_root. mrun.
  destruct (_ =? -1); [done|]. mrun. by rewrite bool_decide_true.
Qed.

(** An unmap notification for a window that is not a client is ignored. *)
Theorem x_on_unmap_notify_unmanaged st e :
  owen_ok st -> managed st !! um_window e = None -> x_on_unmap_notify e st = Ok (tt, st).
Proof.
  intros (Hsc & _) Hw. unfold x_on_unmap_notify, get_screen. mrun.
  destruct Hsc as (Hlen & Hn & _). unfold CLIENTS_LEN in *.
  rewrite (proj2 (owen_clients_get_index_absent (screen (owen st)) ltac:(lia) (um_window e)) Hw).
  done.
Qed.

(** An unmap of a client reported on another window than the root is
    [owen_unframe]. *)
Lemma x_on_unmap_notify_client st e f :
  owen_ok st -> managed st !! um_window e = Some f -> um_event e <> root (owen st) ->
  x_on_unmap_notify e st = owen_unframe (um_window e) st.
Proof.
  intros ((Hlen & Hn & _) & _) Hw He. unfold CLIENTS_LEN in *.
  unfold x_on_unmap_notify, get_screen, get_root. mrun.
  destruct (Z.eqb_spec (owen_clients_get_index (um_window e) (screen (owen st))) (-1)) as [Hi|_].
  - apply owen_clients_get_index_absent in Hi; [unfold managed in Hw; congruence|lia].
  - mrun. by rewrite bool_decide_false.
Qed.

(** A genuine unmap of a managed client unframes it. *)
Theorem x_on_unmap_notify_unframes st e f :
  owen_ok st -> managed st !! um_window e = Some f -> um_event e <> root (owen st) ->
  exists st', x_on_unmap_notify e st = Ok (tt, st') /\ owen_ok st' /\
              managed st' = delete (um_window e) (managed st).
Proof.
  intros Hok Hw He. rewrite (x_on_unmap_notify_client st e f Hok Hw He).
  destruct (owen_unframe_managed st (um_window e) f Hok Hw) as (st' & ? & ? & ? & _). eauto.
Qed.

(** C38: round trip.  A map request for a new top-level window frames
    it; the client's later unmap, reported on its frame, unframes it.
    Afterwards the live records of the array are the same, in the same
    order, and so is the window structure (parents, masks, save set),
    but for the frame's id, which stays consumed. *)
Theorem x_on_map_unmap_roundtrip st e ww :
  owen_ok st -> screen_fits (screen (owen st)) -> client_count (screen (owen st)) < CLIENTS_LEN ->
  xs_windows (cx st) !! mr_window e = Some ww -> mr_window e <> xs_root (cx st) ->
  xw_parent ww = xs_root (cx st) -> mr_window e ∉ xs_save_set (cx st) ->
  (forall v, v ∈ xs_save_set (cx st) -> is_Some (xs_windows (cx st) !! v)) ->
  managed st !! mr_window e = None -> (forall c, managed st !! c <> Some (mr_window e)) ->
  exists st1 st2, x_on_map_request e st = Ok (tt, st1) /\
    x_on_unmap_notify {| um_event := xs_next_id (cx st); um_window := mr_window e |} st1 = Ok (tt, st2) /\
    live (screen (owen st2)) = live (screen (owen st)) /\
    client_count (screen (owen st2)) = client_count (screen (owen st)) /\
    xstruct (cx st2) = st_bump (xstruct (cx st)).
Proof.
  intros Hok Hfit Hcnt Hw Hwr Hpar Hsave Hsv HRw Hnf.
  destruct (owen_frame_map_request st (mr_window e) Hok Hfit ltac:(rewrite Hw; by eexists) Hwr HRw Hnf Hcnt)
    as (st1 & Hrun1 & Hok1 & Hm1 & Hx1 & Hadd).
  set (st1' := with_x (XMapWindow (mr_window e) (cx st1)) st1).
  destruct (owen_ok_map_window st1 (mr_window e) Hok1) as (Hok1' & Hm1').
  assert (Hc1w : managed st1' !! mr_window e = Some (xs_next_id (cx st)))
    by (unfold st1'; rewrite Hm1', Hm1; apply lookup_insert_eq).
  pose proof Hok as (_ & _ & Hs & Hf). pose proof Hok1 as (_ & Hroot1 & _).
  assert (Hfr : xs_next_id (cx st) <> root (owen st1')).
  { change (root (owen st1')) with (root (owen st1)). rewrite Hroot1, (xs_root_xstruct (cx st1)), Hx1.
    pose proof (struct_ok_lt _ Hs _ (proj1 Hs)). simpl in *. lia. }
  destruct (owen_unframe_managed st1' _ _ Hok1' Hc1w) as (st2 & Hrun2 & _ & _ & Hsc2 & Hx2).
  destruct (owen_clients_delete_add (screen (owen st)) (mr_window e) (xs_next_id (cx st)) (screen (owen st1)))
    as (Hcnt2 & Hlive2); [exact HRw|exact Hadd|].
  exists st1', st2. split; [by apply x_on_map_request_run|].
  split; [by rewrite (x_on_unmap_notify_client st1' {| um_event := xs_next_id (cx st); um_window := mr_window e |}
                        _ Hok1' Hc1w Hfr)|].
  rewrite Hsc2. split; [done|]. split; [done|].
  rewrite Hx2. change (xstruct (cx st1')) with (xstruct (XMapWindow (mr_window e) (cx st1))).
  rewrite XMapWindow_xstruct, Hx1. apply st_unframe_frame; [exact Hs| | |].
  - unfold sparent. simpl. rewrite lookup_fmap, Hw. simpl. by rewrite Hpar.
  - done.
  - intros v Hv. simpl. rewrite lookup_fmap. destruct (Hsv v Hv) as [? ->]. by eexists.
Qed.

(** A configure request for an unmanaged window is forwarded verbatim to
    the window, and nothing else changes. *)
Theorem x_on_configure_request_unmanaged st e :
  owen_ok st -> managed st !! cr_window e = None ->
  x_on_configure_request e st =
    Ok (tt, with_x (XConfigureWindow (cr_window e) (cr_value_mask e) (changes_of e) (cx st)) st).
Proof.
  intros ((Hlen & Hn & _) & _) Hw. unfold CLIENTS_LEN in *.
  unfold x_on_configure_request, get_screen. mrun.
  rewrite (proj2 (owen_clients_get_index_absent (screen (owen st)) ltac:(lia) (cr_window e)) Hw).
  mrun. reflexivity.
Qed.

(** A configure request for a managed client applies the same change
    first to its frame, then to the client. *)
Theorem x_on_configure_request_managed st e f :
  owen_ok st -> managed st !! cr_window e = Some f ->
  x_on_configure_request e st =
    Ok (tt, with_x (XConfigureWindow (cr_window e) (cr_value_mask e) (changes_of e)
                      (XConfigureWindow f (cr_value_mask e) (changes_of e) (cx st))) st).
Proof.
  intros ((Hlen & Hn & Hnd) & _) Hw. unfold CLIENTS_LEN in *.
  assert (Hfo : owen_clients_frame_of (cr_window e) (screen (owen st)) = Some f)
    by (rewrite owen_clients_frame_of_abs; [done|lia]).
  assert (Hi : owen_clients_get_index (cr_window e) (screen (owen st)) <> -1)
    by (intros Hi; apply owen_clients_get_index_absent in Hi; [unfold managed in Hw; congruence|lia]).
  unfold owen_clients_frame_of in Hfo.
  destruct (client_at _ _) as [c|] eqn:Hc; [|discriminate]. injection Hfo as <-.
  unfold x_on_configure_request, get_screen. mrun.
  rewrite (proj2 (Z.eqb_neq _ _) Hi). simpl. rewrite Hc. mrun. reflexivity.
Qed.

(** Configure requests keep the registry and the invariant. *)
Lemma x_on_configure_request_ok st e :
  owen_ok st ->
  exists st', x_on_configure_request e st = Ok (tt, st') /\ owen_ok st' /\ managed st' = managed st.
Proof.
  intros Hok. destruct (managed st !! cr_window e) as [f|] eqn:Hw.
  - rewrite (x_on_configure_request_managed st e f Hok Hw). eexists. split; [done|].
    destruct Hok as (Hsc & Hroot & Hs & Hf). unfold owen_ok, managed in *; simpl.
    by rewrite xs_root_xstruct, !XConfigureWindow_xstruct, <-xs_root_xstruct.
  - rewrite (x_on_configure_request_unmanaged st e Hok Hw). eexists. split; [done|].
    destruct Hok as (Hsc & Hroot & Hs & Hf). unfold owen_ok, managed in *; simpl.
    by rewrite xs_root_xstruct, !XConfigureWindow_xstruct, <-xs_root_xstruct.
Qed.

(** C3: the unmap handler on every branch, from a state satisfying the
    invariant: it returns normally and keeps the invariant; a window
    that is not a client, or a notification reported on the root,
    leaves the state unchanged; otherwise the client is unframed and
    removed from the registry. *)
Theorem x_on_unmap_notify_spec st e :
  owen_ok st ->
  exists st', x_on_unmap_notify e st = Ok (tt, st') /\ owen_ok st' /\
    match managed st !! um_window e with
    | Some _ =>
        if bool_decide (um_event e = root (owen st)) then st' = st
        else managed st' = delete (um_window e) (managed st)
    | None => st' = st
    end.
Proof.
  intros Hok. destruct (managed st !! um_window e) as [f|] eqn:Hw.
  - case_bool_decide as Hr.
    + exists st. by rewrite x_on_unmap_notify_root.
    + destruct (x_on_unmap_notify_unframes st e f Hok Hw Hr) as (st' & ? & ? & ?). eauto.
  - exists st. by rewrite x_on_unmap_notify_unmanaged.
Qed.

(** C4: the configure handler on every branch: the request's changes
    are applied with its value mask to the client's frame when the
    window is a client, and then, in every case, to the window itself;
    nothing else changes. *)
Theorem x_on_configure_request_spec st e :
  owen_ok st ->
  x_on_configure_request e st =
    Ok (tt, with_x (XConfigureWindow (cr_window e) (cr_value_mask e) (changes_of e)
                      (match managed st !! cr_window e with
                       | Some f => XConfigureWindow f (cr_value_mask e) (changes_of e) (cx st)
                       | None => cx st
                       end)) st).
Proof.
  intros Hok. destruct (managed st !! cr_window e) as [f|] eqn:Hw.
  - by apply x_on_configure_request_managed.
  - by apply x_on_configure_request_unmanaged.
Qed.

(** ** Undefined behaviour *)

(** [owen_frame] has no capacity check: framing a window when 256
    clients are registered writes [clients[256]], past the array. *)
Theorem owen_frame_full st w :
  owen_screen_ok (screen (owen st)) ->
  0 <= width (screen (owen st)) -> 0 <= height (screen (owen st)) ->
  client_count (screen (owen st)) = CLIENTS_LEN ->
  owen_frame w false st = Halted (Undefined "clients[client_count] written past the array").
Proof.
  intros (Hlen & _) HW HH Hc.
  rewrite (owen_frame_run st w (spec_rect (width (screen (owen st))) (height (screen (owen st)))
                                 (client_count (screen (owen st))))) by (apply new_frame_rect_spec; lia).
  unfold owen_clients_add_m, get_screen. mrun. cbn [owen].
  unfold owen_clients_add. rewrite Hlen, Hc. mrun. reflexivity.
Qed.

(** C15: [owen_unframe] of a window that is not a client reads
    [clients[-1]] ([owen_clients_get_index] returns -1); its callers
    must rule this out, as [x_on_unmap_notify] does. *)
Theorem owen_unframe_unmanaged st w :
  owen_screen_ok (screen (owen st)) -> managed st !! w = None ->
  owen_unframe w st = Halted (Undefined "clients[-1] read").
Proof.
  intros (Hlen & Hn & _) Hw.
  assert (Hfo : owen_clients_frame_of w (screen (owen st)) = None)
    by (unfold CLIENTS_LEN in *; rewrite owen_clients_frame_of_abs; [done|lia]).
  unfold owen_unframe, get_screen. mrun. rewrite Hfo. mrun. reflexivity.
Qed.

(** ** The requests each operation issues, in order *)

(** C8: [owen_frame] on a map request issues, in this order: create the
    frame at the layout's rectangle, select the redirect and notify
    events on it, add the client to the save set, reparent the client
    into the frame at (0,0), and map the frame.  In particular the
    client is in the save set before it is reparented. *)
Theorem owen_frame_requests st w :
  owen_screen_ok (screen (owen st)) ->
  0 <= width (screen (owen st)) -> 0 <= height (screen (owen st)) ->
  client_count (screen (owen st)) < CLIENTS_LEN ->
  let sc := screen (owen st) in
  let r := spec_rect (width sc) (height sc) (client_count sc) in
  let f := xs_next_id (cx st) in
  exists st', owen_frame w false st = Ok (tt, st') /\
    xs_log (cx st') = xs_log (cx st) ++
      [RqCreateWindow f (root (owen st)) (rx r) (ry r) (rw r) (rh r) BORDER_WIDTH;
       RqSelectInput f frame_mask; RqChangeSaveSet w true;
       RqReparentWindow w f 0 0; RqMapWindow f].
Proof.
  intros Hsc HW HH Hcnt sc r f. subst sc f. pose proof Hsc as (Hlen & Hn & _).
  assert (Hr : new_frame_rect (screen (owen st)) = Some r) by (apply new_frame_rect_spec; lia).
  clearbody r.
  destruct (owen_clients_add_room (screen (owen st)) w (xs_next_id (cx st))) as [sc' Hadd];
    [done|done|].
  rewrite (owen_frame_new_run st w r sc' Hr Hadd). eexists. split; [reflexivity|].
  cbn [set_screen cx]. unfold frame_requests. cbv zeta.
  rewrite XMapWindow_log, XReparentWindow_log, XAddToSaveSet_log, XSelectInput_log,
    XCreateSimpleWindow_log, XGetWindowAttributes_log, XGetWindowAttributes_next.
  by rewrite <-!app_assoc.
Qed.

(** C9: [owen_unframe] of a managed client issues, in this order: unmap the
    frame, reparent the client to the root at (0,0), remove it from the
    save set, destroy the frame. *)
Theorem owen_unframe_requests st w f :
  owen_ok st -> managed st !! w = Some f ->
  exists st', owen_unframe w st = Ok (tt, st') /\
    xs_log (cx st') = xs_log (cx st) ++
      [RqUnmapWindow f; RqReparentWindow w (root (owen st)) 0 0;
       RqChangeSaveSet w false; RqDestroyWindow f].
Proof.
  intros (Hsc & _) Hw.
  assert (Hfo : owen_clients_frame_of w (screen (owen st)) = Some f).
  { destruct Hsc as (Hlen & Hn & _). unfold CLIENTS_LEN in *.
    rewrite owen_clients_frame_of_abs; [done|lia]. }
  eexists. split.
  - unfold owen_unframe, get_screen, get_root. mrun. simpl. rewrite Hfo. mrun. reflexivity.
  - cbn [with_x x_of CWorld_HasX set_screen cx owen root].
    rewrite XDestroyWindow_log, XRemoveFromSaveSet_log, XReparentWindow_log, XUnmapWindow_log.
    by rewrite <-!app_assoc.
Qed.

(** ** Pre-existing windows *)

Lemma mkCWorld_eta st : mkCWorld (owen st) (cx st) = st.
Proof. by destruct st. Qed.

(** C26: at start-up, a pre-existing window that sets override-redirect
    or is not viewable is left alone: the state is unchanged. *)
Theorem owen_frame_skips_preexisting st w x :
  xs_windows (cx st) !! w = Some x ->
  xw_override_redirect x = true \/ map_state (cx st) w x <> IsViewable ->
  owen_frame w true st = Ok (tt, st).
Proof.
  intros Hw Hskip. unfold owen_frame. mrun. simpl. unfold XGetWindowAttributes. rewrite Hw.
  simpl. mrun. simpl.
  replace (_ || _) with true.
  - mrun. by rewrite mkCWorld_eta.
  - destruct Hskip as [-> | Hv]; [done|]. symmetry. apply orb_true_intro. right.
    apply negb_true_iff, Z.eqb_neq. done.
Qed.

(** A window that vanished before [owen_frame(win, true)] queried
    it leaves [x_window_attrs] uninitialised, and the code then reads it
    (undefined behaviour). *)
Theorem owen_frame_preexisting_vanished st w :
  xs_windows (cx st) !! w = None ->
  owen_frame w true st = Halted (Undefined "x_window_attrs read uninitialised").
Proof.
  intros Hw. unfold owen_frame. mrun. simpl. unfold XGetWindowAttributes. rewrite Hw.
  simpl. mrun. reflexivity.
Qed.

(** ** Error handling *)

Definition deliver_one (code : Z) : M CWorld unit :=
  h <- gets (fun s => xs_handler (x_of s)) ;;
  _ <- owen_handlers h code ;;
  ret tt.

Ltac fold_deliver :=
  match goal with |- context [mfor ?l ?b] => change b with deliver_one end.

(** In steady state ([_on_x_error] installed) delivering errors changes
    nothing and never halts. *)
Lemma deliver_steady errs st :
  xs_handler (cx st) = AppHandler 1 -> mfor errs deliver_one st = Ok (tt, st).
Proof.
  intros Hh. induction errs as [|e errs IH]; [done|].
  rewrite mfor_cons. unfold deliver_one. mrun. simpl. rewrite Hh. simpl. mrun. exact IH.
Qed.

(** During the start-up handshake ([_on_vm_detected] installed) the flag
    is raised exactly when an access error is delivered. *)
Lemma deliver_detect errs st :
  xs_handler (cx st) = AppHandler 0 ->
  mfor errs deliver_one st =
    Ok (tt, set_wm_detected (wm_detected (owen st) || existsb (fun c => c =? BadAccess) errs) st).
Proof.
  revert st. induction errs as [|e errs IH]; intros st Hh.
  - simpl. rewrite orb_false_r. by destruct st as [[]].
  - rewrite mfor_cons. unfold deliver_one. mrun. simpl. rewrite Hh. simpl.
    unfold _on_vm_detected. destruct (Z.eqb_spec e BadAccess) as [->|Hne]; mrun.
    + rewrite IH by done. simpl. by rewrite orb_true_r.
    + rewrite IH by done. simpl. by destruct st as [[]].
Qed.

(** Protocol errors are never fatal in steady state: [XNextEvent]
    returns the first queued event, drops the delivered errors, and
    changes nothing else. *)
Theorem XNextEvent_steady st :
  xs_handler (cx st) = AppHandler 1 ->
  XNextEvent owen_handlers st =
    Ok (head (xs_queue (cx st)), with_x (set_queue (tail (xs_queue (cx st))) (set_errors [] (cx st))) st).
Proof.
  intros Hh. unfold XNextEvent, deliver_errors. mrun.
  fold deliver_one. rewrite bind_ok with (a := tt) (s' := with_x (set_errors [] (x_of st)) st)
    by (apply deliver_steady; done).
  mrun. simpl. destruct (xs_queue (cx st)) eqn:Eq; simpl; [|done].
  destruct st as [o []]. simpl in *. by subst.
Qed.

(** ** Start-up *)

Definition root_mask : Z :=
  Z.lor (Z.lor SubstructureRedirectMask SubstructureNotifyMask) ButtonPressMask.

(** C10: another window manager holds SubstructureRedirect on the
    root: [owen_init] detects it through the access error its
    [XSelectInput] provokes, delivered to [_on_vm_detected] by [XSync],
    and exits with -1. *)
Theorem owen_init_rival st :
  xs_rival_redirect (cx st) = true -> is_Some (xs_windows (cx st) !! xs_root (cx st)) ->
  owen_init st = Halted (Exit (-1)).
Proof.
  intros Hr Hroot. unfold owen_init, XSync, deliver_errors. mrun. simpl.
  fold root_mask. fold_deliver.
  set (x1 := XSelectInput (xs_root (cx st)) root_mask (set_handler (AppHandler 0) (cx st))).
  assert (E1 : xs_errors x1 = xs_errors (cx st) ++ [BadAccess]).
  { unfold x1, XSelectInput. simpl. unfold win_exists; simpl.
    rewrite bool_decide_true by done. simpl. rewrite bool_decide_true, Hr by done. reflexivity. }
  erewrite bind_ok; [|apply deliver_detect; simpl; unfold x1; by rewrite XSelectInput_handler].
  mrun. simpl. rewrite E1, existsb_app. simpl. rewrite !orb_true_r. mrun. reflexivity.
Qed.

(** C11: without a rival and with no error pending, [owen_init]
    returns normally: it records the root, leaves [wm_detected] false,
    installs [_on_x_error], selects the redirect, notify and button
    events on the root, and reads the screen size from the root with no
    client registered. *)
Theorem owen_init_ok st (rootw : XWin) :
  xs_rival_redirect (cx st) = false -> xs_errors (cx st) = [] ->
  xs_windows (cx st) !! xs_root (cx st) = Some rootw ->
  exists st', owen_init st = Ok (tt, st') /\
    root (owen st') = xs_root (cx st) /\ wm_detected (owen st') = false /\
    xs_handler (cx st') = AppHandler 1 /\
    screen (owen st') = mkOwenScreen 0 (xw_height rootw) (xw_width rootw) 0 (clients (screen (owen st))) /\
    mask_of (cx st') (xs_root (cx st)) = Some root_mask.
Proof.
  intros Hr He Hroot. unfold owen_init, XSync, deliver_errors. mrun. simpl.
  fold root_mask. fold_deliver.
  set (x1 := XSelectInput (xs_root (cx st)) root_mask (set_handler (AppHandler 0) (cx st))).
  assert (E1 : x1 = update_win (xs_root (cx st)) (with_mask root_mask)
                      (log (RqSelectInput (xs_root (cx st)) root_mask)
                         (set_handler (AppHandler 0) (cx st)))).
  { unfold x1, XSelectInput. simpl. unfold win_exists; simpl.
    rewrite bool_decide_true by (rewrite Hroot; done). simpl. by rewrite Hr, andb_false_r. }
  rewrite E1. simpl. rewrite He. simpl. mrun. simpl. mrun. simpl.
  eexists. split; [reflexivity|]. simpl.
  rewrite lookup_alter_eq, Hroot. simpl.
  split; [done|]. split; [done|]. split; [done|]. split; [done|].
  unfold mask_of. simpl. by rewrite lookup_alter_eq, Hroot.
Qed.

(** C12: nothing in [x_on_map_request] or [owen_frame] checks the
    registry's precondition that the window is not yet a client (spec
    section 4.1 makes its violation fatal): a map request for a managed
    client returns normally and frames it a second time; the old frame
    stays the one found, and the array holds the client twice, so it no
    longer satisfies its invariant. *)
Theorem x_on_map_request_managed st e f :
  owen_ok st -> screen_fits (screen (owen st)) ->
  managed st !! mr_window e = Some f -> client_count (screen (owen st)) < CLIENTS_LEN ->
  exists st', x_on_map_request e st = Ok (tt, st') /\
    managed st' !! mr_window e = Some f /\ ~ owen_screen_ok (screen (owen st')).
Proof.
  intros (Hsc & _) Hfit Hw Hcnt.
  destruct (screen_fits_rect _ Hfit) as (Hr & _ & _); [apply Hsc|].
  destruct (owen_clients_add_room (screen (owen st)) (mr_window e) (xs_next_id (cx st)))
    as [sc' Hadd]; [done|done|].
  destruct (owen_clients_add_present _ _ _ _ _ Hw Hadd) as (Hw' & Hbad).
  eexists. split.
  - unfold x_on_map_request. rewrite (bind_ok _ _ _ _ _ (owen_frame_new_run _ _ _ _ Hr Hadd)).
    mrun. reflexivity.
  - split; [done|done].
Qed.

(** ** One iteration of the event loop *)

(** The guard of the invariant theorems: what the C code needs of a map
    request to handle it normally.  The window exists, is not the root,
    is not managed and is not a frame; the array has room and the
    screen fits the new frame.  Other events carry no requirement.  The
    server may send map requests outside this guard; the theorems
    [x_on_map_request_managed] and [owen_frame_full] show what the code
    then does. *)
Definition event_ok (st : CWorld) (e : XEvent) : Prop :=
  match e with
  | EvMapRequest r =>
      is_Some (st_wins (xstruct (cx st)) !! mr_window r) /\
      mr_window r <> st_root (xstruct (cx st)) /\
      managed st !! mr_window r = None /\ (forall c, managed st !! c <> Some (mr_window r)) /\
      client_count (screen (owen st)) < CLIENTS_LEN /\ screen_fits (screen (owen st))
  | _ => True
  end.

Lemma owen_dispatch_ok st e :
  owen_ok st -> event_ok st e ->
  exists st', owen_dispatch e st = Ok (tt, st') /\ owen_ok st'.
Proof.
  intros Hok He. destruct e as [r|r|u| | | | | | | |]; simpl in He |- *; try by eexists.
  - destruct He as (Hw & Hwr & HRw & Hnf & Hcnt & Hfit).
    simpl in Hw. rewrite lookup_fmap in Hw. apply fmap_is_Some in Hw.
    destruct (owen_frame_map_request st (mr_window r)) as (st1 & Hrun & Hok1 & _); try done.
    eexists. split; [by apply x_on_map_request_run|]. by apply owen_ok_map_window.
  - destruct (x_on_configure_request_ok st r Hok) as (st' & ? & ? & _). eauto.
  - destruct (decide (um_event u = root (owen st))) as [Hroot|Hne].
    + exists st. by rewrite x_on_unmap_notify_root.
    + destruct (managed st !! um_window u) as [f|] eqn:Hw.
      * destruct (x_on_unmap_notify_unframes st u f) as (st' & ? & ? & _); eauto.
      * exists st. by rewrite x_on_unmap_notify_unmanaged.
Qed.

(** Every iteration of the event loop in steady state
    ([_on_x_error] installed) returns normally and keeps the framing
    invariant [owen_ok], when the event it dequeues is one the server
    may send ([event_ok]). *)
Theorem owen_run_step_ok st :
  owen_ok st -> xs_handler (cx st) = AppHandler 1 ->
  (forall e, head (xs_queue (cx st)) = Some e -> event_ok st e) ->
  exists b st', owen_run_step st = Ok (b, st') /\ owen_ok st'.
Proof.
  intros Hok Hh Hev. unfold owen_run_step. rewrite (bind_ok _ _ _ _ _ (XNextEvent_steady st Hh)).
  set (st1 := with_x _ st).
  assert (Hok1 : owen_ok st1) by (apply owen_ok_with_x; [done|reflexivity]).
  destruct (head (xs_queue (cx st))) as [e|] eqn:He.
  - destruct (owen_dispatch_ok st1 e Hok1 (Hev e eq_refl)) as (st' & Hd & Hok').
    eexists _, st'. split; [|done]. by rewrite (bind_ok _ _ _ _ _ Hd).
  - by exists false, st1.
Qed.

(** ** Handlers in steady state *)

Lemma cx_with_x x st : x_of (with_x x st) = x.
Proof. reflexivity. Qed.

(** ** The error handler stays installed *)

Section Handlers.
Context (h : XErrorHandler).

Lemma keeps_owen_handlers h' code : keeps (handler_is h) (owen_handlers h' code).
Proof. unfold owen_handlers, _on_vm_detected, _on_x_error, default_error_handler. keeps_split. Qed.

Lemma keeps_owen_frame w b : keeps (handler_is h) (owen_frame w b).
Proof. unfold owen_frame, get_screen, get_root, owen_clients_add_m. keeps_split. Qed.

Lemma keeps_owen_unframe w : keeps (handler_is h) (owen_unframe w).
Proof. unfold owen_unframe, get_screen, get_root. keeps_split. Qed.

#[local] Hint Resolve keeps_owen_handlers keeps_owen_frame keeps_owen_unframe : keeps.

Lemma keeps_owen_dispatch e : keeps (handler_is h) (owen_dispatch e).
Proof.
  unfold owen_dispatch, x_on_map_request, x_on_configure_request, x_on_unmap_notify,
    get_screen, get_root.
  cbv zeta. keeps_split.
Qed.

#[local] Hint Resolve keeps_owen_dispatch : keeps.

(** No iteration of the loop installs another error handler. *)
Lemma keeps_owen_run_step : keeps (handler_is h) owen_run_step.
Proof. unfold owen_run_step, XNextEvent, deliver_errors. keeps_split. Qed.
End Handlers.

(** ** The queued events are handled in order *)

Lemma grows_owen_frame w b : steps queue_grows (owen_frame w b).
Proof. unfold owen_frame, get_screen, get_root, owen_clients_add_m. keeps_split. Qed.

Lemma grows_owen_unframe w : steps queue_grows (owen_unframe w).
Proof. unfold owen_unframe, get_screen, get_root. keeps_split. Qed.

#[local] Hint Resolve grows_owen_frame grows_owen_unframe : keeps.

(** A handler only appends to the queue. *)
Lemma grows_owen_dispatch e : steps queue_grows (owen_dispatch e).
Proof.
  unfold owen_dispatch, x_on_map_request, x_on_configure_request, x_on_unmap_notify,
    get_screen, get_root.
  cbv zeta. keeps_split.
Qed.

(** C39: the loop handles the queued events in the order the server
    delivered them, each once: in steady state, when [q] is at the head
    of the queue, [length q] iterations of [owen_run] dispatch exactly
    the events of [q], one after the other, whatever events the
    handlers queue meanwhile (they go after [q]); an iteration that
    halts halts the loop. *)
Theorem owen_run_in_order q st :
  xs_handler (cx st) = AppHandler 1 -> q `prefix_of` xs_queue (cx st) ->
  owen_run (length q) st = dispatch_all owen_dispatch q st.
Proof.
  intros Hh Hq. apply (run_in_order cx_with_x owen_run_step owen_run owen_dispatch (fun _ => True));
    [done|done| |apply keeps_owen_dispatch|intros e _; apply grows_owen_dispatch|done|by apply Forall_true|done].
  intros st' e Hh' He. change (head (xs_queue (cx st')) = Some e) in He. unfold owen_run_step.
  rewrite (bind_ok _ _ _ _ _ (XNextEvent_steady st' Hh')), He. reflexivity.
Qed.
