(* ===== verification/CReach.v ===== *)
(** * Runs of the C window manager among other X clients

    The event loop of [owen_run] ([src/owen.c], lines 311-329)
    interleaved with the actions of other clients: [c_step] is
    [run_step] of [Runs] for [owen_run_step], the guard [event_ok] and
    the registry [managed] (the array read as a map).

    Theorems: another client's window creation keeps [owen_ok]; every
    state reachable from a steady state is steady (the invariant, and
    the error handler, which no handler changes: [keeps_owen_run_step]
    of [OwenC]) and can take the next loop iteration without halting.

    Termination: [CWorld_Potential] counts 8 per registered client;
    each handler costs less than the weight of its event
    ([costs_owen_dispatch]), so [owen_run] drains the queue
    ([run_terminates] of [Potential]).

    Shutdown: [owns_frames] (the frames are exactly the windows the
    window manager created) holds along every run with [owen_ok]
    ([owen_reachable_owns]), from which [owen_destroy] gives every
    client back ([close_restores_owns] of [Shutdown]). *)

From S2P Require Import Prelude Xlib Registry Layout Framing Shutdown Runs Potential OwenC.

Definition c_step : CWorld -> CWorld -> Prop := run_step owen_run_step event_ok managed.

(** ** The loop drains its queue *)

#[export] Instance CWorld_Potential : Potential CWorld := {
  extra st := (client_weight * Z.to_nat (client_count (screen (owen st))))%nat;
  extra_with_x x st := eq_refl;
  pot_x_of_with_x x st := eq_refl
}.

Lemma costs_owen_clients_add_m w f : costs 8 (owen_clients_add_m w f).
Proof.
  intros s a s'. unfold owen_clients_add_m, get_screen. mrun.
  destruct (owen_clients_add w f (screen (owen s))) as [sc|] eqn:E; mrun; [|discriminate].
  intros [= _ <-]. unfold pot. simpl. rewrite (owen_clients_add_count _ _ _ _ E).
  unfold client_weight. lia.
Qed.

(** An unframe removes the client's record, which pays for the at most
    seven notifications it generates. *)
Lemma costs_owen_unframe w : costs (-1) (owen_unframe w).
Proof.
  intros s a s'. unfold owen_unframe, get_screen, get_root. mrun.
  destruct (owen_clients_frame_of w (screen (owen s))) as [f|] eqn:Hf; mrun; [|discriminate].
  intros [= _ <-]. destruct (owen_clients_frame_of_found _ _ _ Hf) as [i Hi].
  pose proof (owen_clients_delete_count _ _ _ Hi). unfold pot. simpl. qweight_chain.
  unfold client_weight. lia.
Qed.


#[local] Hint Resolve costs_owen_clients_add_m costs_owen_unframe : costs.

(** Framing: a window, a reparenting, a map and a record. *)
Lemma costs_owen_frame w b : costs 14 (owen_frame w b).
Proof. unfold owen_frame, get_screen, get_root. costs_split. Qed.

#[local] Hint Resolve costs_owen_frame : costs.

Lemma costs_owen_dispatch e : costs (Z.of_nat (ev_weight e) - 1) (owen_dispatch e).
Proof.
  destruct e; unfold owen_dispatch, ev_weight, heavy;
    unfold x_on_map_request, x_on_configure_request, x_on_unmap_notify, get_screen, get_root;
    cbv zeta; costs_split.
Qed.

(** C18: the C event loop terminates: in steady state, when the number
    of iterations [n] exceeds [16] per queued event plus [8] per
    registered client, [owen_run n] returns with the queue drained
    (the loop would block in [XNextEvent]) unless a handler halts the
    program.  The handlers queue notifications, and unframing a client
    may queue an [UnmapNotify] that is handled again, but every
    iteration lowers the potential [pot]. *)
Theorem owen_run_terminates n st :
  xs_handler (cx st) = AppHandler 1 ->
  (heavy * length (xs_queue (cx st)) + client_weight * Z.to_nat (client_count (screen (owen st))) < n)%nat ->
  (exists h, owen_run n st = Halted h) \/ (exists st', owen_run n st = Ok (tt, st') /\ xs_queue (cx st') = []).
Proof.
  intros Hh Hn.
  assert (Hpop : forall st', xs_handler (x_of st') = AppHandler 1 ->
    owen_run_step st' = (match head (xs_queue (x_of st')) with
                  | Some e => owen_dispatch e ;;; ret true
                  | None => ret false
                  end) (with_x (pop_event (x_of st')) st')).
  { intros st' Hh'. unfold owen_run_step. rewrite (bind_ok _ _ _ _ _ (XNextEvent_steady st' Hh')). reflexivity. }
  assert (Hpot : (pot st < n)%nat).
  { unfold pot. cbn [extra x_of CWorld_Potential CWorld_HasX].
    pose proof (qweight_le_length (xs_queue (cx st))). lia. }
  exact (run_terminates owen_run_step owen_run owen_dispatch (fun _ => eq_refl)
           Hpop (keeps_owen_dispatch _) costs_owen_dispatch n st Hh Hpot).
Qed.

(** ** The invariant along runs *)

Lemma owen_ok_create st p w h :
  owen_ok st -> is_Some (xs_windows (cx st) !! p) -> (forall c, managed st !! c <> Some p) ->
  0 < w -> 0 < h -> owen_ok (with_x (client_create p w h (cx st)) st).
Proof.
  intros (Ho & Hr & Hs & Hf) Hp Hnf Hw Hh.
  destruct (frames_ok_client_create _ _ _ p w h Hs Hf Hp Hnf Hw Hh) as (Hr' & Hs' & Hf').
  unfold owen_ok, managed in *. cbn [cx owen with_x CWorld_HasX]. rewrite Hr'. done.
Qed.

(** C1: along every run of the C window manager among other clients,
    from a steady state ([owen_ok] with [_on_x_error] installed), every
    reachable state is steady: the array is well-formed, the framing
    invariant holds, the steady-state error handler is still
    installed, and, when the event at the head of the queue satisfies
    [event_ok], the next iteration of the loop returns normally (no
    exit, no undefined behaviour).  [event_ok] only restricts map
    requests: to an existing window that is not the root, not a client
    and not a frame, with fewer than 256 clients registered and a
    screen that fits one more frame.  The server can send map requests
    outside it, and on those the C code fails: a second request for a
    client breaks the array's uniqueness ([x_on_map_request_managed]),
    and the 257th client is written past the array
    ([owen_clients_add_overflow]). *)
Theorem owen_reachable_ok st0 st :
  owen_ok st0 -> xs_handler (cx st0) = AppHandler 1 -> rtc c_step st0 st ->
  owen_ok st /\ xs_handler (cx st) = AppHandler 1 /\
  ((forall e, head (xs_queue (cx st)) = Some e -> event_ok st e) ->
   exists b st', owen_run_step st = Ok (b, st') /\ c_step st st').
Proof.
  intros Hok Hh Hr.
  destruct (run_rtc_steady cx_with_x owen_run_step event_ok managed owen_ok owen_run_step_ok
              (keeps_owen_run_step _) (fun st x H Hx _ => owen_ok_with_x st x H Hx) owen_ok_create st0 st (conj Hok Hh) Hr)
    as [Hok' Hh'].
  do 2 (split; [done|]). intros Hev.
  destruct (owen_run_step_ok st Hok' Hh' Hev) as (b & st' & Hrun & _).
  exists b, st'. split; [done|]. by apply (run_loop _ _ _ st b st').
Qed.

(** ** Closing the display restores the clients *)

(** The windows created on the window manager's connection are the frames. *)
Definition owns_frames (st : CWorld) : Prop :=
  owns (managed st) (created_windows (xs_log (cx st))) (xstruct (cx st)).

Lemma allocs_owen_frame w b : steps allocs (owen_frame w b).
Proof. unfold owen_frame, get_screen, get_root, owen_clients_add_m. keeps_split. Qed.

Lemma allocs_owen_unframe w : steps allocs (owen_unframe w).
Proof. unfold owen_unframe, get_screen, get_root. keeps_split. Qed.

#[local] Hint Resolve allocs_owen_frame allocs_owen_unframe : keeps.

Lemma allocs_owen_dispatch e : steps allocs (owen_dispatch e).
Proof.
  unfold owen_dispatch, x_on_map_request, x_on_configure_request, x_on_unmap_notify,
    get_screen, get_root.
  cbv zeta. keeps_split.
Qed.

(** What a handler does to the registry and the structure. *)
Lemma owen_dispatch_frames_step st e st' :
  owen_ok st -> event_ok st e -> owen_dispatch e st = Ok (tt, st') ->
  frames_step frame_mask (managed st) (managed st') (xstruct (cx st)) (xstruct (cx st')).
Proof.
  intros Hok He Hd. destruct e as [r|r|u| | | | | | | |]; simpl in He, Hd;
    try (injection Hd as <-; by left).
  - destruct He as (Hw & Hwr & HRw & Hnf & Hcnt & Hfit). pose proof Hok as (_ & Hroot & _).
    simpl in Hw. rewrite lookup_fmap in Hw. apply fmap_is_Some in Hw.
    destruct (owen_frame_map_request st (mr_window r) Hok Hfit Hw Hwr HRw Hnf Hcnt)
      as (st1 & Hrun & _ & Hm1 & Hx1 & _).
    rewrite (x_on_map_request_run _ _ _ Hrun) in Hd. injection Hd as <-.
    right. left. exists (mr_window r). cbn [cx with_x CWorld_HasX]. rewrite XMapWindow_xstruct.
    split_and!; [|done|done|done|done]. simpl. rewrite lookup_fmap. by apply fmap_is_Some.
  - destruct (managed st !! cr_window r) as [f|] eqn:Hw;
      [rewrite (x_on_configure_request_managed _ _ f Hok Hw) in Hd
      |rewrite (x_on_configure_request_unmanaged _ _ Hok Hw) in Hd];
      injection Hd as <-; left; cbn [cx with_x CWorld_HasX]; by rewrite ?XConfigureWindow_xstruct.
  - destruct (managed st !! um_window u) as [f|] eqn:Hw;
      [|rewrite (x_on_unmap_notify_unmanaged _ _ Hok Hw) in Hd; injection Hd as <-; by left].
    destruct (decide (um_event u = root (owen st))) as [Hr|Hr];
      [rewrite (x_on_unmap_notify_root _ _ Hr) in Hd; injection Hd as <-; by left|].
    rewrite (x_on_unmap_notify_client _ _ _ Hok Hw Hr) in Hd.
    destruct (owen_unframe_managed st _ _ Hok Hw) as (st2 & Hrun & _ & Hm2 & _ & Hx2).
    rewrite Hrun in Hd. injection Hd as <-. right. right. by exists (um_window u), f.
Qed.

Lemma owns_frames_with_x st x :
  owns_frames st -> xstruct x = xstruct (cx st) -> xs_log x = xs_log (cx st) -> owns_frames (with_x x st).
Proof. unfold owns_frames. cbn [cx with_x CWorld_HasX managed owen]. by intros ? -> ->. Qed.

(** One iteration of the loop keeps the frames the only windows the
    window manager created. *)
Lemma owns_frames_run_step st b st' :
  owen_ok st -> owns_frames st -> xs_handler (cx st) = AppHandler 1 ->
  (forall e, head (xs_queue (cx st)) = Some e -> event_ok st e) ->
  owen_run_step st = Ok (b, st') -> owns_frames st'.
Proof.
  intros Hok Ho Hh Hev. unfold owen_run_step. rewrite (bind_ok _ _ _ _ _ (XNextEvent_steady st Hh)).
  set (st1 := with_x _ st).
  assert (Hok1 : owen_ok st1) by (apply owen_ok_with_x; [done|reflexivity]).
  assert (Ho1 : owns_frames st1) by (apply owns_frames_with_x; done).
  destruct (head (xs_queue (cx st))) as [e|] eqn:He; [|by intros [= _ <-]].
  destruct (owen_dispatch e st1) as [[[] st2]|h] eqn:Hd;
    [rewrite (bind_ok _ _ _ _ _ Hd); intros [= _ <-]|by rewrite (bind_halt _ _ _ _ Hd)].
  pose proof Hok1 as (_ & _ & Hs1 & Hf1).
  apply (owns_step frame_mask (managed st1) _ _ Hs1 Hf1 Ho1).
  - exact (owen_dispatch_frames_step st1 e st2 Hok1 (Hev e eq_refl) Hd).
  - exact (proj2 (allocs_owen_dispatch e st1 tt st2 Hd)).
Qed.

Lemma owns_frames_create st p w h :
  owen_ok st -> owns_frames st -> is_Some (xs_windows (cx st) !! p) -> 0 < w -> 0 < h ->
  owns_frames (with_x (client_create p w h (cx st)) st).
Proof.
  intros (_ & _ & Hs & _) Ho Hp Hw Hh. unfold owns_frames. cbn [cx with_x CWorld_HasX managed owen].
  rewrite client_create_xstruct by done. by apply owns_create.
Qed.

(** The framing invariant and the ownership of the frames hold along
    every run from a steady state. *)
Lemma owen_reachable_owns st0 st :
  owen_ok st0 -> xs_handler (cx st0) = AppHandler 1 -> owns_frames st0 -> rtc c_step st0 st ->
  owen_ok st /\ owns_frames st.
Proof.
  intros Hok Hh Ho Hr.
  refine (proj1 (run_rtc_steady cx_with_x owen_run_step event_ok managed
                   (fun st => owen_ok st /\ owns_frames st) _ (keeps_owen_run_step _) _ _ st0 st
                   (conj (conj Hok Ho) Hh) Hr)).
  - intros s [Hs Hos] Hhs Hev. destruct (owen_run_step_ok s Hs Hhs Hev) as (b & s' & Hrun & Hs').
    exists b, s'. split_and!; [done|done|]. exact (owns_frames_run_step s b s' Hs Hos Hhs Hev Hrun).
  - intros s x [Hs Hos] Hx Hl. split; [by apply owen_ok_with_x|by apply owns_frames_with_x].
  - intros s p w h [Hs Hos] Hp Hnf Hw Hh'. split; [by apply owen_ok_create|by apply owns_frames_create].
Qed.

(** C14: closing the display at the end of [main] gives every client
    back: along every run from a steady state in which the window
    manager has created no window but its frames, [owen_destroy]
    returns normally, and afterwards every managed client is a mapped
    child of the root at the position its frame's border put it on the
    screen, and its frame is gone (the server's save-set processing,
    which [owen_frame]'s [XAddToSaveSet] asks for). *)
Theorem owen_close_restores st0 st :
  owen_ok st0 -> xs_handler (cx st0) = AppHandler 1 -> owns_frames st0 -> rtc c_step st0 st ->
  exists st', owen_destroy st = Ok (tt, st') /\
  forall c f, managed st !! c = Some f ->
    exists cw fw, xs_windows (cx st) !! c = Some cw /\ xs_windows (cx st) !! f = Some fw /\
      xs_windows (cx st') !! c =
        Some (with_mapped true (with_parent (xs_root (cx st)) (xw_x fw + xw_border_width fw + xw_x cw)
                                  (xw_y fw + xw_border_width fw + xw_y cw) cw)) /\
      xs_windows (cx st') !! f = None.
Proof.
  intros Hok Hh Ho Hr. destruct (owen_reachable_owns st0 st Hok Hh Ho Hr) as ((_ & _ & Hs & Hf) & Ho').
  exists (with_x (XCloseDisplay (cx st)) st). split; [reflexivity|].
  intros c f Hc. exact (close_restores_owns _ _ _ c f Hs Hf Ho' Hc).
Qed.

(** C21: no frame is leaked: along every run from a steady state in
    which the window manager has created no window but its frames
    (heading events satisfying [event_ok]), every window its
    connection created that still exists is the frame of a registered
    client, and of only one.  A frame whose client was unframed is
    destroyed, and no other window is created. *)
Theorem owen_no_leaked_frames st0 st :
  owen_ok st0 -> xs_handler (cx st0) = AppHandler 1 -> owns_frames st0 -> rtc c_step st0 st ->
  forall v, v ∈ created_windows (xs_log (cx st)) -> is_Some (xs_windows (cx st) !! v) ->
    exists c, managed st !! c = Some v /\ forall c', managed st !! c' = Some v -> c' = c.
Proof.
  intros Hok Hh Ho Hr v Hv Hex.
  destruct (owen_reachable_owns st0 st Hok Hh Ho Hr) as ((_ & _ & _ & Hf) & (_ & _ & _ & Hown & _)).
  destruct (Hown v Hv) as [c Hc]; [simpl; rewrite lookup_fmap; by apply fmap_is_Some|].
  exists c. split; [done|]. exact (proj2 (proj2 (frames_ok_distinct _ _ _ Hf c v Hc))).
Qed.
