(* ===== verification/Scenario.v ===== *)
(** * Concrete runs of the C window manager

    The spec's end-to-end scenario (section 8: three clients on a
    1920x1080 screen), run through [owen_main], and the concrete states
    at which the theorems of [OwenC] are instantiated: the world after
    [owen_init] on the scenario's server, the same world after one
    client was framed, a server where another window manager holds the
    root, a world whose array is full, and a run among other clients
    followed by [owen_destroy].  Every state is computed by
    running the model, and every hypothesis is discharged by
    evaluation. *)

From S2P Require Import Prelude Xlib Registry Layout Framing Shutdown Runs OwenC CReach.

(** ** The scenario *)

Definition scenario_client : XWin := mkXWin 1%N 0 0 640 480 0 false false 0 false.

Definition scenario_root : XWin := mkXWin XNone 0 0 1920 1080 0 true false 0 false.

Definition scenario_x0 : XServer :=
  mkXServer 1%N
    (<[1%N := scenario_root]>
     (<[10%N := scenario_client]> (<[11%N := scenario_client]> (<[12%N := scenario_client]> ∅))))
    [10%N; 11%N; 12%N] ∅ 100%N
    [EvMapRequest {| mr_parent := 1; mr_window := 10 |};
     EvMapRequest {| mr_parent := 1; mr_window := 11 |};
     EvMapRequest {| mr_parent := 1; mr_window := 12 |}]
    [] DefaultHandler false false [].

Definition frame_rect (x : XServer) (f : Window) : option Rect :=
  (fun w => mkRect (xw_x w) (xw_y w) (xw_width w) (xw_height w)) <$> xs_windows x !! f.

(** The rectangle of [w] when it is a mapped child of the root. *)
Definition top_rect (x : XServer) (w : Window) : option Rect :=
  match xs_windows x !! w with
  | Some xw => if bool_decide (xw_parent xw = xs_root x) && xw_mapped xw
               then Some (mkRect (xw_x xw) (xw_y xw) (xw_width xw) (xw_height xw)) else None
  | None => None
  end.

(** ** Concrete states *)

(** The state a computation leaves, or the initial one when it halts. *)
Definition after (m : M CWorld unit) (st : CWorld) : CWorld := default st (final m st).

Definition world0 : CWorld := mkCWorld owen0 scenario_x0.

(** After [owen_init]: root 1, a 1920x1080 screen, no client. *)
Definition st_init : CWorld := after owen_init world0.

(** After framing window 10: client 10 in frame 100. *)
Definition st_one : CWorld := after (owen_frame 10 false) st_init.

(** The same server, with another window manager on the root. *)
Definition rival_x0 : XServer :=
  mkXServer (xs_root scenario_x0) (xs_windows scenario_x0) (xs_stack scenario_x0)
    (xs_save_set scenario_x0) (xs_next_id scenario_x0) (xs_queue scenario_x0)
    (xs_errors scenario_x0) (xs_handler scenario_x0) true (xs_grabbed scenario_x0)
    (xs_log scenario_x0).

(** A world whose array holds 256 clients. *)
Definition st_full : CWorld := mkCWorld (mkOwen 1 reg_full_example false) (cx st_init).

Definition unmap_10 : XUnmapEvent := {| um_event := 100; um_window := 10 |}.

Definition configure_10 : XConfigureRequestEvent :=
  {| cr_parent := 100; cr_window := 10; cr_x := 0; cr_y := 0; cr_width := 800; cr_height := 600;
     cr_border_width := 0; cr_above := XNone; cr_detail := 0;
     cr_value_mask := Z.lor CWWidth CWHeight |}.

Definition map_10 : XMapRequestEvent := {| mr_parent := 1; mr_window := 10 |}.

(** ** The scenario, end to end *)

(** The spec's scenario, evaluated.  Running [main] (start-up, the re-scan,
    which skips the three unmapped windows, then the event loop on the
    three queued map requests) registers three clients 10, 11, 12 in
    this order, framed at (0,0,1920,1080), (960,0,960,1080) and
    (960,540,960,540) when the loop returns; [owen_destroy] then closes
    the connection and [main] returns normally: the frames are gone
    and the three clients are mapped children of the root again, each
    at the inside corner of its frame (border 4). *)
Example owen_main_three_clients :
  match (owen_init ;;; owen_reframe ;;; owen_run 10) world0 with
  | Ok (_, st) =>
      client_count (screen (owen st)) = 3 /\
      win <$> live (screen (owen st)) = [10%N; 11%N; 12%N] /\
      (fun c => frame_rect (cx st) (frame c)) <$> live (screen (owen st)) =
        [Some (mkRect 0 0 1920 1080); Some (mkRect 960 0 960 1080); Some (mkRect 960 540 960 540)] /\
      match owen_main (Some scenario_x0) 10 with
      | Ok (_, st') =>
          owen_destroy st = Ok (tt, st') /\
          (fun c => frame_rect (cx st') (frame c)) <$> live (screen (owen st)) = [None; None; None] /\
          (fun c => top_rect (cx st') (win c)) <$> live (screen (owen st)) =
            [Some (mkRect 4 4 640 480); Some (mkRect 964 4 640 480); Some (mkRect 964 544 640 480)]
      | Halted _ => False
      end
  | Halted _ => False
  end.
Proof. vm_compute. repeat split. Qed.

(** ** Witnesses of the theorems of [OwenC] *)

(** A run among other clients: the loop frames client 10, another
    client creates the top-level window 101 (300x200), and the server
    queues its redirected map request. *)
Definition c_reach_1 : CWorld := after (owen_run_step ;;; ret tt) st_init.
Definition c_reach_2 : CWorld := with_x (client_create 1 300 200 (x_of c_reach_1)) c_reach_1.
Definition c_reach_3 : CWorld :=
  with_x (server_event (EvMapRequest {| mr_parent := 1; mr_window := 101 |}) (x_of c_reach_2)) c_reach_2.

(** The run of the scenario: a map request handled, another client's
    window created, a second map request queued. *)
Lemma c_reach_3_reachable : rtc c_step st_init c_reach_3.
Proof.
  apply (rtc_l _ st_init c_reach_1);
    [apply (run_loop owen_run_step event_ok managed st_init true c_reach_1)|].
  { intros e He. vm_compute in He. injection He as <-.
    split; [decide_by_eval|]. split; [decide_by_eval|]. split; [decide_by_eval|].
    split; [apply map_Forall_not_img; decide_by_eval|]. split; decide_by_eval. }
  { vm_compute. reflexivity. }
  apply (rtc_l _ c_reach_1 c_reach_2);
    [apply (run_create owen_run_step event_ok managed c_reach_1 1 300 200); [decide_by_eval| |lia|lia]|].
  { apply map_Forall_not_img. decide_by_eval. }
  apply (rtc_l _ c_reach_2 c_reach_3);
    [apply (run_event owen_run_step event_ok managed c_reach_2)|apply rtc_refl].
Qed.

Lemma owen_reachable_ok_witness :
  owen_ok c_reach_3 /\ xs_handler (cx c_reach_3) = AppHandler 1 /\
  ((forall e, head (xs_queue (cx c_reach_3)) = Some e -> event_ok c_reach_3 e) ->
   exists b st', owen_run_step c_reach_3 = Ok (b, st') /\ c_step c_reach_3 st').
Proof.
  apply (owen_reachable_ok st_init c_reach_3); [decide_by_eval|reflexivity|apply c_reach_3_reachable].
Defined.

(** At start-up the window manager has created no window. *)
Lemma owns_frames_st_init : owns_frames st_init.
Proof.
  unfold owns_frames. assert (Hc : created_windows (xs_log (cx st_init)) = []) by (vm_compute; reflexivity).
  rewrite Hc. split_and!; [by apply not_elem_of_nil| |by intros ? ?%elem_of_nil|by intros ? ?%elem_of_nil|].
  - intros pm Hpm. vm_compute in Hpm. injection Hpm as <-. reflexivity.
  - intros c f Hcf. vm_compute in Hcf. discriminate.
Qed.

(** Closing the display after the scenario's run, in which client 10
    was framed. *)
Lemma owen_close_restores_witness :
  exists st', owen_destroy c_reach_3 = Ok (tt, st') /\
  forall c f, managed c_reach_3 !! c = Some f ->
    exists cw fw, xs_windows (cx c_reach_3) !! c = Some cw /\ xs_windows (cx c_reach_3) !! f = Some fw /\
      xs_windows (cx st') !! c =
        Some (with_mapped true (with_parent (xs_root (cx c_reach_3)) (xw_x fw + xw_border_width fw + xw_x cw)
                                  (xw_y fw + xw_border_width fw + xw_y cw) cw)) /\
      xs_windows (cx st') !! f = None.
Proof.
  apply (owen_close_restores st_init c_reach_3);
    [decide_by_eval|reflexivity|exact owns_frames_st_init|exact c_reach_3_reachable].
Defined.

Lemma x_on_map_request_frames_witness :
  exists st', x_on_map_request map_10 st_init = Ok (tt, st') /\ owen_ok st' /\
    managed st' = <[mr_window map_10 := xs_next_id (cx st_init)]> (managed st_init).
Proof.
  apply x_on_map_request_frames; try decide_by_eval.
  apply map_Forall_not_img; decide_by_eval.
Defined.

Lemma x_on_unmap_notify_spec_witness :
  exists st', x_on_unmap_notify unmap_10 st_one = Ok (tt, st') /\ owen_ok st' /\
    match managed st_one !! um_window unmap_10 with
    | Some _ =>
        if bool_decide (um_event unmap_10 = root (owen st_one)) then st' = st_one
        else managed st' = delete (um_window unmap_10) (managed st_one)
    | None => st' = st_one
    end.
Proof. apply x_on_unmap_notify_spec. decide_by_eval. Defined.

Lemma x_on_configure_request_spec_witness :
  x_on_configure_request configure_10 st_one =
    Ok (tt, with_x (XConfigureWindow (cr_window configure_10) (cr_value_mask configure_10)
                      (changes_of configure_10)
                      (match managed st_one !! cr_window configure_10 with
                       | Some f => XConfigureWindow f (cr_value_mask configure_10)
                                     (changes_of configure_10) (cx st_one)
                       | None => cx st_one
                       end)) st_one).
Proof. apply x_on_configure_request_spec. decide_by_eval. Defined.

Lemma owen_frame_requests_witness :
  exists st', owen_frame 10 false st_init = Ok (tt, st') /\
    xs_log (cx st') = xs_log (cx st_init) ++
      [RqCreateWindow 100 1 0 0 1920 1080 BORDER_WIDTH;
       RqSelectInput 100 frame_mask; RqChangeSaveSet 10 true;
       RqReparentWindow 10 100 0 0; RqMapWindow 100].
Proof. apply (owen_frame_requests st_init 10); decide_by_eval. Defined.

Lemma owen_unframe_requests_witness :
  exists st', owen_unframe 10 st_one = Ok (tt, st') /\
    xs_log (cx st') = xs_log (cx st_one) ++
      [RqUnmapWindow 100; RqReparentWindow 10 1 0 0;
       RqChangeSaveSet 10 false; RqDestroyWindow 100].
Proof. apply (owen_unframe_requests st_one 10 100); decide_by_eval. Defined.

Lemma owen_init_rival_witness :
  owen_init (mkCWorld owen0 rival_x0) = Halted (Exit (-1)).
Proof. apply owen_init_rival; [reflexivity|decide_by_eval]. Defined.

Lemma owen_init_ok_witness :
  exists st', owen_init world0 = Ok (tt, st') /\
    root (owen st') = 1%N /\ wm_detected (owen st') = false /\
    xs_handler (cx st') = AppHandler 1 /\
    screen (owen st') = mkOwenScreen 0 1080 1920 0 (clients (screen owen0)) /\
    mask_of (cx st') 1 = Some root_mask.
Proof. apply (owen_init_ok world0 scenario_root); reflexivity. Defined.

Lemma x_on_map_request_managed_witness :
  exists st', x_on_map_request map_10 st_one = Ok (tt, st') /\
    managed st' !! mr_window map_10 = Some 100%N /\ ~ owen_screen_ok (screen (owen st')).
Proof. apply x_on_map_request_managed; decide_by_eval. Defined.

Lemma owen_frame_full_witness :
  owen_frame 10 false st_full = Halted (Undefined "clients[client_count] written past the array").
Proof. apply owen_frame_full; decide_by_eval. Defined.

Lemma owen_unframe_unmanaged_witness :
  owen_unframe 10 st_init = Halted (Undefined "clients[-1] read").
Proof. apply owen_unframe_unmanaged; decide_by_eval. Defined.

Lemma owen_frame_skips_preexisting_witness :
  owen_frame 10 true world0 = Ok (tt, world0).
Proof. apply (owen_frame_skips_preexisting world0 10 scenario_client); [reflexivity|right; decide_by_eval]. Defined.

Lemma owen_frame_preexisting_vanished_witness :
  owen_frame 42 true world0 = Halted (Undefined "x_window_attrs read uninitialised").
Proof. apply owen_frame_preexisting_vanished. reflexivity. Defined.

Lemma x_on_map_unmap_roundtrip_witness :
  exists st1 st2, x_on_map_request map_10 st_init = Ok (tt, st1) /\
    x_on_unmap_notify {| um_event := xs_next_id (cx st_init); um_window := mr_window map_10 |} st1
      = Ok (tt, st2) /\
    live (screen (owen st2)) = live (screen (owen st_init)) /\
    client_count (screen (owen st2)) = client_count (screen (owen st_init)) /\
    xstruct (cx st2) = st_bump (xstruct (cx st_init)).
Proof.
  assert (E : xs_save_set (cx st_init) = ∅) by (vm_compute; reflexivity).
  apply (x_on_map_unmap_roundtrip st_init map_10 scenario_client);
    first [reflexivity | decide_by_eval | apply map_Forall_not_img; decide_by_eval
          | rewrite E; set_solver].
Defined.

Lemma owen_run_in_order_witness :
  owen_run 2 st_init =
  dispatch_all owen_dispatch [EvMapRequest map_10; EvMapRequest {| mr_parent := 1; mr_window := 11 |}] st_init.
Proof.
  apply (owen_run_in_order [EvMapRequest map_10; EvMapRequest {| mr_parent := 1; mr_window := 11 |}]);
    [reflexivity|].
  exists [EvMapRequest {| mr_parent := 1; mr_window := 12 |}]. vm_compute. reflexivity.
Defined.

Lemma owen_run_terminates_witness :
  (exists h, owen_run 49 st_init = Halted h) \/
  (exists st', owen_run 49 st_init = Ok (tt, st') /\ xs_queue (cx st') = []).
Proof. apply owen_run_terminates; [reflexivity|apply Nat.ltb_lt; vm_compute; reflexivity]. Defined.

(** No frame is leaked along the scenario's run among other clients:
    window 100, created by the window manager, is the frame of one
    client. *)
Lemma owen_no_leaked_frames_witness :
  100%N ∈ created_windows (xs_log (cx c_reach_3)) /\ is_Some (xs_windows (cx c_reach_3) !! 100%N) /\
  exists c, managed c_reach_3 !! c = Some 100%N /\ forall c', managed c_reach_3 !! c' = Some 100%N -> c' = c.
Proof.
  assert (Hv : 100%N ∈ created_windows (xs_log (cx c_reach_3))) by decide_by_eval.
  assert (Hx : is_Some (xs_windows (cx c_reach_3) !! 100%N)) by decide_by_eval.
  split; [exact Hv|]. split; [exact Hx|].
  exact (owen_no_leaked_frames st_init c_reach_3 ltac:(decide_by_eval) eq_refl owns_frames_st_init
           c_reach_3_reachable 100%N Hv Hx).
Defined.
