(* ===== verification/CppState.v ===== *)
(** * The state of the C++ [WindowManager]

    [class WindowManager] ([src/owen.hpp]) holds the display, the root
    window [root_], the client registry [clients_]
    ([std::unordered_map<Window, Window>], client -> frame), the six
    [int] members of the drag session, and the static flag
    [wm_detected_].  The drag members are never initialised by the
    constructor ([src/owen.cpp], lines 21-24): they are [option Z]
    here, [None] standing for an indeterminate value, whose read is
    undefined behaviour.

    [map_subscript] is [unordered_map::operator[]]: reading an absent
    key inserts it with a value-initialised [Window] (0, Xlib's
    [None]).  [WindowManager::Create] is [Create]. *)

From S2P Require Import Prelude Xlib.

Record WindowManager := mkWindowManager {
  root_ : Window;
  clients_ : gmap Window Window;
  drag_start_pos_x : option Z;
  drag_start_pos_y : option Z;
  drag_start_frame_pos_x : option Z;
  drag_start_frame_pos_y : option Z;
  drag_start_frame_height : option Z;
  drag_start_frame_width : option Z
}.

(** The process: the [WindowManager] instance, the static
    [wm_detected_], and the display connection. *)
Record CppWorld := mkCppWorld { wm : WindowManager; wm_detected_ : bool; cppx : XServer }.

#[export] Instance CppWorld_HasX : HasX CppWorld := {
  x_of := cppx;
  with_x x st := mkCppWorld (wm st) (wm_detected_ st) x
}.

Definition set_wm (m : WindowManager) (st : CppWorld) : CppWorld :=
  mkCppWorld m (wm_detected_ st) (cppx st).

Definition set_wm_detected_ (b : bool) (st : CppWorld) : CppWorld :=
  mkCppWorld (wm st) b (cppx st).

Definition set_clients_ (c : gmap Window Window) (m : WindowManager) : WindowManager :=
  mkWindowManager (root_ m) c (drag_start_pos_x m) (drag_start_pos_y m)
    (drag_start_frame_pos_x m) (drag_start_frame_pos_y m)
    (drag_start_frame_height m) (drag_start_frame_width m).

Definition modify_clients_ (f : gmap Window Window -> gmap Window Window) : M CppWorld unit :=
  modify (fun st => set_wm (set_clients_ (f (clients_ (wm st))) (wm st)) st).

Definition get_root_ : M CppWorld Window := gets (fun st => root_ (wm st)).

(** [clients_.count(w)] (0 or 1: a [bool] in the tests). *)
Definition clients_count (w : Window) : M CppWorld bool :=
  gets (fun st => bool_decide (is_Some (clients_ (wm st) !! w))).

(** [unordered_map::operator[](k)]: the value, or a value-initialised
    one inserted under [k]. *)
Definition map_subscript (k : Window) (m : gmap Window Window) : Window * gmap Window Window :=
  match m !! k with
  | Some v => (v, m)
  | None => (XNone, <[k := XNone]> m)
  end.

(** [clients_[w]] as an expression. *)
Definition clients_subscript (w : Window) : M CppWorld Window :=
  fun st => let p := map_subscript w (clients_ (wm st)) in
            Ok (p.1, set_wm (set_clients_ p.2 (wm st)) st).

(** [WindowManager(display)]: [root_(DefaultRootWindow(display_))]; the
    map is empty and the drag members are left uninitialised. *)
Definition WindowManager_ctor (x : XServer) : WindowManager :=
  mkWindowManager (xs_root x) ∅ None None None None None None.

(** [WindowManager::Create()]: [XOpenDisplay] returned [dpy]; [None]
    ([nullptr]) on failure.  [wm_detected_] is a static [bool]:
    zero-initialised. *)
Definition Create (dpy : option XServer) : option CppWorld :=
  match dpy with
  | None => None
  | Some x => Some (mkCppWorld (WindowManager_ctor x) false x)
  end.

(** ** Lemmas *)

Lemma map_subscript_Some k m v : m !! k = Some v -> map_subscript k m = (v, m).
Proof. unfold map_subscript. by intros ->. Qed.

Lemma map_subscript_None k m : m !! k = None -> map_subscript k m = (XNone, <[k := XNone]> m).
Proof. unfold map_subscript. by intros ->. Qed.

Lemma set_wm_eta st : set_wm (wm st) st = st.
Proof. by destruct st. Qed.

Lemma set_clients_eta m : set_clients_ (clients_ m) m = m.
Proof. by destruct m. Qed.

Lemma clients_subscript_run_Some st w f :
  clients_ (wm st) !! w = Some f -> clients_subscript w st = Ok (f, st).
Proof.
  intros Hw. unfold clients_subscript. rewrite (map_subscript_Some _ _ _ Hw). simpl.
  by rewrite set_clients_eta, set_wm_eta.
Qed.

Lemma bind_clients_subscript_Some {B} st w f (k : Window -> M CppWorld B) :
  clients_ (wm st) !! w = Some f -> bind (clients_subscript w) k st = k f st.
Proof. intros Hw. by apply bind_ok, clients_subscript_run_Some. Qed.

Lemma bind_clients_count {B} st w (k : bool -> M CppWorld B) :
  bind (clients_count w) k st = k (bool_decide (is_Some (clients_ (wm st) !! w))) st.
Proof. reflexivity. Qed.

Lemma bind_clients_subscript_None {B} st w (k : Window -> M CppWorld B) :
  clients_ (wm st) !! w = None ->
  bind (clients_subscript w) k st =
    k XNone (set_wm (set_clients_ (<[w := XNone]> (clients_ (wm st))) (wm st)) st).
Proof. intros Hw. apply bind_ok. unfold clients_subscript. by rewrite (map_subscript_None _ _ Hw). Qed.
