(* ===== verification/Drag.v ===== *)
(** * The drag controller of the C++ [WindowManager]

    [OnButtonPress] ([src/owen.cpp], lines 288-316) records the pointer
    position and the geometry of the pressed client's frame, and raises
    the frame; [OnMotionNotify] (lines 232-248) moves the frame by the
    pointer's displacement while button 1 is held.  Before a motion
    event is handled, [Run] drains the queued motion events of the same
    window and keeps the last (line 110): [coalesce_motion].

    The arithmetic is on 32-bit [int]: [c_sub]/[c_add] are undefined on
    overflow, and the [unsigned] width and height are converted to
    [int] by [to_int32].  Reading a drag member before any button press
    is undefined ([None]).

    Theorems: the motion loop is equivalent to a reference definition
    (the last motion event of the window, the others left in order)
    with the queue length as its bound; a drag moves the frame to its
    position at the press plus the pointer's displacement, without
    overflow for X coordinates (16-bit); the handlers' behaviour on
    windows that are not clients. *)

From S2P Require Import Prelude Xlib CppState.

(** ** Operations *)

Definition set_drag_start_pos (x y : Z) (m : WindowManager) : WindowManager :=
  mkWindowManager (root_ m) (clients_ m) (Some x) (Some y)
    (drag_start_frame_pos_x m) (drag_start_frame_pos_y m)
    (drag_start_frame_height m) (drag_start_frame_width m).

Definition set_drag_start_frame (x y h w : Z) (m : WindowManager) : WindowManager :=
  mkWindowManager (root_ m) (clients_ m) (drag_start_pos_x m) (drag_start_pos_y m)
    (Some x) (Some y) (Some h) (Some w).

Definition modify_wm (f : WindowManager -> WindowManager) : M CppWorld unit :=
  modify (fun st => set_wm (f (wm st)) st).

(** [WindowManager::OnButtonPress].  [XGetGeometry] on a window that
    does not exist leaves [x], [y], [width], [height] uninitialised. *)
Definition OnButtonPress (e : XButtonEvent) : M CppWorld unit :=
  frame <- clients_subscript (be_window e) ;;
  modify_wm (set_drag_start_pos (be_x_root e) (be_y_root e)) ;;;
  g <- xcall (XGetGeometry frame) ;;
  geo <- defined g "XGetGeometry outputs read uninitialised" ;;
  modify_wm (set_drag_start_frame (g_x geo) (g_y geo)
               (to_int32 (g_height geo)) (to_int32 (g_width geo))) ;;;
  xdo (XRaiseWindow frame).

(** [WindowManager::OnMotionNotify]. *)
Definition OnMotionNotify (e : XMotionEvent) : M CppWorld unit :=
  frame <- clients_subscript (me_window e) ;;
  m <- gets wm ;;
  sx <- defined (drag_start_pos_x m) "drag_start_pos_x read uninitialised" ;;
  sy <- defined (drag_start_pos_y m) "drag_start_pos_y read uninitialised" ;;
  delta_x <- defined (c_sub (me_x_root e) sx) "signed overflow in delta_x" ;;
  delta_y <- defined (c_sub (me_y_root e) sy) "signed overflow in delta_y" ;;
  if has_mask (me_state e) Button1Mask then
    fx <- defined (drag_start_frame_pos_x m) "drag_start_frame_pos_x read uninitialised" ;;
    fy <- defined (drag_start_frame_pos_y m) "drag_start_frame_pos_y read uninitialised" ;;
    new_x <- defined (c_add fx delta_x) "signed overflow in new_x" ;;
    new_y <- defined (c_add fy delta_y) "signed overflow in new_y" ;;
    xdo (XMoveWindow frame new_x new_y)
  else ret tt.

(** [while (XCheckTypedWindowEvent(display_, e.xmotion.window,
    MotionNotify, &e)) {}], at most [fuel] iterations.  A queued event
    of type [MotionNotify] is a motion event (an [EvOther] never
    matches a window other than [None]). *)
Fixpoint coalesce_motion (fuel : nat) (e : XMotionEvent) : M CppWorld XMotionEvent :=
  match fuel with
  | O => ret e
  | S f =>
    oe <- xcall (XCheckTypedWindowEvent (me_window e) MotionNotify) ;;
    match oe with
    | Some (EvMotionNotify e') => coalesce_motion f e'
    | _ => ret e
    end
  end.

(** The loop as [Run] executes it: every check removes an event, so
    the length of the queue bounds the iterations. *)
Definition drain_motion (e : XMotionEvent) : M CppWorld XMotionEvent :=
  n <- gets (fun st => length (xs_queue (cppx st))) ;;
  coalesce_motion (S n) e.

(** ** The reference for the motion loop *)

Definition is_motion_of (w : Window) (ev : XEvent) : bool :=
  bool_decide (xany_window ev = w) && (event_type ev =? MotionNotify).

(** The last queued motion event of [w], or [e] when there is none. *)
Fixpoint last_motion (w : Window) (e : XMotionEvent) (q : list XEvent) : XMotionEvent :=
  match q with
  | [] => e
  | ev :: q' =>
    last_motion w (match ev with
                   | EvMotionNotify m => if is_motion_of w ev then m else e
                   | _ => e
                   end) q'
  end.

Definition other_events (w : Window) (q : list XEvent) : list XEvent :=
  filter (fun ev => is_motion_of w ev = false) q.

(** ** Lemmas *)

Lemma take_typed_none w q :
  take_typed_window_event w MotionNotify q = None -> Forall (fun ev => is_motion_of w ev = false) q.
Proof.
  induction q as [|ev q IH]; simpl; [constructor|].
  unfold is_motion_of at 1. destruct (_ && _) eqn:Hm; [discriminate|].
  destruct (take_typed_window_event _ _ q) as [[]|]; [discriminate|]. intros. constructor; auto.
Qed.

Lemma take_typed_some w q ev q' :
  take_typed_window_event w MotionNotify q = Some (ev, q') ->
  exists pre post, q = pre ++ ev :: post /\ q' = pre ++ post /\
    Forall (fun ev => is_motion_of w ev = false) pre /\ is_motion_of w ev = true.
Proof.
  revert q'. induction q as [|ev0 q IH]; intros q'; simpl; [discriminate|].
  unfold is_motion_of at 1. destruct (_ && _) eqn:Hm.
  - intros [= <- <-]. exists [], q. split; [done|]. split; [done|]. by split.
  - destruct (take_typed_window_event _ _ q) as [[ev1 q1]|] eqn:Ht; [|discriminate].
    intros [= <- <-]. destruct (IH q1 eq_refl) as (pre & post & -> & -> & Hpre & Hev).
    exists (ev0 :: pre), post. split; [done|]. split; [done|].
    split; [by constructor|done].
Qed.

Lemma last_motion_skip w e pre q :
  Forall (fun ev => is_motion_of w ev = false) pre -> last_motion w e (pre ++ q) = last_motion w e q.
Proof.
  induction 1 as [|ev pre Hev _ IH]; [done|]. simpl. rewrite Hev. by destruct ev.
Qed.

Lemma other_events_skip w pre q :
  Forall (fun ev => is_motion_of w ev = false) pre -> other_events w (pre ++ q) = pre ++ other_events w q.
Proof.
  induction 1 as [|ev pre Hev _ IH]; [done|]. unfold other_events in *.
  rewrite <-app_comm_cons, filter_cons_True by done. by rewrite IH.
Qed.

(** A queued event that the check for [w]'s motion events returns is a
    motion event of [w]. *)
Lemma is_motion_of_inv w ev :
  w <> XNone -> is_motion_of w ev = true -> exists m, ev = EvMotionNotify m /\ me_window m = w.
Proof.
  intros Hw. unfold is_motion_of. rewrite andb_true_iff, bool_decide_eq_true, Z.eqb_eq.
  destruct ev; simpl; intros [Hx Ht]; try (vm_compute in Ht; discriminate); try congruence; eauto.
Qed.

Lemma set_queue_eta x : set_queue (xs_queue x) x = x.
Proof. by destruct x. Qed.

Lemma with_x_cppx st : with_x (cppx st) st = st.
Proof. by destruct st. Qed.

(** ** Theorems *)

(** The loop with more iterations than queued events. *)
Theorem coalesce_motion_spec n st e :
  me_window e <> XNone -> (length (xs_queue (cppx st)) < n)%nat ->
  coalesce_motion n e st =
    Ok (last_motion (me_window e) e (xs_queue (cppx st)),
        with_x (set_queue (other_events (me_window e) (xs_queue (cppx st))) (cppx st)) st).
Proof.
  revert st e. induction n as [|n IH]; intros st e Hw Hn; [lia|].
  cbn [coalesce_motion]. rewrite bind_xcall. simpl x_of. unfold XCheckTypedWindowEvent.
  destruct (take_typed_window_event _ _ _) as [[ev q']|] eqn:Ht; simpl.
  - destruct (take_typed_some _ _ _ _ Ht) as (pre & post & Eq & -> & Hpre & Hev).
    destruct (is_motion_of_inv _ _ Hw Hev) as (m & -> & Hm).
    change (x_of st) with (cppx st) in Eq. rewrite Eq in Hn |- *.
    rewrite IH; [| by rewrite Hm | simpl; rewrite !length_app in *; simpl in Hn; lia].
    simpl. rewrite Hm, !last_motion_skip, !other_events_skip by done. simpl. rewrite Hev.
    unfold other_events at 2. rewrite filter_cons_False by (rewrite Hev; discriminate).
    reflexivity.
  - apply take_typed_none in Ht.
    rewrite <-(app_nil_r (xs_queue (cppx st))), last_motion_skip, other_events_skip, app_nil_r by done.
    destruct st as [m b x]. simpl. by rewrite set_queue_eta.
Qed.

(** C29: the motion loop of [Run] terminates and coalesces: it returns
    the last queued motion event of the window (or the event itself
    when there is none), removes exactly the window's motion events
    from the queue and leaves every other event in order.  Nothing else
    changes. *)
Theorem drain_motion_spec st e :
  me_window e <> XNone ->
  drain_motion e st =
    Ok (last_motion (me_window e) e (xs_queue (cppx st)),
        with_x (set_queue (other_events (me_window e) (xs_queue (cppx st))) (cppx st)) st).
Proof.
  intros Hw. unfold drain_motion. rewrite bind_gets. apply coalesce_motion_spec; [done|simpl; lia].
Qed.

(** ** The handlers *)

(** X coordinates are 16-bit ([INT16] in the protocol). *)
Definition int16 (z : Z) : Prop := - 2 ^ 15 <= z < 2 ^ 15.

#[export] Instance int16_dec z : Decision (int16 z).
Proof. unfold int16. apply _. Defined.

(** A press on a client records the pointer and the frame's geometry,
    then raises the frame. *)
Lemma OnButtonPress_client st e f fw :
  clients_ (wm st) !! be_window e = Some f -> xs_windows (cppx st) !! f = Some fw ->
  OnButtonPress e st =
    Ok (tt, with_x (XRaiseWindow f (cppx st))
              (set_wm (set_drag_start_frame (xw_x fw) (xw_y fw)
                         (to_int32 (xw_height fw)) (to_int32 (xw_width fw))
                         (set_drag_start_pos (be_x_root e) (be_y_root e) (wm st))) st)).
Proof.
  intros Hw Hf. unfold OnButtonPress, modify_wm.
  rewrite (bind_clients_subscript_Some _ _ _ _ Hw). mrun. simpl.
  unfold XGetGeometry. rewrite Hf. mrun. reflexivity.
Qed.

(** A motion with button 1 held moves the client's frame by the
    pointer's displacement since the press; for 16-bit coordinates no
    intermediate [int] overflows. *)
Lemma OnMotionNotify_move st e f sx sy fx fy :
  clients_ (wm st) !! me_window e = Some f ->
  drag_start_pos_x (wm st) = Some sx -> drag_start_pos_y (wm st) = Some sy ->
  drag_start_frame_pos_x (wm st) = Some fx -> drag_start_frame_pos_y (wm st) = Some fy ->
  int16 (me_x_root e) -> int16 (me_y_root e) -> int16 sx -> int16 sy -> int16 fx -> int16 fy ->
  has_mask (me_state e) Button1Mask = true ->
  OnMotionNotify e st =
    Ok (tt, with_x (XMoveWindow f (fx + (me_x_root e - sx)) (fy + (me_y_root e - sy)) (cppx st)) st).
Proof.
  unfold int16. intros Hw Hsx Hsy Hfx Hfy ? ? ? ? ? ? Hb. unfold OnMotionNotify.
  rewrite (bind_clients_subscript_Some _ _ _ _ Hw). mrun.
  rewrite Hsx, Hsy. mrun.
  rewrite !c_sub_ok by (unfold INT_MIN, INT_MAX; lia). mrun.
  rewrite Hb, Hfx, Hfy. mrun.
  rewrite !c_add_ok by (unfold INT_MIN, INT_MAX; lia). mrun. reflexivity.
Qed.

(** C28: a drag: a press of button 1 on a client followed by a motion
    with button 1 held moves the client's frame to its position at the
    press plus the pointer's displacement, after raising it; with
    16-bit coordinates no [int] arithmetic overflows. *)
Theorem drag_moves_frame st b m f fw :
  clients_ (wm st) !! be_window b = Some f -> me_window m = be_window b ->
  xs_windows (cppx st) !! f = Some fw ->
  int16 (be_x_root b) -> int16 (be_y_root b) -> int16 (me_x_root m) -> int16 (me_y_root m) ->
  int16 (xw_x fw) -> int16 (xw_y fw) ->
  has_mask (me_state m) Button1Mask = true ->
  exists st', (OnButtonPress b ;;; OnMotionNotify m) st = Ok (tt, st') /\
    cppx st' = XMoveWindow f (xw_x fw + (me_x_root m - be_x_root b))
                 (xw_y fw + (me_y_root m - be_y_root b)) (XRaiseWindow f (cppx st)) /\
    clients_ (wm st') = clients_ (wm st).
Proof.
  intros Hw Hm Hf ? ? ? ? ? ? Hb.
  erewrite bind_ok; [|by apply OnButtonPress_client].
  erewrite OnMotionNotify_move; [eexists; split; [reflexivity|done]|..]; simpl; rewrite ?Hm; done.
Qed.

(** C30: [clients_[e.window]] inserts: a motion event for a window
    that is not a client (with the drag members set, in range) returns
    normally and leaves the registry mapping that window to frame 0
    ([None]), which is no window. *)
Theorem OnMotionNotify_nonclient st e sx sy fx fy :
  clients_ (wm st) !! me_window e = None ->
  drag_start_pos_x (wm st) = Some sx -> drag_start_pos_y (wm st) = Some sy ->
  drag_start_frame_pos_x (wm st) = Some fx -> drag_start_frame_pos_y (wm st) = Some fy ->
  int16 (me_x_root e) -> int16 (me_y_root e) -> int16 sx -> int16 sy -> int16 fx -> int16 fy ->
  exists st', OnMotionNotify e st = Ok (tt, st') /\
    clients_ (wm st') = <[me_window e := XNone]> (clients_ (wm st)).
Proof.
  unfold int16. intros Hw Hsx Hsy Hfx Hfy ? ? ? ? ? ?. unfold OnMotionNotify.
  rewrite (bind_clients_subscript_None _ _ _ Hw). mrun. simpl. rewrite Hsx, Hsy. mrun.
  rewrite !c_sub_ok by (unfold INT_MIN, INT_MAX; lia). mrun.
  destruct (has_mask (me_state e) Button1Mask).
  - rewrite Hfx, Hfy. mrun. rewrite !c_add_ok by (unfold INT_MIN, INT_MAX; lia). mrun.
    by eexists.
  - by eexists.
Qed.

(** C31: a button press on a window that is not a client (the root or
    a frame, both of which select [ButtonPressMask]) makes
    [clients_[e.window]] 0; [XGetGeometry] on window 0 fails and the
    handler then reads the uninitialised geometry: undefined
    behaviour. *)
Theorem OnButtonPress_nonclient st e :
  clients_ (wm st) !! be_window e = None -> xs_windows (cppx st) !! XNone = None ->
  OnButtonPress e st = Halted (Undefined "XGetGeometry outputs read uninitialised").
Proof.
  intros Hw H0. unfold OnButtonPress, modify_wm.
  rewrite (bind_clients_subscript_None _ _ _ Hw). mrun. simpl.
  unfold XGetGeometry. rewrite H0. mrun. reflexivity.
Qed.

(** The loop's result has every property that [e] and every queued
    motion event of the window have. *)
Lemma last_motion_P w e q (P : XMotionEvent -> Prop) :
  P e ->
  Forall (fun ev => match ev with
                    | EvMotionNotify m => is_motion_of w ev = true -> P m
                    | _ => True end) q ->
  P (last_motion w e q).
Proof.
  intros He Hq. revert e He. induction Hq as [|ev q Hev _ IH]; intros e He; [done|].
  simpl. apply IH. destruct ev; try done. destruct (is_motion_of w _) eqn:Hm; auto.
Qed.
