(* ===== verification/OwenCpp.v ===== *)
(** * The C++ window manager ([src/owen.cpp])

    The methods of [WindowManager] that change state, in the monad [M]
    over [CppWorld]: [Frame] (a frame at (50,50) with the client's size,
    selecting button presses too, with a passive grab of button 1 on
    the client), [Unframe], the handlers [OnMapRequest],
    [OnConfigureRequest], [OnUnmapNotify] (with [OnButtonPress] and
    [OnMotionNotify] of [Drag]), the error handlers [OnWMDetected] and
    [OnXError], and [Run] split into its start-up handshake
    ([Run_init]), the re-scan ([Run_reframe]) and the event loop
    ([Run_step], [Run_loop]), and the destructor
    [WindowManager_dtor].  glog's [CHECK]s halt with
    [CheckFailed]; [Run] returns (it does not exit) when another window
    manager is detected.

    The framing invariant is [frames_ok] of [Framing] for [clients_]
    and the mask [cpp_frame_mask].  A map request followed by the unmap
    of the new client on its frame gives [clients_] and the server's
    structure back, up to the frame id consumed.  No handler changes
    the installed error handler ([keeps] of [Prelude], from the Xlib
    calls each handler makes), and every handler but the motion one
    only appends to the queue, so [n] iterations of the loop dispatch
    the [n] events at the head of the queue in order when none of them
    is a motion event. *)

From S2P Require Import Prelude Xlib Framing Shutdown Runs CppState Drag.

(** ** Error handlers (lines 318-329) *)

Definition OnWMDetected (error_code : Z) : M CppWorld Z :=
  if error_code =? BadAccess
  then modify (set_wm_detected_ true) ;;; ret 0
  else stop (CheckFailed "static_cast<int>(e->error_code) == BadAccess").

Definition OnXError (error_code : Z) : M CppWorld Z := ret 0.

(** [OnWMDetected] is installed as [AppHandler 0], [OnXError] as
    [AppHandler 1]. *)
Definition cpp_handlers (h : XErrorHandler) (code : Z) : M CppWorld Z :=
  match h with
  | AppHandler 0 => OnWMDetected code
  | AppHandler 1 => OnXError code
  | _ => default_error_handler code
  end.

(** ** Framing (lines 152-230, 269-286) *)

Definition cpp_frame_mask : Z :=
  Z.lor (Z.lor SubstructureRedirectMask SubstructureNotifyMask) ButtonPressMask.

(** [WindowManager::Frame(w, was_created_before_window_manager)];
    [BORDER_WIDTH] 4, [BORDER_COLOR] [0xff5a5f], [BG_COLOR]
    [0xbfd7ea]. *)
Definition Frame (w : Window) (was_created_before_window_manager : bool) : M CppWorld unit :=
  a <- xcall (XGetWindowAttributes w) ;;
  x_window_attrs <- check a "XGetWindowAttributes(display_, w, &x_window_attrs)" ;;
  if was_created_before_window_manager &&
     (wa_override_redirect x_window_attrs || negb (wa_map_state x_window_attrs =? IsViewable))
  then ret tt else
  r <- get_root_ ;;
  frame <- xcall (XCreateSimpleWindow r 50 50 (wa_width x_window_attrs) (wa_height x_window_attrs)
                    4 0xff5a5f 0xbfd7ea) ;;
  xdo (XSelectInput frame cpp_frame_mask) ;;;
  xdo (XGrabButton w) ;;;
  xdo (XAddToSaveSet w) ;;;
  xdo (XReparentWindow w frame 0 0) ;;;
  xdo (XMapWindow frame) ;;;
  modify_clients_ (<[w := frame]>).

(** [WindowManager::Unframe(w)]. *)
Definition Unframe (w : Window) : M CppWorld unit :=
  frame <- clients_subscript w ;;
  xdo (XUnmapWindow frame) ;;;
  r <- get_root_ ;;
  xdo (XReparentWindow w r 0 0) ;;;
  xdo (XRemoveFromSaveSet w) ;;;
  xdo (XDestroyWindow frame) ;;;
  modify_clients_ (delete w).

(** ** Event handlers (lines 122-150, 250-267) *)

Definition OnMapRequest (e : XMapRequestEvent) : M CppWorld unit :=
  Frame (mr_window e) false ;;;
  xdo (XMapWindow (mr_window e)).

(** The [XWindowChanges] built from the request (lines 127-135). *)
Definition changes_of_request (e : XConfigureRequestEvent) : XWindowChanges :=
  {| wc_x := cr_x e; wc_y := cr_y e; wc_width := cr_width e; wc_height := cr_height e;
     wc_border_width := cr_border_width e; wc_sibling := cr_above e;
     wc_stack_mode := cr_detail e |}.

Definition OnConfigureRequest (e : XConfigureRequestEvent) : M CppWorld unit :=
  let changes := changes_of_request e in
  c <- clients_count (cr_window e) ;;
  (if c then frame <- clients_subscript (cr_window e) ;;
             xdo (XConfigureWindow frame (cr_value_mask e) changes)
   else ret tt) ;;;
  xdo (XConfigureWindow (cr_window e) (cr_value_mask e) changes).

Definition OnUnmapNotify (e : XUnmapEvent) : M CppWorld unit :=
  c <- clients_count (um_window e) ;;
  if negb c then ret tt else
  r <- get_root_ ;;
  if bool_decide (um_event e = r) then ret tt else
  Unframe (um_window e).

(** ** [WindowManager::Run] (lines 30-120) *)

Definition cpp_root_mask : Z :=
  Z.lor (Z.lor SubstructureRedirectMask SubstructureNotifyMask) ButtonPressMask.

(** Steps 1 and b: the rival check; [false] when [Run] returns. *)
Definition Run_init : M CppWorld bool :=
  modify (set_wm_detected_ false) ;;;
  _ <- xcall (XSetErrorHandler (AppHandler 0)) ;;
  r <- get_root_ ;;
  xdo (XSelectInput r cpp_root_mask) ;;;
  XSync cpp_handlers ;;;
  det <- gets wm_detected_ ;;
  if det then ret false else
  _ <- xcall (XSetErrorHandler (AppHandler 1)) ;;
  ret true.

(** Steps c and d: the re-scan under a server grab. *)
Definition Run_reframe : M CppWorld unit :=
  xdo XGrabServer ;;;
  r <- get_root_ ;;
  q <- xcall (XQueryTree r) ;;
  tree <- check q "XQueryTree(display_, root_, ...)" ;;
  let '(returned_root, _, top_level_windows) := tree in
  (if bool_decide (returned_root = r) then ret tt
   else stop (CheckFailed "returned_root == root_")) ;;;
  mfor top_level_windows (fun w => Frame w true) ;;;
  xdo XUngrabServer.

(** The [switch] of the loop; the empty handlers do nothing. *)
Definition Run_dispatch (e : XEvent) : M CppWorld unit :=
  match e with
  | EvConfigureRequest r => OnConfigureRequest r
  | EvMapRequest r => OnMapRequest r
  | EvButtonPress b => OnButtonPress b
  | EvMotionNotify m => m' <- drain_motion m ;; OnMotionNotify m'
  | EvUnmapNotify u => OnUnmapNotify u
  | EvCreateNotify _ _ | EvDestroyNotify _ _ | EvReparentNotify _ _ _
  | EvMapNotify _ _ | EvConfigureNotify _ _ | EvOther _ => ret tt
  end.

(** One iteration of [for (;;)]: [false] when [XNextEvent] would block. *)
Definition Run_step : M CppWorld bool :=
  oe <- XNextEvent cpp_handlers ;;
  match oe with
  | None => ret false
  | Some e => Run_dispatch e ;;; ret true
  end.

Fixpoint Run_loop (fuel : nat) : M CppWorld unit :=
  match fuel with
  | O => ret tt
  | S f => more <- Run_step ;; if more then Run_loop f else ret tt
  end.

(** [Run], with [fuel] iterations of the event loop. *)
Definition Run (fuel : nat) : M CppWorld unit :=
  ok <- Run_init ;;
  if ok then Run_reframe ;;; Run_loop fuel else ret tt.

(** [Create()] then [Run()]; [nullptr] from [Create] is [None]. *)
Definition cpp_main (dpy : option XServer) (fuel : nat) : option (res (unit * CppWorld)) :=
  (fun st => Run fuel st) <$> Create dpy.

(** [WindowManager::~WindowManager] (lines 26-28), run when [main]'s
    [unique_ptr] goes out of scope: [XCloseDisplay(display_)]. *)
Definition WindowManager_dtor : M CppWorld unit := xdo XCloseDisplay.

(** ** The invariant *)

Definition cpp_ok (st : CppWorld) : Prop :=
  root_ (wm st) = xs_root (cppx st) /\ struct_ok (xstruct (cppx st)) /\
  frames_ok cpp_frame_mask (clients_ (wm st)) (xstruct (cppx st)).

#[export] Instance cpp_ok_dec st : Decision (cpp_ok st).
Proof. unfold cpp_ok. apply _. Defined.

(** ** Running the operations *)

Lemma XGetWindowAttributes_some x w ww :
  xs_windows x !! w = Some ww ->
  exists a, XGetWindowAttributes w x = (Some a, x) /\
    wa_width a = xw_width ww /\ wa_height a = xw_height ww /\
    wa_override_redirect a = xw_override_redirect ww /\ wa_map_state a = map_state x w ww.
Proof. intros Hw. unfold XGetWindowAttributes. rewrite Hw. by eexists. Qed.

(** The requests of [Frame], from [XCreateSimpleWindow] to
    [XMapWindow(frame)]. *)
Definition cpp_frame_requests (rt w : Window) (ww : XWin) (x : XServer) : XServer :=
  let f := xs_next_id x in
  XMapWindow f (XReparentWindow w f 0 0 (XAddToSaveSet w (XGrabButton w
    (XSelectInput f cpp_frame_mask
       (XCreateSimpleWindow rt 50 50 (xw_width ww) (xw_height ww) 4 0xff5a5f 0xbfd7ea x).2)))).

Lemma Frame_new_run st w ww :
  xs_windows (cppx st) !! w = Some ww ->
  Frame w false st =
    Ok (tt, set_wm (set_clients_ (<[w := xs_next_id (cppx st)]> (clients_ (wm st))) (wm st))
              (with_x (cpp_frame_requests (root_ (wm st)) w ww (cppx st)) st)).
Proof.
  intros Hw. destruct (XGetWindowAttributes_some _ _ _ Hw) as (a & Ha & Hwd & Hht & _).
  unfold Frame, get_root_, modify_clients_. mrun. cbn [x_of CppWorld_HasX]. rewrite Ha.
  cbn [fst snd andb]. mrun.
  cbn [wm cppx with_x x_of CppWorld_HasX]. rewrite Hwd, Hht, XCreateSimpleWindow_result.
  unfold cpp_frame_requests. cbn [wm wm_detected_ cppx with_x x_of CppWorld_HasX]. reflexivity.
Qed.

Lemma cpp_frame_requests_xstruct x w ww :
  struct_ok (xstruct x) -> xs_windows x !! w = Some ww -> 0 < xw_width ww -> 0 < xw_height ww ->
  xstruct (cpp_frame_requests (xs_root x) w ww x) = st_frame cpp_frame_mask w (xstruct x).
Proof.
  intros Hs Hw ? ?. apply (frame_seq_xstruct (XGrabButton w)); [apply XGrabButton_xstruct|done|by eexists|done|done].
Qed.

(** Requests that leave the window structure alone keep the invariant. *)
Lemma cpp_ok_with_x st x :
  cpp_ok st -> xstruct x = xstruct (cppx st) -> cpp_ok (with_x x st).
Proof.
  intros (Hr & Hs & Hf) Hx. unfold cpp_ok; simpl.
  by rewrite (xs_root_xstruct x), Hx, <-xs_root_xstruct.
Qed.

(** So do changes of the drag members. *)
Lemma cpp_ok_set_wm st m :
  cpp_ok st -> root_ m = root_ (wm st) -> clients_ m = clients_ (wm st) -> cpp_ok (set_wm m st).
Proof. intros (Hr & Hs & Hf) H1 H2. unfold cpp_ok; simpl. by rewrite H1, H2. Qed.

(** [Frame] of a new window on a map request: the call returns, the
    window is registered with a fresh frame, and the invariant holds. *)
Lemma Frame_new_ok st w ww :
  cpp_ok st -> xs_windows (cppx st) !! w = Some ww -> 0 < xw_width ww -> 0 < xw_height ww ->
  w <> xs_root (cppx st) -> clients_ (wm st) !! w = None ->
  (forall c, clients_ (wm st) !! c <> Some w) ->
  exists st', Frame w false st = Ok (tt, st') /\ cpp_ok st' /\
    clients_ (wm st') = <[w := xs_next_id (cppx st)]> (clients_ (wm st)).
Proof.
  intros (Hroot & Hs & Hf) Hw Hwd Hht Hwr HRw Hnf.
  rewrite (Frame_new_run st w ww Hw). eexists. split; [reflexivity|]. split; [|done].
  unfold cpp_ok. cbn [set_wm set_clients_ wm cppx clients_ root_ with_x x_of CppWorld_HasX].
  rewrite Hroot, (xs_root_xstruct (cpp_frame_requests _ _ _ _)), cpp_frame_requests_xstruct by done.
  split; [done|]. apply frames_ok_frame; [done|done| |by rewrite <-xs_root_xstruct|done|done].
  simpl. rewrite lookup_fmap, Hw. by eexists.
Qed.

(** [Unframe] of a client with frame [f]: its requests, in order, and
    the client erased. *)
Lemma Unframe_run st w f :
  clients_ (wm st) !! w = Some f ->
  Unframe w st =
    Ok (tt, set_wm (set_clients_ (delete w (clients_ (wm st))) (wm st))
              (with_x (XDestroyWindow f (XRemoveFromSaveSet w
                 (XReparentWindow w (root_ (wm st)) 0 0 (XUnmapWindow f (cppx st))))) st)).
Proof.
  intros Hw. unfold Unframe, get_root_, modify_clients_.
  rewrite (bind_clients_subscript_Some _ _ _ _ Hw). mrun. reflexivity.
Qed.

(** [Unframe] of a client: the call returns, the client is forgotten,
    the structure is [st_unframe], and the invariant holds. *)
Lemma Unframe_managed st w f :
  cpp_ok st -> clients_ (wm st) !! w = Some f ->
  exists st', Unframe w st = Ok (tt, st') /\ cpp_ok st' /\
    clients_ (wm st') = delete w (clients_ (wm st)) /\
    xstruct (cppx st') = st_unframe w f (xstruct (cppx st)).
Proof.
  intros (Hroot & Hs & Hf) Hw. rewrite (Unframe_run st w f Hw).
  eexists. split; [reflexivity|].
  unfold cpp_ok. cbn [set_wm set_clients_ wm cppx clients_ root_ with_x x_of CppWorld_HasX].
  rewrite Hroot, (xs_root_xstruct (XDestroyWindow _ _)),
    (unframe_requests_xstruct cpp_frame_mask (clients_ (wm st))) by done.
  split; [split; [done|by apply frames_ok_unframe]|done].
Qed.

(** ** The event handlers *)

Lemma OnMapRequest_run st e st1 :
  Frame (mr_window e) false st = Ok (tt, st1) ->
  OnMapRequest e st = Ok (tt, with_x (XMapWindow (mr_window e) (cppx st1)) st1).
Proof. intros Hrun. unfold OnMapRequest. by rewrite (bind_ok _ _ _ _ _ Hrun). Qed.

(** C23: a map request for an existing window of positive size that is
    not the root, not a client and not a frame returns normally; the
    window is registered with the next window id as its frame, and the
    framing invariant holds afterwards.  Unlike the C array, the
    [unordered_map] has no capacity limit. *)
Theorem OnMapRequest_frames st e ww :
  cpp_ok st -> xs_windows (cppx st) !! mr_window e = Some ww ->
  0 < xw_width ww -> 0 < xw_height ww -> mr_window e <> xs_root (cppx st) ->
  clients_ (wm st) !! mr_window e = None -> (forall c, clients_ (wm st) !! c <> Some (mr_window e)) ->
  exists st', OnMapRequest e st = Ok (tt, st') /\ cpp_ok st' /\
    clients_ (wm st') = <[mr_window e := xs_next_id (cppx st)]> (clients_ (wm st)).
Proof.
  intros. destruct (Frame_new_ok st (mr_window e) ww) as (st1 & Hrun & Hok1 & Hc1); try done.
  eexists. split; [by apply OnMapRequest_run|].
  split; [apply cpp_ok_with_x; [done|apply XMapWindow_xstruct]|done].
Qed.

(** The unmap handler keeps the invariant, on every branch. *)
Lemma OnUnmapNotify_ok st e :
  cpp_ok st -> exists st', OnUnmapNotify e st = Ok (tt, st') /\ cpp_ok st'.
Proof.
  intros Hok. unfold OnUnmapNotify, get_root_. rewrite bind_clients_count.
  destruct (clients_ (wm st) !! um_window e) as [f|] eqn:Hw.
  - rewrite bool_decide_true by by eexists. simpl. mrun. case_bool_decide; [by eexists|].
    destruct (Unframe_managed st _ f Hok Hw) as (st' & ? & ? & _). eauto.
  - rewrite bool_decide_false by (intros [? ?]; congruence). simpl. mrun. by eexists.
Qed.

(** C25: an unmap notification whose event window is the root never
    unframes, for any window, managed or not: the state is
    unchanged. *)
Theorem OnUnmapNotify_root st e :
  um_event e = root_ (wm st) -> OnUnmapNotify e st = Ok (tt, st).
Proof.
  intros He. unfold OnUnmapNotify, get_root_. rewrite bind_clients_count.
  case_bool_decide; simpl; mrun; [|done]. by rewrite bool_decide_true.
Qed.

(** An unmap of a client reported on another window than the root is
    [Unframe]. *)
Lemma OnUnmapNotify_client st e f :
  clients_ (wm st) !! um_window e = Some f -> um_event e <> root_ (wm st) ->
  OnUnmapNotify e st = Unframe (um_window e) st.
Proof.
  intros Hw He. unfold OnUnmapNotify, get_root_. rewrite bind_clients_count.
  rewrite bool_decide_true by by eexists. simpl. mrun. by rewrite bool_decide_false.
Qed.

(** C24: an unmap of a client reported on another window than the root
    unframes it: the call returns, the client is removed from
    [clients_], and the invariant holds. *)
Theorem OnUnmapNotify_unframes st e f :
  cpp_ok st -> clients_ (wm st) !! um_window e = Some f -> um_event e <> root_ (wm st) ->
  exists st', OnUnmapNotify e st = Ok (tt, st') /\ cpp_ok st' /\
    clients_ (wm st') = delete (um_window e) (clients_ (wm st)).
Proof.
  intros Hok Hw He. rewrite (OnUnmapNotify_client st e f Hw He).
  by destruct (Unframe_managed st _ f Hok Hw) as (st' & ? & ? & ? & _); eauto.
Qed.

(** The configure handler on both branches. *)
Lemma OnConfigureRequest_run st e :
  OnConfigureRequest e st =
    Ok (tt, with_x (XConfigureWindow (cr_window e) (cr_value_mask e) (changes_of_request e)
                      (match clients_ (wm st) !! cr_window e with
                       | Some f => XConfigureWindow f (cr_value_mask e) (changes_of_request e) (cppx st)
                       | None => cppx st
                       end)) st).
Proof.
  unfold OnConfigureRequest. rewrite bind_clients_count.
  destruct (clients_ (wm st) !! cr_window e) as [f|] eqn:Hw.
  - rewrite bool_decide_true by by eexists. mrun.
    rewrite (bind_clients_subscript_Some _ _ _ _ Hw). mrun. reflexivity.
  - rewrite bool_decide_false by (intros [? ?]; congruence). mrun. reflexivity.
Qed.

(** The configure handler issues, for a client, the request's
    changes with its value mask first to the client's frame and then to
    the client; for another window, only to the window.  The registry
    is unchanged. *)
Theorem OnConfigureRequest_requests st e :
  exists st', OnConfigureRequest e st = Ok (tt, st') /\ clients_ (wm st') = clients_ (wm st) /\
    xs_log (cppx st') = xs_log (cppx st) ++
      (match clients_ (wm st) !! cr_window e with
       | Some f => [RqConfigureWindow f (cr_value_mask e) (changes_of_request e)]
       | None => []
       end) ++ [RqConfigureWindow (cr_window e) (cr_value_mask e) (changes_of_request e)].
Proof.
  rewrite OnConfigureRequest_run. eexists. split; [reflexivity|]. split; [done|].
  cbn [with_x x_of CppWorld_HasX cppx]. rewrite XConfigureWindow_log.
  destruct (clients_ (wm st) !! cr_window e); [|done].
  by rewrite XConfigureWindow_log, <-app_assoc.
Qed.

(** C27: [Frame] on a map request issues, in this order: create the
    frame at (50,50) with the client's size and border 4, select
    redirect, notify and button-press events on it, grab button 1 on
    the client, add the client to the save set, reparent it into the
    frame at (0,0), map the frame. *)
Theorem Frame_requests st w ww :
  xs_windows (cppx st) !! w = Some ww ->
  let f := xs_next_id (cppx st) in
  exists st', Frame w false st = Ok (tt, st') /\
    xs_log (cppx st') = xs_log (cppx st) ++
      [RqCreateWindow f (root_ (wm st)) 50 50 (xw_width ww) (xw_height ww) 4;
       RqSelectInput f cpp_frame_mask; RqGrabButton w; RqChangeSaveSet w true;
       RqReparentWindow w f 0 0; RqMapWindow f].
Proof.
  intros Hw f. rewrite (Frame_new_run st w ww Hw). eexists. split; [reflexivity|].
  cbn [set_wm with_x x_of CppWorld_HasX cppx]. unfold cpp_frame_requests. cbv zeta.
  rewrite XMapWindow_log, XReparentWindow_log, XAddToSaveSet_log, XGrabButton_log,
    XSelectInput_log, XCreateSimpleWindow_log.
  by rewrite <-!app_assoc.
Qed.

(** The structure after [OnMapRequest] of an existing window. *)
Lemma OnMapRequest_xstruct st e ww :
  cpp_ok st -> xs_windows (cppx st) !! mr_window e = Some ww -> 0 < xw_width ww -> 0 < xw_height ww ->
  exists st', OnMapRequest e st = Ok (tt, st') /\
    clients_ (wm st') = <[mr_window e := xs_next_id (cppx st)]> (clients_ (wm st)) /\
    xstruct (cppx st') = st_frame cpp_frame_mask (mr_window e) (xstruct (cppx st)) /\
    root_ (wm st') = root_ (wm st).
Proof.
  intros (Hroot & Hs & Hf) Hw ? ?.
  rewrite (OnMapRequest_run st e _ (Frame_new_run st _ ww Hw)). eexists. split; [reflexivity|].
  split; [done|]. cbn [set_wm with_x x_of CppWorld_HasX cppx wm root_].
  by rewrite XMapWindow_xstruct, Hroot, cpp_frame_requests_xstruct.
Qed.

(** C37: round trip.  A map request for a new top-level window frames
    it; the client's later unmap, reported on its frame, unframes it.
    Afterwards [clients_] is what it was before, and so is the window
    structure (parents, masks, save set), but for the frame's id,
    which stays consumed; the client is back under the root at
    (0,0), where [Unframe]'s [XReparentWindow] put it. *)
Theorem map_unmap_roundtrip st e ww :
  cpp_ok st -> xs_windows (cppx st) !! mr_window e = Some ww -> 0 < xw_width ww -> 0 < xw_height ww ->
  mr_window e <> xs_root (cppx st) -> xw_parent ww = xs_root (cppx st) ->
  mr_window e ∉ xs_save_set (cppx st) ->
  (forall v, v ∈ xs_save_set (cppx st) -> is_Some (xs_windows (cppx st) !! v)) ->
  clients_ (wm st) !! mr_window e = None -> (forall c, clients_ (wm st) !! c <> Some (mr_window e)) ->
  exists st1 st2, OnMapRequest e st = Ok (tt, st1) /\
    OnUnmapNotify {| um_event := xs_next_id (cppx st); um_window := mr_window e |} st1 = Ok (tt, st2) /\
    clients_ (wm st2) = clients_ (wm st) /\ xstruct (cppx st2) = st_bump (xstruct (cppx st)) /\
    exists cw, xs_windows (cppx st2) !! mr_window e = Some cw /\ xw_x cw = 0 /\ xw_y cw = 0.
Proof.
  intros Hok Hw Hwd Hht Hwr Hpar Hsave Hsv HRw Hnf.
  destruct (OnMapRequest_xstruct st e ww Hok Hw Hwd Hht) as (st1 & Hrun1 & Hc1 & Hx1 & Hr1).
  pose proof Hok as (Hroot & Hs & Hf).
  assert (Hwt : is_Some (st_wins (xstruct (cppx st)) !! mr_window e))
    by (simpl; rewrite lookup_fmap, Hw; by eexists).
  destruct (frames_ok_frame cpp_frame_mask _ _ Hs Hf (mr_window e)) as [Hs1 Hf1];
    [done|by rewrite <-xs_root_xstruct|done|done|].
  assert (Hok1 : cpp_ok st1).
  { unfold cpp_ok. rewrite Hr1, Hroot, (xs_root_xstruct (cppx st1)), Hx1, Hc1. by split. }
  assert (Hfr : xs_next_id (cppx st) <> root_ (wm st1)).
  { rewrite Hr1, Hroot. pose proof (struct_ok_lt _ Hs _ (proj1 Hs)). simpl in *. lia. }
  assert (Hc1w : clients_ (wm st1) !! mr_window e = Some (xs_next_id (cppx st)))
    by (rewrite Hc1; apply lookup_insert_eq).
  destruct (Unframe_managed st1 _ _ Hok1 Hc1w) as (st2 & Hrun2 & _ & Hc2 & Hx2).
  exists st1, st2. split; [done|]. split; [by rewrite (OnUnmapNotify_client st1 {| um_event := xs_next_id (cppx st); um_window := mr_window e |} _ Hc1w Hfr)|].
  split; [by rewrite Hc2, Hc1, delete_insert_id|].
  assert (Hxs2 : xstruct (cppx st2) = st_bump (xstruct (cppx st))).
  { rewrite Hx2, Hx1. apply st_unframe_frame; [exact Hs| | |].
    - unfold sparent. simpl. rewrite lookup_fmap, Hw. simpl. by rewrite Hpar.
    - done.
    - intros v Hv. simpl. rewrite lookup_fmap. destruct (Hsv v Hv) as [? ->]. by eexists. }
  split; [exact Hxs2|].
  pose proof Hok1 as (Hroot1 & [[rp Hrp] _] & Hf1').
  destruct (Hf1' _ _ Hc1w) as (_ & Hfr1 & _ & Hpw1 & _).
  destruct (sparent_exists _ _ _ Hpw1) as [pm1 Hw1]. simpl in Hw1. rewrite lookup_fmap in Hw1.
  destruct (xs_windows (cppx st1) !! mr_window e) as [ww1|] eqn:Hww1; [|discriminate].
  assert (Hwf : mr_window e <> xs_next_id (cppx st)).
  { pose proof (struct_ok_lt _ Hs (mr_window e) Hwt). simpl in *. lia. }
  rewrite (Unframe_run st1 _ _ Hc1w) in Hrun2. apply Ok_state_inj in Hrun2. subst st2.
  cbn [cppx with_x CppWorld_HasX set_wm].
  assert (Hrt : is_Some (xs_windows (XUnmapWindow (xs_next_id (cppx st)) (cppx st1)) !! root_ (wm st1))).
  { rewrite XUnmapWindow_lookup_ne by (rewrite Hroot1; exact (not_eq_sym Hfr1)).
    rewrite Hroot1. simpl in Hrp. rewrite lookup_fmap in Hrp. apply fmap_Some in Hrp as (? & -> & _). by eexists. }
  pose proof (XReparentWindow_lookup (mr_window e) (root_ (wm st1)) 0 0
                (XUnmapWindow (xs_next_id (cppx st)) (cppx st1)) ww1) as Hrep.
  rewrite XUnmapWindow_lookup_ne in Hrep by done. specialize (Hrep Hww1 Hrt).
  destruct (XDestroyWindow_lookup_ne (xs_next_id (cppx st)) (mr_window e)
              (XRemoveFromSaveSet (mr_window e)
                 (XReparentWindow (mr_window e) (root_ (wm st1)) 0 0
                    (XUnmapWindow (xs_next_id (cppx st)) (cppx st1))))) as [E|E]; [done| |].
  - rewrite E, XRemoveFromSaveSet_windows, Hrep by (rewrite Hr1, Hroot; exact (not_eq_sym Hwr)). by eexists.
  - exfalso. apply (f_equal (fun t => st_wins t !! mr_window e)) in Hxs2.
    cbn [cppx with_x CppWorld_HasX set_wm] in Hxs2. simpl in Hxs2. rewrite !lookup_fmap, E, Hw in Hxs2. discriminate.
Qed.

(** C32: a map request for a window that is already a client is not
    refused: [clients_[w] = frame] replaces its frame by a new one, and
    the old frame is leaked: it still exists, has no child any more,
    and no client refers to it. *)
Theorem OnMapRequest_managed st e ww f0 :
  cpp_ok st -> xs_windows (cppx st) !! mr_window e = Some ww ->
  0 < xw_width ww -> 0 < xw_height ww -> clients_ (wm st) !! mr_window e = Some f0 ->
  exists st', OnMapRequest e st = Ok (tt, st') /\
    clients_ (wm st') !! mr_window e = Some (xs_next_id (cppx st)) /\
    is_Some (st_wins (xstruct (cppx st')) !! f0) /\
    (forall v, sparent (xstruct (cppx st')) v <> Some f0) /\
    (forall c, clients_ (wm st') !! c <> Some f0).
Proof.
  intros Hok Hw Hwd Hht H0. pose proof Hok as (_ & Hs & Hf).
  destruct (OnMapRequest_xstruct st e ww Hok Hw Hwd Hht) as (st' & Hrun & Hc & Hx & _).
  exists st'. split; [done|]. rewrite Hc, Hx. split; [by rewrite lookup_insert_eq|].
  set (t := xstruct (cppx st)) in *. set (w := mr_window e) in *.
  destruct (frames_ok_distinct _ _ _ Hf w f0 H0) as (Hwf & _ & Huniq).
  destruct (Hf w f0 H0) as (Hpf & Hfr & Hwr & Hpw & _ & _ & Hone).
  assert (Hw' : is_Some (st_wins t !! w)) by exact (sparent_exists t w f0 Hpw).
  assert (Hf0 : is_Some (st_wins t !! f0)) by exact (sparent_exists t f0 _ Hpf).
  assert (Hf0n : (f0 < st_next t)%N) by (by apply (struct_ok_lt t Hs)).
  pose proof (fun v => st_frame_lookup cpp_frame_mask t Hs w v Hw') as Hlk.
  pose proof Hf0n as Hf0n'. change (st_next t) with (xs_next_id (cppx st)) in Hf0n'.
  split; [|split].
  - rewrite Hlk, decide_False, decide_False by lia. done.
  - intros v. unfold sparent. rewrite Hlk.
    destruct (decide (v = w)) as [->|Hvw].
    + destruct Hw' as [pm ->]. intros [= Heq]. lia.
    + destruct (decide (v = st_next t)); [intros [= Heq]; apply Hfr; by rewrite <-Heq|].
      intros Hv. by apply Hvw, Hone.
  - intros c. destruct (decide (c = w)) as [->|Hcw].
    + rewrite lookup_insert_eq. intros [= ?]. lia.
    + rewrite lookup_insert_ne by done. intros Hc'. by apply Hcw, Huniq.
Qed.

(** C35: unlike the C code, [Frame] checks the status of
    [XGetWindowAttributes]: framing a window that does not exist is a
    failed [CHECK], whatever the flag. *)
Theorem Frame_vanished st w b :
  xs_windows (cppx st) !! w = None ->
  Frame w b st = Halted (CheckFailed "XGetWindowAttributes(display_, w, &x_window_attrs)").
Proof.
  intros Hw. unfold Frame. mrun. cbn [x_of CppWorld_HasX]. unfold XGetWindowAttributes.
  rewrite Hw. cbn [fst snd]. mrun. reflexivity.
Qed.

(** ** Start-up *)

(** Delivering one pending error to the installed handler. *)
Definition cpp_deliver_one (code : Z) : M CppWorld unit :=
  h <- gets (fun s => xs_handler (x_of s)) ;;
  _ <- cpp_handlers h code ;;
  ret tt.

Ltac fold_cpp_deliver :=
  match goal with |- context [mfor ?l ?b] => change b with cpp_deliver_one end.

Lemma cpp_deliver_steady errs st :
  xs_handler (cppx st) = AppHandler 1 -> mfor errs cpp_deliver_one st = Ok (tt, st).
Proof.
  intros Hh. induction errs as [|e errs IH]; [done|].
  rewrite mfor_cons. unfold cpp_deliver_one. mrun. simpl. rewrite Hh. simpl. mrun. exact IH.
Qed.

(** During the handshake every access error raises [wm_detected_]. *)
Lemma cpp_deliver_detect errs st :
  xs_handler (cppx st) = AppHandler 0 -> Forall (fun c => c = BadAccess) errs ->
  mfor errs cpp_deliver_one st =
    Ok (tt, set_wm_detected_ (wm_detected_ st || negb (bool_decide (errs = []))) st).
Proof.
  revert st. induction errs as [|e errs IH]; intros st Hh Hall.
  - simpl. rewrite orb_false_r. by destruct st.
  - inversion Hall as [|? ? He Hall']; subst e.
    rewrite mfor_cons. unfold cpp_deliver_one. mrun. simpl. rewrite Hh. simpl.
    unfold OnWMDetected. rewrite Z.eqb_refl. mrun. rewrite IH by done. simpl.
    by rewrite orb_true_r.
Qed.

(** Any other error during the handshake fails [OnWMDetected]'s
    [CHECK_EQ]. *)
Lemma cpp_deliver_check c errs st :
  xs_handler (cppx st) = AppHandler 0 -> c <> BadAccess ->
  mfor (c :: errs) cpp_deliver_one st =
    Halted (CheckFailed "static_cast<int>(e->error_code) == BadAccess").
Proof.
  intros Hh Hc. rewrite mfor_cons. unfold cpp_deliver_one. mrun. simpl. rewrite Hh. simpl.
  unfold OnWMDetected. rewrite (proj2 (Z.eqb_neq _ _) Hc). mrun. reflexivity.
Qed.

(** [XSelectInput] on the root during the handshake, with and without
    a rival. *)
Lemma XSelectInput_root_rival x m :
  xs_rival_redirect x = true -> is_Some (xs_windows x !! xs_root x) -> has_mask m SubstructureRedirectMask = true ->
  XSelectInput (xs_root x) m x = x_error BadAccess (log (RqSelectInput (xs_root x) m) x).
Proof.
  intros Hr Hw Hm. unfold XSelectInput, win_exists. simpl.
  rewrite bool_decide_true by done. simpl. by rewrite Hm, bool_decide_true, Hr.
Qed.

(** C33: when another window manager holds the root, [Run] detects it
    through the access error and returns: nothing is framed, no server
    grab is taken, and the only request issued is the [XSelectInput]
    on the root.  (The C code exits with -1 instead.) *)
Theorem Run_rival st fuel :
  xs_rival_redirect (cppx st) = true -> root_ (wm st) = xs_root (cppx st) ->
  is_Some (xs_windows (cppx st) !! xs_root (cppx st)) -> xs_errors (cppx st) = [] ->
  exists st', Run fuel st = Ok (tt, st') /\ wm_detected_ st' = true /\
    clients_ (wm st') = clients_ (wm st) /\
    xs_log (cppx st') = xs_log (cppx st) ++ [RqSelectInput (xs_root (cppx st)) cpp_root_mask].
Proof.
  intros Hr Hroot Hw He. unfold Run, Run_init, XSync, deliver_errors, get_root_. mrun.
  cbn [x_of with_x CppWorld_HasX cppx wm set_wm_detected_ XSetErrorHandler fst snd]. rewrite Hroot.
  fold_cpp_deliver.
  rewrite (XSelectInput_root_rival (set_handler (AppHandler 0) (cppx st))) by done.
  match goal with |- context [bind (mfor ?l cpp_deliver_one) ?k ?s] =>
    assert (Hd : mfor l cpp_deliver_one s =
                   Ok (tt, set_wm_detected_ (wm_detected_ s || negb (bool_decide (l = []))) s))
      by (apply cpp_deliver_detect; [done|cbn; rewrite He; by repeat constructor]);
    rewrite (bind_ok _ _ _ _ _ Hd) end.
  mrun. cbn. rewrite He. cbn. mrun. eexists. split; [reflexivity|]. done.
Qed.

(** C34: an error other than an access error pending at the handshake
    fails [OnWMDetected]'s [CHECK_EQ] and aborts [Run]; the spec says
    such errors are ignored during the handshake. *)
Theorem Run_init_check st fuel c errs :
  xs_errors (cppx st) = c :: errs -> c <> BadAccess -> root_ (wm st) = xs_root (cppx st) ->
  is_Some (xs_windows (cppx st) !! xs_root (cppx st)) ->
  Run fuel st = Halted (CheckFailed "static_cast<int>(e->error_code) == BadAccess").
Proof.
  intros He Hc Hroot Hw. unfold Run, Run_init, XSync, deliver_errors, get_root_. mrun.
  cbn [x_of with_x CppWorld_HasX cppx wm set_wm_detected_ XSetErrorHandler fst snd]. rewrite Hroot.
  fold_cpp_deliver.
  assert (E : exists l, xs_errors (XSelectInput (xs_root (cppx st)) cpp_root_mask
                                     (set_handler (AppHandler 0) (cppx st))) = c :: l).
  { unfold XSelectInput, win_exists, x_error. simpl. rewrite bool_decide_true by done.
    simpl. destruct (_ && _); simpl; rewrite He; eauto. }
  destruct E as [l ->]. apply bind_halt, cpp_deliver_check; [|done].
  cbn. by rewrite XSelectInput_handler.
Qed.

(** ** One iteration of the event loop *)

Lemma cpp_XNextEvent_steady st :
  xs_handler (cppx st) = AppHandler 1 ->
  XNextEvent cpp_handlers st =
    Ok (head (xs_queue (cppx st)),
        with_x (set_queue (tail (xs_queue (cppx st))) (set_errors [] (cppx st))) st).
Proof.
  intros Hh. unfold XNextEvent, deliver_errors. mrun.
  fold_cpp_deliver. rewrite bind_ok with (a := tt) (s' := with_x (set_errors [] (x_of st)) st)
    by (apply cpp_deliver_steady; done).
  mrun. simpl. destruct (xs_queue (cppx st)) eqn:Eq; simpl; [|done].
  destruct st as [m b []]. simpl in *. by subst.
Qed.

(** A client's frame exists. *)
Lemma cpp_frame_exists st w f :
  cpp_ok st -> clients_ (wm st) !! w = Some f -> exists fw, xs_windows (cppx st) !! f = Some fw.
Proof.
  intros (_ & Hs & Hf) Hw. destruct (Hf w f Hw) as (Hpf & _).
  apply sparent_exists in Hpf. simpl in Hpf. rewrite lookup_fmap in Hpf.
  apply fmap_is_Some in Hpf as [fw ?]. eauto.
Qed.

Lemma OnButtonPress_ok st e :
  cpp_ok st -> is_Some (clients_ (wm st) !! be_window e) ->
  exists st', OnButtonPress e st = Ok (tt, st') /\ cpp_ok st'.
Proof.
  intros Hok [f Hw]. destruct (cpp_frame_exists st _ f Hok Hw) as [fw Hfw].
  rewrite (OnButtonPress_client st e f fw Hw Hfw). eexists. split; [reflexivity|].
  apply cpp_ok_with_x; [by apply cpp_ok_set_wm|apply XRaiseWindow_xstruct].
Qed.

(** The drag members are set, to 16-bit values. *)
Definition drag_ok (m : WindowManager) : Prop :=
  exists sx sy fx fy,
    drag_start_pos_x m = Some sx /\ drag_start_pos_y m = Some sy /\
    drag_start_frame_pos_x m = Some fx /\ drag_start_frame_pos_y m = Some fy /\
    int16 sx /\ int16 sy /\ int16 fx /\ int16 fy.

Lemma OnMotionNotify_ok st e :
  cpp_ok st -> is_Some (clients_ (wm st) !! me_window e) -> drag_ok (wm st) ->
  int16 (me_x_root e) -> int16 (me_y_root e) ->
  exists st', OnMotionNotify e st = Ok (tt, st') /\ cpp_ok st'.
Proof.
  intros Hok [f Hw] (sx & sy & fx & fy & Hsx & Hsy & Hfx & Hfy & ? & ? & ? & ?) ? ?.
  destruct (has_mask (me_state e) Button1Mask) eqn:Hb.
  - rewrite (OnMotionNotify_move st e f sx sy fx fy) by done. eexists. split; [reflexivity|].
    apply cpp_ok_with_x; [done|apply XMoveWindow_xstruct].
  - unfold int16 in *. unfold OnMotionNotify.
    rewrite (bind_clients_subscript_Some _ _ _ _ Hw). mrun. rewrite Hsx, Hsy. mrun.
    rewrite !c_sub_ok by (unfold INT_MIN, INT_MAX; lia). mrun. rewrite Hb. mrun. by eexists.
Qed.

(** The queued motion events of [w] have 16-bit coordinates. *)
Definition motion16 (w : Window) (ev : XEvent) : Prop :=
  match ev with
  | EvMotionNotify m => is_motion_of w ev = true -> int16 (me_x_root m) /\ int16 (me_y_root m)
  | _ => True
  end.

(** The guard of the invariant theorems: what the handlers need of an
    event to handle it normally.  A map request is for an existing
    window of positive size that is not the root, not a client and not
    a frame; a button press is on a client; a motion is on a client,
    after a press, with 16-bit coordinates, as are the queued motion
    events of that window.  Other events carry no requirement.  The
    server may send events outside this guard (a press on the root or
    on a frame); [OnButtonPress_nonclient] and [OnMapRequest_managed]
    show what the code then does. *)
Definition cpp_event_ok (st : CppWorld) (e : XEvent) : Prop :=
  match e with
  | EvMapRequest r =>
      exists ww, xs_windows (cppx st) !! mr_window r = Some ww /\
        0 < xw_width ww /\ 0 < xw_height ww /\ mr_window r <> xs_root (cppx st) /\
        clients_ (wm st) !! mr_window r = None /\ (forall c, clients_ (wm st) !! c <> Some (mr_window r))
  | EvButtonPress b => is_Some (clients_ (wm st) !! be_window b)
  | EvMotionNotify m =>
      me_window m <> XNone /\ is_Some (clients_ (wm st) !! me_window m) /\ drag_ok (wm st) /\
      int16 (me_x_root m) /\ int16 (me_y_root m) /\ Forall (motion16 (me_window m)) (xs_queue (cppx st))
  | _ => True
  end.

Lemma Run_dispatch_ok st e :
  cpp_ok st -> cpp_event_ok st e ->
  exists st', Run_dispatch e st = Ok (tt, st') /\ cpp_ok st'.
Proof.
  intros Hok He. destruct e as [r|r|u|b|m| | | | | |]; cbn [Run_dispatch cpp_event_ok] in He |- *;
    try by eexists.
  - destruct He as (ww & Hw & ? & ? & ? & ? & ?).
    destruct (Frame_new_ok st (mr_window r) ww) as (st1 & Hrun & Hok1 & _); try done.
    eexists. split; [by apply OnMapRequest_run|].
    apply cpp_ok_with_x; [done|apply XMapWindow_xstruct].
  - rewrite OnConfigureRequest_run. eexists. split; [reflexivity|].
    apply cpp_ok_with_x; [done|]. rewrite XConfigureWindow_xstruct.
    by destruct (clients_ (wm st) !! cr_window r); rewrite ?XConfigureWindow_xstruct.
  - by apply OnUnmapNotify_ok.
  - by apply OnButtonPress_ok.
  - destruct He as (Hw & Hc & Hd & Hx & Hy & Hq). unfold drain_motion.
    rewrite bind_assoc, bind_gets. cbv beta.
    rewrite (bind_ok _ _ _ _ _ (coalesce_motion_spec _ st m Hw (Nat.lt_succ_diag_r _))).
    set (m' := last_motion _ _ _).
    assert (Hm' : me_window m' = me_window m /\ int16 (me_x_root m') /\ int16 (me_y_root m')).
    { apply last_motion_P; [done|]. eapply Forall_impl; [exact Hq|].
      intros [] Hev; simpl in *; try done. intros Hmo. split; [|by apply Hev].
      unfold is_motion_of in Hmo. apply andb_true_iff in Hmo as [Hmo _].
      by apply bool_decide_eq_true in Hmo. }
    destruct Hm' as (Hwm & ? & ?).
    apply OnMotionNotify_ok; [apply cpp_ok_with_x; [done|apply xstruct_set_queue]|simpl; by rewrite Hwm|done|done|done].
Qed.

(** An event the server may send still is one once dequeued. *)
Lemma cpp_event_ok_pop st e q :
  xs_queue (cppx st) = e :: q -> cpp_event_ok st e ->
  cpp_event_ok (with_x (set_queue q (set_errors [] (cppx st))) st) e.
Proof.
  intros Hq Hev. destruct e; simpl in *; try done.
  destruct Hev as (? & ? & ? & ? & ? & Hall). rewrite Hq in Hall.
  do 5 (split; [done|]). by inversion Hall.
Qed.

(** Every iteration of the C++ event loop in steady state
    ([OnXError] installed) returns normally and keeps the framing
    invariant [cpp_ok], when the event it dequeues is one the server
    may send ([cpp_event_ok]). *)
Theorem Run_step_ok st :
  cpp_ok st -> xs_handler (cppx st) = AppHandler 1 ->
  (forall e, head (xs_queue (cppx st)) = Some e -> cpp_event_ok st e) ->
  exists b st', Run_step st = Ok (b, st') /\ cpp_ok st'.
Proof.
  intros Hok Hh Hev. unfold Run_step. rewrite (bind_ok _ _ _ _ _ (cpp_XNextEvent_steady st Hh)).
  set (st1 := with_x _ st).
  assert (Hok1 : cpp_ok st1) by (apply cpp_ok_with_x; [done|reflexivity]).
  destruct (xs_queue (cppx st)) as [|e q] eqn:Hq; [by exists false, st1|].
  destruct (Run_dispatch_ok st1 e Hok1 (cpp_event_ok_pop st e q Hq (Hev e eq_refl))) as (st' & Hd & Hok').
  eexists _, st'. split; [|done]. cbn. rewrite (bind_ok _ _ _ _ _ Hd). done.
Qed.

(** ** The error handler stays installed *)

Lemma cppx_with_x x st : x_of (with_x x st) = x.
Proof. reflexivity. Qed.

Lemma keeps_clients_subscript h w : keeps (handler_is h) (clients_subscript w).
Proof. intros s a s' [= _ <-] Hs. done. Qed.

Lemma grows_clients_subscript w : steps queue_grows (clients_subscript w).
Proof. intros s a s' [= _ <-]. unfold queue_grows. reflexivity. Qed.

#[export] Hint Extern 2 (steps (preserves (handler_is _)) (clients_subscript _)) =>
  apply keeps_clients_subscript : keeps.
#[export] Hint Extern 2 (steps queue_grows (clients_subscript _)) =>
  apply grows_clients_subscript : keeps.

Section Handlers.
Context (h : XErrorHandler).

Lemma keeps_cpp_handlers h' code : keeps (handler_is h) (cpp_handlers h' code).
Proof. unfold cpp_handlers, OnWMDetected, OnXError, default_error_handler. keeps_split. Qed.

Lemma keeps_Frame w b : keeps (handler_is h) (Frame w b).
Proof. unfold Frame, get_root_, modify_clients_. keeps_split. Qed.

Lemma keeps_Unframe w : keeps (handler_is h) (Unframe w).
Proof. unfold Unframe, get_root_, modify_clients_. keeps_split. Qed.

Lemma keeps_OnButtonPress e : keeps (handler_is h) (OnButtonPress e).
Proof. unfold OnButtonPress, modify_wm. keeps_split. Qed.

Lemma keeps_OnMotionNotify e : keeps (handler_is h) (OnMotionNotify e).
Proof. unfold OnMotionNotify. keeps_split. Qed.

Lemma keeps_coalesce_motion fuel e : keeps (handler_is h) (coalesce_motion fuel e).
Proof. revert e. induction fuel as [|f IH]; intros e; simpl; keeps_split. Qed.

#[local] Hint Resolve keeps_cpp_handlers keeps_Frame keeps_Unframe keeps_OnButtonPress
  keeps_OnMotionNotify keeps_coalesce_motion : keeps.

Lemma keeps_Run_dispatch e : keeps (handler_is h) (Run_dispatch e).
Proof.
  unfold Run_dispatch, OnMapRequest, OnConfigureRequest, OnUnmapNotify, drain_motion,
    clients_count, get_root_.
  cbv zeta. keeps_split.
Qed.

#[local] Hint Resolve keeps_Run_dispatch : keeps.

(** No iteration of the loop installs another error handler. *)
Lemma keeps_Run_step : keeps (handler_is h) Run_step.
Proof. unfold Run_step, XNextEvent, deliver_errors. keeps_split. Qed.
End Handlers.

(** ** The queued events are handled in order *)

Lemma grows_Frame w b : steps queue_grows (Frame w b).
Proof. unfold Frame, get_root_, modify_clients_. keeps_split. Qed.

Lemma grows_Unframe w : steps queue_grows (Unframe w).
Proof. unfold Unframe, get_root_, modify_clients_. keeps_split. Qed.

Lemma grows_OnButtonPress e : steps queue_grows (OnButtonPress e).
Proof. unfold OnButtonPress, modify_wm. keeps_split. Qed.

#[local] Hint Resolve grows_Frame grows_Unframe grows_OnButtonPress : keeps.

(** Every handler but the motion one only appends to the queue; the
    motion loop removes queued motion events of its window. *)
Lemma grows_Run_dispatch e : event_type e <> MotionNotify -> steps queue_grows (Run_dispatch e).
Proof.
  intros He. destruct e; [| | | |by destruct He|..]; unfold Run_dispatch, OnMapRequest, OnConfigureRequest,
    OnUnmapNotify, clients_count, get_root_; cbv zeta; keeps_split.
Qed.

(** C40: the C++ loop handles the queued events in the order the
    server delivered them: in steady state, when [q] is at the head of
    the queue and holds no motion event (whose handler coalesces later
    motion events of the window), [length q] iterations of [Run]'s
    [for (;;)] dispatch exactly the events of [q], one after the other,
    whatever events the handlers queue meanwhile. *)
Theorem Run_loop_in_order q st :
  xs_handler (cppx st) = AppHandler 1 -> Forall (fun e => event_type e <> MotionNotify) q ->
  q `prefix_of` xs_queue (cppx st) ->
  Run_loop (length q) st = dispatch_all Run_dispatch q st.
Proof.
  apply (run_in_order cppx_with_x Run_step Run_loop Run_dispatch); [done|done| |apply keeps_Run_dispatch|].
  - intros st' e Hh' He. change (head (xs_queue (cppx st')) = Some e) in He. unfold Run_step.
    rewrite (bind_ok _ _ _ _ _ (cpp_XNextEvent_steady st' Hh')), He. reflexivity.
  - apply grows_Run_dispatch.
Qed.
