(* ===== verification/CppReach.v ===== *)
(** * Runs of the C++ window manager among other X clients

    The event loop of [WindowManager::Run] ([src/owen.cpp], lines
    77-119) interleaved with the actions of other clients: [cpp_step]
    is [run_step] of [Runs] for [Run_step], the guard [cpp_event_ok]
    and the registry [clients_].

    Theorems: another client's window creation keeps the framing
    invariant; every state reachable from a steady state is steady
    (the invariant, and the error handler, which no handler changes:
    [keeps_Run_step] of [OwenCpp]) and can take the next loop
    iteration without halting.

    Termination: [CppWorld_Potential] counts 8 per record of
    [clients_]; each handler costs less than the weight of its event,
    so [Run_loop] drains the queue.

    Shutdown: [cpp_owns_frames] holds along every run with [cpp_ok]
    ([cpp_reachable_owns]); the drag handlers change neither the
    registry nor the structure ([fixes_frames]); so the destructor
    gives every client back. *)

From S2P Require Import Prelude Xlib Framing Shutdown Runs Potential CppState Drag OwenCpp.

Definition cpp_step : CppWorld -> CppWorld -> Prop :=
  run_step Run_step cpp_event_ok (fun st => clients_ (wm st)).

(** ** The loop drains its queue *)

#[export] Instance CppWorld_Potential : Potential CppWorld := {
  extra st := (client_weight * size (clients_ (wm st)))%nat;
  extra_with_x x st := eq_refl;
  pot_x_of_with_x x st := eq_refl
}.

Lemma size_delete_lookup (m : gmap Window Window) w f :
  m !! w = Some f -> S (size (delete w m)) = size m.
Proof.
  intros Hw. pose proof (map_size_insert_None w f (delete w m) (lookup_delete_eq m w)) as E.
  by rewrite insert_delete_id in E.
Qed.

(** [clients_[w]] may insert one record. *)
Lemma costs_clients_subscript w : costs 8 (clients_subscript w).
Proof.
  intros s a s' [= _ <-]. unfold pot, map_subscript. cbn [extra x_of CppWorld_Potential CppWorld_HasX].
  destruct (clients_ (wm s) !! w) eqn:E; simpl; [|rewrite map_size_insert_None by done];
    unfold client_weight; lia.
Qed.

Lemma costs_modify_clients_insert w f : costs 8 (modify_clients_ (<[w := f]>)).
Proof.
  intros s a s' [= _ <-]. unfold pot. cbn [extra x_of CppWorld_Potential CppWorld_HasX]. simpl.
  rewrite map_size_insert. unfold client_weight. case_match; simpl; lia.
Qed.

(** The drag members are not the registry. *)
Lemma costs_modify_wm f : (forall m, clients_ (f m) = clients_ m) -> costs 0 (modify_wm f).
Proof. intros Hf s a s' [= _ <-]. unfold pot. simpl. rewrite Hf. lia. Qed.

Lemma costs_coalesce_motion fuel e : costs 0 (coalesce_motion fuel e).
Proof. revert e. induction fuel as [|f IH]; intros e; simpl; costs_split. Qed.

Lemma costs_drain_motion e : costs 0 (drain_motion e).
Proof. unfold drain_motion. costs_split. apply costs_coalesce_motion. Qed.

#[local] Hint Resolve costs_clients_subscript costs_modify_clients_insert costs_drain_motion : costs.
#[local] Hint Extern 2 (costs _ (modify_wm _)) => apply costs_modify_wm; reflexivity : costs.

Lemma costs_Frame w b : costs 14 (Frame w b).
Proof. unfold Frame, get_root_. costs_split. Qed.

Lemma costs_OnButtonPress e : costs 9 (OnButtonPress e).
Proof. unfold OnButtonPress. costs_split. Qed.

Lemma costs_OnMotionNotify e : costs 9 (OnMotionNotify e).
Proof. unfold OnMotionNotify. costs_split. Qed.

(** The unmap of a client: the record it removes pays for the unframe. *)
Lemma costs_OnUnmapNotify e : costs 0 (OnUnmapNotify e).
Proof.
  intros s a s'. unfold OnUnmapNotify, clients_count, get_root_. mrun.
  case_bool_decide as Hc; simpl; mrun; [|intros [= _ <-]; lia].
  case_bool_decide; mrun; [intros [= _ <-]; lia|].
  destruct Hc as [f Hf]. rewrite (Unframe_run _ _ _ Hf). intros [= _ <-].
  pose proof (size_delete_lookup _ _ _ Hf). unfold pot. simpl. qweight_chain.
  unfold client_weight. lia.
Qed.

#[local] Hint Resolve costs_Frame costs_OnButtonPress costs_OnMotionNotify costs_OnUnmapNotify : costs.

Lemma costs_Run_dispatch e : costs (Z.of_nat (ev_weight e) - 1) (Run_dispatch e).
Proof.
  destruct e; unfold Run_dispatch, ev_weight, heavy;
    unfold OnMapRequest, OnConfigureRequest, clients_count; cbv zeta; costs_split.
Qed.


(** C19: the C++ event loop terminates: in steady state, when the
    number of iterations [n] exceeds [16] per queued event plus [8] per
    record of [clients_], [Run_loop n] returns with the queue drained
    unless a handler halts.  The motion loop only removes events; a
    press or a motion on a window that is not a client inserts a record
    ([operator[]]), which the event's weight pays for. *)
Theorem Run_loop_terminates n st :
  xs_handler (cppx st) = AppHandler 1 ->
  (heavy * length (xs_queue (cppx st)) + client_weight * size (clients_ (wm st)) < n)%nat ->
  (exists h, Run_loop n st = Halted h) \/ (exists st', Run_loop n st = Ok (tt, st') /\ xs_queue (cppx st') = []).
Proof.
  intros Hh Hn.
  assert (Hpop : forall st', xs_handler (x_of st') = AppHandler 1 ->
    Run_step st' = (match head (xs_queue (x_of st')) with
                  | Some e => Run_dispatch e ;;; ret true
                  | None => ret false
                  end) (with_x (pop_event (x_of st')) st')).
  { intros st' Hh'. unfold Run_step. rewrite (bind_ok _ _ _ _ _ (cpp_XNextEvent_steady st' Hh')). reflexivity. }
  assert (Hpot : (pot st < n)%nat).
  { unfold pot. cbn [extra x_of CppWorld_Potential CppWorld_HasX].
    pose proof (qweight_le_length (xs_queue (cppx st))). lia. }
  exact (run_terminates Run_step Run_loop Run_dispatch (fun _ => eq_refl)
           Hpop (keeps_Run_dispatch _) costs_Run_dispatch n st Hh Hpot).
Qed.

(** ** The invariant along runs *)

Lemma cpp_ok_create st p w h :
  cpp_ok st -> is_Some (xs_windows (cppx st) !! p) -> (forall c, clients_ (wm st) !! c <> Some p) ->
  0 < w -> 0 < h -> cpp_ok (with_x (client_create p w h (cppx st)) st).
Proof.
  intros (Hr & Hs & Hf) Hp Hnf Hw Hh.
  destruct (frames_ok_client_create _ _ _ p w h Hs Hf Hp Hnf Hw Hh) as (Hr' & Hs' & Hf').
  unfold cpp_ok. cbn [cppx wm with_x CppWorld_HasX]. rewrite Hr'. done.
Qed.

(** C22: along every run of the C++ window manager among other
    clients, from a steady state ([cpp_ok] with [OnXError] installed),
    every reachable state is steady: the framing invariant holds, the
    steady-state error handler is still installed, and, when the event
    at the head of the queue satisfies [cpp_event_ok], the next
    iteration of the loop returns normally (it does not halt).
    [cpp_event_ok] restricts map requests (an existing window of
    positive size, not the root, not a client, not a frame), button
    presses (on a client) and motion events (on a client, after a
    press, with 16-bit coordinates); other events are unrestricted.
    The server also sends presses on the root and on frames, which
    both select [ButtonPressMask], and on those the C++ code reads
    uninitialised memory ([OnButtonPress_nonclient]). *)
Theorem cpp_reachable_ok st0 st :
  cpp_ok st0 -> xs_handler (cppx st0) = AppHandler 1 -> rtc cpp_step st0 st ->
  cpp_ok st /\ xs_handler (cppx st) = AppHandler 1 /\
  ((forall e, head (xs_queue (cppx st)) = Some e -> cpp_event_ok st e) ->
   exists b st', Run_step st = Ok (b, st') /\ cpp_step st st').
Proof.
  intros Hok Hh Hr.
  destruct (run_rtc_steady cppx_with_x Run_step cpp_event_ok _ cpp_ok Run_step_ok
              (keeps_Run_step _) (fun st x H Hx _ => cpp_ok_with_x st x H Hx) cpp_ok_create st0 st (conj Hok Hh) Hr) as [Hok' Hh'].
  do 2 (split; [done|]). intros Hev.
  destruct (Run_step_ok st Hok' Hh' Hev) as (b & st' & Hrun & _).
  exists b, st'. split; [done|]. by apply (run_loop _ _ _ st b st').
Qed.

(** ** The destructor restores the clients *)

(** The windows created on the connection are the frames of [clients_]. *)
Definition cpp_owns_frames (st : CppWorld) : Prop :=
  owns (clients_ (wm st)) (created_windows (xs_log (cppx st))) (xstruct (cppx st)).

(** A handler step that leaves the registry and the structure alone. *)
Definition fixes_frames (s s' : CppWorld) : Prop :=
  clients_ (wm s') = clients_ (wm s) /\ xstruct (cppx s') = xstruct (cppx s).

#[local] Instance fixes_frames_preorder : PreOrder fixes_frames.
Proof. split; [by split|]. intros s1 s2 s3 [E1 F1] [E2 F2]. split; congruence. Qed.

Lemma fixes_xdo f : (forall x, xstruct (f x) = xstruct x) -> steps fixes_frames (xdo f).
Proof. intros Hf s a s' [= _ <-]. split; [reflexivity|apply Hf]. Qed.

Lemma fixes_xcall {A} (f : XServer -> A * XServer) :
  (forall x, xstruct (f x).2 = xstruct x) -> steps fixes_frames (xcall f).
Proof. intros Hf s a s'. unfold xcall. specialize (Hf (cppx s)). destruct (f _). intros [= _ <-]. by split. Qed.

#[local] Hint Extern 2 (steps fixes_frames (xdo _)) =>
  apply fixes_xdo; intros ?; first [apply XRaiseWindow_xstruct|apply XMoveWindow_xstruct] : keeps.
#[local] Hint Extern 2 (steps fixes_frames (xcall _)) =>
  apply fixes_xcall; intros ?; first [apply XGetGeometry_xstruct|apply XCheckTypedWindowEvent_xstruct] : keeps.
#[local] Hint Extern 2 (steps fixes_frames (modify _)) => apply steps_modify; intros ?; by split : keeps.

Lemma fixes_coalesce_motion fuel e : steps fixes_frames (coalesce_motion fuel e).
Proof. revert e. induction fuel as [|f IH]; intros e; simpl; keeps_split. Qed.

#[local] Hint Resolve fixes_coalesce_motion : keeps.

(** A goal [m s = Ok (a, s') -> R s s'] from [steps R m]. *)
Ltac steps_by R :=
  match goal with
  | |- ?m ?s = Ok (?a, ?s') -> _ => let H := fresh in assert (H : steps R m) by keeps_split; exact (H s a s')
  end.

(** The drag handlers, on a client, change neither registry nor structure. *)
Lemma OnButtonPress_fixes st e f st' :
  clients_ (wm st) !! be_window e = Some f -> OnButtonPress e st = Ok (tt, st') -> fixes_frames st st'.
Proof.
  intros Hw. unfold OnButtonPress, modify_wm. rewrite (bind_clients_subscript_Some _ _ _ _ Hw).
  steps_by fixes_frames.
Qed.

Lemma OnMotionNotify_fixes st e f st' :
  clients_ (wm st) !! me_window e = Some f -> OnMotionNotify e st = Ok (tt, st') -> fixes_frames st st'.
Proof.
  intros Hw. unfold OnMotionNotify. rewrite (bind_clients_subscript_Some _ _ _ _ Hw).
  steps_by fixes_frames.
Qed.

(** The coalesced motion event is one of the window's. *)
Lemma last_motion_window w e q : me_window e = w -> me_window (last_motion w e q) = w.
Proof.
  intros He. apply last_motion_P; [done|]. apply Forall_forall. intros [] _; try done.
  intros Hm. unfold is_motion_of in Hm. apply andb_true_iff in Hm as [Hm _].
  by apply bool_decide_eq_true in Hm.
Qed.

(** What a handler of the C++ loop does to the registry and the structure. *)
Lemma Run_dispatch_frames_step st e st' :
  cpp_ok st -> cpp_event_ok st e -> Run_dispatch e st = Ok (tt, st') ->
  frames_step cpp_frame_mask (clients_ (wm st)) (clients_ (wm st')) (xstruct (cppx st)) (xstruct (cppx st')).
Proof.
  intros Hok He Hd. pose proof Hok as (Hr & Hs & Hf).
  destruct e as [r|r|u|b|m| | | | | |]; cbn [Run_dispatch cpp_event_ok] in He, Hd;
    try (apply Ok_state_inj in Hd; subst st'; by left).
  - destruct He as (ww & Hw & Hwd & Hht & Hwr & HRw & Hnf).
    rewrite (OnMapRequest_run st r _ (Frame_new_run st _ ww Hw)) in Hd. apply Ok_state_inj in Hd; subst st'.
    right. left. exists (mr_window r). cbn [cppx with_x CppWorld_HasX wm set_wm clients_ set_clients_].
    rewrite XMapWindow_xstruct, Hr, cpp_frame_requests_xstruct by done.
    split_and!; [|done|done|done|done]. simpl. rewrite lookup_fmap, Hw. by eexists.
  - rewrite OnConfigureRequest_run in Hd. apply Ok_state_inj in Hd; subst st'. left. split; [reflexivity|].
    cbn [cppx with_x CppWorld_HasX]. rewrite XConfigureWindow_xstruct.
    by destruct (clients_ (wm st) !! cr_window r); rewrite ?XConfigureWindow_xstruct.
  - destruct (clients_ (wm st) !! um_window u) as [f|] eqn:Hw.
    + destruct (decide (um_event u = root_ (wm st))) as [Hu|Hu];
        [rewrite OnUnmapNotify_root in Hd by done; apply Ok_state_inj in Hd; subst st'; by left|].
      rewrite (OnUnmapNotify_client _ _ _ Hw Hu) in Hd.
      destruct (Unframe_managed st _ f Hok Hw) as (st2 & Hrun & _ & Hc & Hx).
      rewrite Hrun in Hd. apply Ok_state_inj in Hd; subst st'. right. right. by exists (um_window u), f.
    + unfold OnUnmapNotify in Hd. rewrite bind_clients_count, Hw in Hd. apply Ok_state_inj in Hd; subst st'. by left.
  - destruct He as [f Hw]. left. by destruct (OnButtonPress_fixes st b f st' Hw Hd) as [-> ->].
  - destruct He as (Hwn & [f Hw] & _). rewrite (bind_ok _ _ _ _ _ (drain_motion_spec st m Hwn)) in Hd.
    apply OnMotionNotify_fixes with (f := f) in Hd; [|simpl; by rewrite last_motion_window].
    destruct Hd as [E1 E2]. left. split; [exact E1|rewrite E2; apply xstruct_set_queue].
Qed.

Lemma allocs_clients_subscript w : steps allocs (clients_subscript w).
Proof. intros s a s' [= _ <-]. by apply allocs_same. Qed.

#[local] Hint Resolve allocs_clients_subscript : keeps.

Lemma allocs_coalesce_motion fuel e : steps allocs (coalesce_motion fuel e).
Proof. revert e. induction fuel as [|f IH]; intros e; simpl; keeps_split. Qed.

Lemma allocs_Frame w b : steps allocs (Frame w b).
Proof. unfold Frame, get_root_, modify_clients_. keeps_split. Qed.

Lemma allocs_Unframe w : steps allocs (Unframe w).
Proof. unfold Unframe, get_root_, modify_clients_. keeps_split. Qed.

#[local] Hint Resolve allocs_coalesce_motion allocs_Frame allocs_Unframe : keeps.

Lemma allocs_Run_dispatch e : steps allocs (Run_dispatch e).
Proof.
  unfold Run_dispatch, OnMapRequest, OnConfigureRequest, OnUnmapNotify, OnButtonPress, OnMotionNotify,
    drain_motion, modify_wm, clients_count, get_root_.
  cbv zeta. keeps_split.
Qed.

Lemma cpp_owns_frames_with_x st x :
  cpp_owns_frames st -> xstruct x = xstruct (cppx st) -> xs_log x = xs_log (cppx st) ->
  cpp_owns_frames (with_x x st).
Proof. unfold cpp_owns_frames. cbn [cppx with_x CppWorld_HasX wm]. by intros ? -> ->. Qed.

(** One iteration of the C++ loop keeps the frames the only windows the
    window manager created. *)
Lemma cpp_owns_frames_run_step st b st' :
  cpp_ok st -> cpp_owns_frames st -> xs_handler (cppx st) = AppHandler 1 ->
  (forall e, head (xs_queue (cppx st)) = Some e -> cpp_event_ok st e) ->
  Run_step st = Ok (b, st') -> cpp_owns_frames st'.
Proof.
  intros Hok Ho Hh Hev. unfold Run_step. rewrite (bind_ok _ _ _ _ _ (cpp_XNextEvent_steady st Hh)).
  set (st1 := with_x _ st).
  assert (Hok1 : cpp_ok st1) by (apply cpp_ok_with_x; [done|reflexivity]).
  assert (Ho1 : cpp_owns_frames st1) by (apply cpp_owns_frames_with_x; done).
  destruct (xs_queue (cppx st)) as [|e q] eqn:Hq; [by intros [= _ <-]|]. cbn [head]. cbv beta iota.
  destruct (Run_dispatch e st1) as [[[] st2]|h] eqn:Hd;
    [rewrite (bind_ok _ _ _ _ _ Hd); intros [= _ <-]|by rewrite (bind_halt _ _ _ _ Hd)].
  pose proof Hok1 as (_ & Hs1 & Hf1).
  apply (owns_step cpp_frame_mask (clients_ (wm st1)) _ _ Hs1 Hf1 Ho1).
  - exact (Run_dispatch_frames_step st1 e st2 Hok1 (cpp_event_ok_pop st e q Hq (Hev e eq_refl)) Hd).
  - exact (proj2 (allocs_Run_dispatch e st1 tt st2 Hd)).
Qed.

Lemma cpp_owns_frames_create st p w h :
  cpp_ok st -> cpp_owns_frames st -> is_Some (xs_windows (cppx st) !! p) -> 0 < w -> 0 < h ->
  cpp_owns_frames (with_x (client_create p w h (cppx st)) st).
Proof.
  intros (_ & Hs & _) Ho Hp Hw Hh. unfold cpp_owns_frames. cbn [cppx with_x CppWorld_HasX wm].
  rewrite client_create_xstruct by done. by apply owns_create.
Qed.

(** The framing invariant and the ownership of the frames hold along
    every run of the C++ loop from a steady state. *)
Lemma cpp_reachable_owns st0 st :
  cpp_ok st0 -> xs_handler (cppx st0) = AppHandler 1 -> cpp_owns_frames st0 -> rtc cpp_step st0 st ->
  cpp_ok st /\ cpp_owns_frames st.
Proof.
  intros Hok Hh Ho Hr.
  refine (proj1 (run_rtc_steady cppx_with_x Run_step cpp_event_ok _
                   (fun st => cpp_ok st /\ cpp_owns_frames st) _ (keeps_Run_step _) _ _ st0 st
                   (conj (conj Hok Ho) Hh) Hr)).
  - intros s [Hs Hos] Hhs Hev. destruct (Run_step_ok s Hs Hhs Hev) as (b & s' & Hrun & Hs').
    exists b, s'. split_and!; [done|done|]. exact (cpp_owns_frames_run_step s b s' Hs Hos Hhs Hev Hrun).
  - intros s x [Hs Hos] Hx Hl. split; [by apply cpp_ok_with_x|by apply cpp_owns_frames_with_x].
  - intros s p w h [Hs Hos] Hp Hnf Hw Hh'. split; [by apply cpp_ok_create|by apply cpp_owns_frames_create].
Qed.

(** C20: the destructor gives every client back: along every run of
    the C++ loop from a steady state in which the window manager has
    created no window but its frames, [~WindowManager]'s
    [XCloseDisplay] returns normally, and afterwards every client of
    [clients_] is a mapped child of the root at the position its
    frame's border put it on the screen, and its frame is gone (the
    server's save-set processing, which [Frame]'s [XAddToSaveSet] asks
    for). *)
Theorem WindowManager_dtor_restores st0 st :
  cpp_ok st0 -> xs_handler (cppx st0) = AppHandler 1 -> cpp_owns_frames st0 -> rtc cpp_step st0 st ->
  exists st', WindowManager_dtor st = Ok (tt, st') /\
  forall c f, clients_ (wm st) !! c = Some f ->
    exists cw fw, xs_windows (cppx st) !! c = Some cw /\ xs_windows (cppx st) !! f = Some fw /\
      xs_windows (cppx st') !! c =
        Some (with_mapped true (with_parent (xs_root (cppx st)) (xw_x fw + xw_border_width fw + xw_x cw)
                                  (xw_y fw + xw_border_width fw + xw_y cw) cw)) /\
      xs_windows (cppx st') !! f = None.
Proof.
  intros Hok Hh Ho Hr. destruct (cpp_reachable_owns st0 st Hok Hh Ho Hr) as ((_ & Hs & Hf) & Ho').
  exists (with_x (XCloseDisplay (cppx st)) st). split; [reflexivity|].
  intros c f Hc. exact (close_restores_owns _ _ _ c f Hs Hf Ho' Hc).
Qed.

(** C36: no frame is leaked by the C++ code: along every run from a
    steady state in which the window manager has created no window but
    its frames (heading events satisfying [cpp_event_ok]), every window
    its connection created that still exists is the frame of a client
    of [clients_], and of only one. *)
Theorem cpp_no_leaked_frames st0 st :
  cpp_ok st0 -> xs_handler (cppx st0) = AppHandler 1 -> cpp_owns_frames st0 -> rtc cpp_step st0 st ->
  forall v, v ∈ created_windows (xs_log (cppx st)) -> is_Some (xs_windows (cppx st) !! v) ->
    exists c, clients_ (wm st) !! c = Some v /\ forall c', clients_ (wm st) !! c' = Some v -> c' = c.
Proof.
  intros Hok Hh Ho Hr v Hv Hex.
  destruct (cpp_reachable_owns st0 st Hok Hh Ho Hr) as ((_ & _ & Hf) & (_ & _ & _ & Hown & _)).
  destruct (Hown v Hv) as [c Hc]; [simpl; rewrite lookup_fmap; by apply fmap_is_Some|].
  exists c. split; [done|]. exact (proj2 (proj2 (frames_ok_distinct _ _ _ Hf c v Hc))).
Qed.
