(* ===== verification/CppScenario.v ===== *)
(** * Concrete runs of the C++ window manager

    The spec's scenario for the C++ implementation (three clients on a
    1920x1080 screen, framed at (50,50) with their own size), extended
    with a drag of the first client; and the concrete states at which
    the theorems of [OwenCpp], [Drag] and [CppReach] are instantiated
    (a run among other clients, followed by the destructor).  Every state
    is computed by running the model, and every hypothesis is
    discharged by evaluation. *)

From S2P Require Import Prelude Xlib Registry Layout Framing Shutdown OwenC Scenario Runs CppState Drag OwenCpp CppReach.

(** The state a computation leaves, or the initial one when it halts. *)
Definition cpp_after {A} (m : M CppWorld A) (st : CppWorld) : CppWorld :=
  match m st with Ok (_, st') => st' | Halted _ => st end.

Definition cpp_world_of (x : XServer) : CppWorld := mkCppWorld (WindowManager_ctor x) false x.

Definition cst0 : CppWorld := cpp_world_of scenario_x0.

(** After the handshake: [OnXError] installed, nothing framed. *)
Definition cst_init : CppWorld := cpp_after Run_init cst0.

(** After framing window 10: client 10 in frame 100 at (50,50). *)
Definition cst_one : CppWorld := cpp_after (Frame 10 false) cst_init.

Definition press_10 : XButtonEvent :=
  {| be_window := 10; be_x_root := 100; be_y_root := 100; be_state := 0; be_button := 1 |}.

Definition motion_10 (x y : Z) : XMotionEvent :=
  {| me_window := 10; me_x_root := x; me_y_root := y; me_state := Button1Mask |}.

(** After a press of button 1 on client 10 at (100,100). *)
Definition cst_pressed : CppWorld := cpp_after (OnButtonPress press_10) cst_one.

(** The scenario's server, with a press and two motions on client 10
    queued after the three map requests. *)
Definition drag_x0 : XServer :=
  set_queue (xs_queue scenario_x0 ++
             [EvButtonPress press_10; EvMotionNotify (motion_10 150 120);
              EvMotionNotify (motion_10 200 140)]) scenario_x0.

(** A protocol error pending before the handshake. *)
Definition errs_x0 : XServer := set_errors [BadValue] scenario_x0.

(** ** The scenario, end to end *)

(** The spec's scenario with a drag, evaluated: [Create] then [Run]:
    the three clients are framed at (50,50) with their size 640x480
    (the frames of the C++ code overlap exactly); then the press at
    (100,100) and the two motions, coalesced into the last one at
    (200,140), move client 10's frame by (100,40) to (150,90).  The
    loop ends with the queue drained. *)
Example cpp_main_drag :
  match cpp_main (Some drag_x0) 100 with
  | Some (Ok (_, st)) =>
      clients_ (wm st) = <[10%N := 100%N]> (<[11%N := 101%N]> (<[12%N := 102%N]> ∅)) /\
      frame_rect (cppx st) 100 = Some (mkRect 150 90 640 480) /\
      frame_rect (cppx st) 101 = Some (mkRect 50 50 640 480) /\
      frame_rect (cppx st) 102 = Some (mkRect 50 50 640 480) /\
      xs_queue (cppx st) = []
  | _ => False
  end.
Proof. vm_compute. repeat split. Qed.

(** ** Witnesses *)

Lemma OnMapRequest_frames_witness :
  exists st', OnMapRequest map_10 cst_init = Ok (tt, st') /\ cpp_ok st' /\
    clients_ (wm st') = <[mr_window map_10 := xs_next_id (cppx cst_init)]> (clients_ (wm cst_init)).
Proof.
  apply (OnMapRequest_frames cst_init map_10 scenario_client);
    first [reflexivity | decide_by_eval | apply map_Forall_not_img; decide_by_eval].
Defined.

Lemma OnUnmapNotify_root_witness :
  OnUnmapNotify {| um_event := 1; um_window := 10 |} cst_one = Ok (tt, cst_one).
Proof. apply OnUnmapNotify_root. reflexivity. Defined.

Lemma OnUnmapNotify_unframes_witness :
  exists st', OnUnmapNotify unmap_10 cst_one = Ok (tt, st') /\ cpp_ok st' /\
    clients_ (wm st') = delete (um_window unmap_10) (clients_ (wm cst_one)).
Proof. apply (OnUnmapNotify_unframes cst_one unmap_10 100); first [reflexivity | decide_by_eval]. Defined.

Lemma Frame_requests_witness :
  exists st', Frame 10 false cst_init = Ok (tt, st') /\
    xs_log (cppx st') = xs_log (cppx cst_init) ++
      [RqCreateWindow 100 1 50 50 640 480 4;
       RqSelectInput 100 cpp_frame_mask; RqGrabButton 10; RqChangeSaveSet 10 true;
       RqReparentWindow 10 100 0 0; RqMapWindow 100].
Proof. apply (Frame_requests cst_init 10 scenario_client). reflexivity. Defined.

Lemma drag_moves_frame_witness :
  exists st', (OnButtonPress press_10 ;;; OnMotionNotify (motion_10 200 140)) cst_one = Ok (tt, st') /\
    cppx st' = XMoveWindow 100 (50 + (200 - 100)) (50 + (140 - 100)) (XRaiseWindow 100 (cppx cst_one)) /\
    clients_ (wm st') = clients_ (wm cst_one).
Proof.
  apply (drag_moves_frame cst_one press_10 (motion_10 200 140) 100
           (mkXWin 1 50 50 640 480 4 true false cpp_frame_mask false));
    first [reflexivity | decide_by_eval].
Defined.

Lemma drain_motion_spec_witness :
  drain_motion (motion_10 150 120) (with_x drag_x0 cst_init) =
    Ok (last_motion 10 (motion_10 150 120) (xs_queue drag_x0),
        with_x (set_queue (other_events 10 (xs_queue drag_x0)) drag_x0) (with_x drag_x0 cst_init)).
Proof. exact (drain_motion_spec (with_x drag_x0 cst_init) (motion_10 150 120) ltac:(discriminate)). Defined.

Lemma OnMotionNotify_nonclient_witness :
  exists st', OnMotionNotify {| me_window := 11; me_x_root := 120; me_y_root := 130; me_state := 0 |}
                cst_pressed = Ok (tt, st') /\
    clients_ (wm st') = <[11%N := XNone]> (clients_ (wm cst_pressed)).
Proof.
  apply (OnMotionNotify_nonclient cst_pressed
           {| me_window := 11; me_x_root := 120; me_y_root := 130; me_state := 0 |} 100 100 50 50);
    first [reflexivity | decide_by_eval].
Defined.

Lemma OnButtonPress_nonclient_witness :
  OnButtonPress {| be_window := 1; be_x_root := 5; be_y_root := 5; be_state := 0; be_button := 1 |} cst_one =
    Halted (Undefined "XGetGeometry outputs read uninitialised").
Proof. apply OnButtonPress_nonclient; reflexivity. Defined.

Lemma OnMapRequest_managed_witness :
  exists st', OnMapRequest map_10 cst_one = Ok (tt, st') /\
    clients_ (wm st') !! mr_window map_10 = Some (xs_next_id (cppx cst_one)) /\
    is_Some (st_wins (xstruct (cppx st')) !! 100%N) /\
    (forall v, sparent (xstruct (cppx st')) v <> Some 100%N) /\
    (forall c, clients_ (wm st') !! c <> Some 100%N).
Proof.
  apply (OnMapRequest_managed cst_one map_10 (default scenario_client (xs_windows (cppx cst_one) !! 10%N)) 100);
    first [decide_by_eval | vm_compute; reflexivity].
Defined.

Lemma Run_rival_witness :
  exists st', Run 10 (cpp_world_of rival_x0) = Ok (tt, st') /\ wm_detected_ st' = true /\
    clients_ (wm st') = clients_ (wm (cpp_world_of rival_x0)) /\
    xs_log (cppx st') = xs_log rival_x0 ++ [RqSelectInput (xs_root rival_x0) cpp_root_mask].
Proof. apply Run_rival; first [reflexivity | decide_by_eval]. Defined.

Lemma Run_init_check_witness :
  Run 10 (cpp_world_of errs_x0) = Halted (CheckFailed "static_cast<int>(e->error_code) == BadAccess").
Proof. apply (Run_init_check _ _ BadValue []); first [reflexivity | decide_by_eval]. Defined.

Lemma Frame_vanished_witness :
  Frame 42 true cst0 = Halted (CheckFailed "XGetWindowAttributes(display_, w, &x_window_attrs)").
Proof. apply Frame_vanished. reflexivity. Defined.

(** A run among other clients: the loop frames client 10, another
    client creates the top-level window 101 (300x200), and the server
    queues its redirected map request. *)
Definition reach_1 : CppWorld := cpp_after Run_step cst_init.
Definition reach_2 : CppWorld := with_x (client_create 1 300 200 (x_of reach_1)) reach_1.
Definition reach_3 : CppWorld :=
  with_x (server_event (EvMapRequest {| mr_parent := 1; mr_window := 101 |}) (x_of reach_2)) reach_2.

Lemma reach_3_reachable : rtc cpp_step cst_init reach_3.
Proof.
  apply (rtc_l _ cst_init reach_1); [apply (run_loop Run_step cpp_event_ok (fun st => clients_ (wm st)) cst_init true reach_1)|].
  { intros e He. vm_compute in He. injection He as <-.
    exists scenario_client. split; [reflexivity|]. do 4 (split; [decide_by_eval|]).
    apply map_Forall_not_img. decide_by_eval. }
  { vm_compute. reflexivity. }
  apply (rtc_l _ reach_1 reach_2); [apply (run_create Run_step cpp_event_ok (fun st => clients_ (wm st)) reach_1 1 300 200); [decide_by_eval| |lia|lia]|].
  { apply map_Forall_not_img. decide_by_eval. }
  apply (rtc_l _ reach_2 reach_3); [apply (run_event Run_step cpp_event_ok (fun st => clients_ (wm st)) reach_2)|apply rtc_refl].
Qed.

Lemma cpp_reachable_ok_witness :
  cpp_ok reach_3 /\ xs_handler (cppx reach_3) = AppHandler 1 /\
  ((forall e, head (xs_queue (cppx reach_3)) = Some e -> cpp_event_ok reach_3 e) ->
   exists b st', Run_step reach_3 = Ok (b, st') /\ cpp_step reach_3 st').
Proof.
  apply (cpp_reachable_ok cst_init reach_3); [decide_by_eval|reflexivity|apply reach_3_reachable].
Defined.

(** After [Run]'s start-up the window manager has created no window. *)
Lemma cpp_owns_frames_cst_init : cpp_owns_frames cst_init.
Proof.
  unfold cpp_owns_frames. assert (Hc : created_windows (xs_log (cppx cst_init)) = []) by (vm_compute; reflexivity).
  rewrite Hc. split_and!; [by apply not_elem_of_nil| |by intros ? ?%elem_of_nil|by intros ? ?%elem_of_nil|].
  - intros pm Hpm. vm_compute in Hpm. injection Hpm as <-. reflexivity.
  - intros c f Hcf. vm_compute in Hcf. discriminate.
Qed.

(** The destructor after the run, in which client 10 was framed. *)
Lemma WindowManager_dtor_restores_witness :
  exists st', WindowManager_dtor reach_3 = Ok (tt, st') /\
  forall c f, clients_ (wm reach_3) !! c = Some f ->
    exists cw fw, xs_windows (cppx reach_3) !! c = Some cw /\ xs_windows (cppx reach_3) !! f = Some fw /\
      xs_windows (cppx st') !! c =
        Some (with_mapped true (with_parent (xs_root (cppx reach_3)) (xw_x fw + xw_border_width fw + xw_x cw)
                                  (xw_y fw + xw_border_width fw + xw_y cw) cw)) /\
      xs_windows (cppx st') !! f = None.
Proof.
  apply (WindowManager_dtor_restores cst_init reach_3);
    [decide_by_eval|reflexivity|exact cpp_owns_frames_cst_init|exact reach_3_reachable].
Defined.

Lemma map_unmap_roundtrip_witness :
  exists st1 st2, OnMapRequest map_10 cst_init = Ok (tt, st1) /\
    OnUnmapNotify {| um_event := xs_next_id (cppx cst_init); um_window := mr_window map_10 |} st1
      = Ok (tt, st2) /\
    clients_ (wm st2) = clients_ (wm cst_init) /\ xstruct (cppx st2) = st_bump (xstruct (cppx cst_init)) /\
    exists cw, xs_windows (cppx st2) !! mr_window map_10 = Some cw /\ xw_x cw = 0 /\ xw_y cw = 0.
Proof.
  assert (E : xs_save_set (cppx cst_init) = ∅) by (vm_compute; reflexivity).
  apply (map_unmap_roundtrip cst_init map_10 scenario_client);
    first [reflexivity | decide_by_eval | apply map_Forall_not_img; decide_by_eval
          | rewrite E; set_solver].
Defined.

(** After the handshake on the server with the drag queued. *)
Definition cst_drag : CppWorld := cpp_after Run_init (cpp_world_of drag_x0).

Lemma Run_loop_in_order_witness :
  Run_loop 4 cst_drag =
  dispatch_all Run_dispatch
    [EvMapRequest map_10; EvMapRequest {| mr_parent := 1; mr_window := 11 |};
     EvMapRequest {| mr_parent := 1; mr_window := 12 |}; EvButtonPress press_10] cst_drag.
Proof.
  apply (Run_loop_in_order
    [EvMapRequest map_10; EvMapRequest {| mr_parent := 1; mr_window := 11 |};
     EvMapRequest {| mr_parent := 1; mr_window := 12 |}; EvButtonPress press_10]);
    [reflexivity|decide_by_eval|].
  exists [EvMotionNotify (motion_10 150 120); EvMotionNotify (motion_10 200 140)].
  vm_compute. reflexivity.
Defined.

(** The order of handling is not the order of delivery when motion
    events are queued around another event: during the drag of client
    10, with a motion, a map request and a second motion queued, the
    first iteration of the loop already moves the frame to the second
    motion's position, and leaves the map request, delivered before
    it, queued (followed by the notification of the frame's move). *)
Definition cst_reorder : CppWorld :=
  with_x (set_queue [EvMotionNotify (motion_10 150 120); EvMapRequest {| mr_parent := 1; mr_window := 11 |};
                     EvMotionNotify (motion_10 200 140)] (cppx cst_pressed)) cst_pressed.

Lemma Run_step_reorders :
  match Run_step cst_reorder with
  | Ok (true, st') =>
      xs_queue (cppx st') = [EvMapRequest {| mr_parent := 1; mr_window := 11 |}; EvConfigureNotify 1 100] /\
      frame_rect (cppx st') 100 = Some (mkRect 150 90 640 480)
  | _ => False
  end.
Proof. vm_compute. split; reflexivity. Qed.

Lemma Run_loop_terminates_witness :
  (exists h, Run_loop 97 cst_drag = Halted h) \/
  (exists st', Run_loop 97 cst_drag = Ok (tt, st') /\ xs_queue (cppx st') = []).
Proof. apply Run_loop_terminates; [reflexivity|apply Nat.ltb_lt; vm_compute; reflexivity]. Defined.

(** No frame is leaked along the C++ run among other clients: window
    100, created by the window manager, is the frame of one client. *)
Lemma cpp_no_leaked_frames_witness :
  100%N ∈ created_windows (xs_log (cppx reach_3)) /\ is_Some (xs_windows (cppx reach_3) !! 100%N) /\
  exists c, clients_ (wm reach_3) !! c = Some 100%N /\ forall c', clients_ (wm reach_3) !! c' = Some 100%N -> c' = c.
Proof.
  assert (Hv : 100%N ∈ created_windows (xs_log (cppx reach_3))) by decide_by_eval.
  assert (Hx : is_Some (xs_windows (cppx reach_3) !! 100%N)) by decide_by_eval.
  split; [exact Hv|]. split; [exact Hx|].
  exact (cpp_no_leaked_frames cst_init reach_3 ltac:(decide_by_eval) eq_refl cpp_owns_frames_cst_init
           reach_3_reachable 100%N Hv Hx).
Defined.
